(** * WHOOP integration of the Slack bot: token lifecycle, sync and standup formatting

    Shallow embedding of [internal/whoop/service.go], of the message
    formatter of [internal/whoop/client.go] and of the [whoop_connections]
    part of the [database] package, followed by the properties the
    specification states about them.

    Conventions:
    - a Go [int] / [int64] is a [Z] kept in the 64-bit two's complement
      range by [GoInt.wrap];
    - a Go [float64] is an IEEE 754 binary64 value, [spec_float] with
      precision 53 and maximal exponent 1024, rounded to nearest even;
    - a Go [string] is a [string] of bytes (emoji are their UTF-8 bytes);
    - a [map[string]interface{}] is a [gmap string Value];
    - [time.Time] is a number of nanoseconds since Go's zero time. *)

From Stdlib Require Import ZArith List String Ascii Bool Lia DecimalString SpecFloat.
From stdpp Require Import gmap strings.
Import ListNotations.

Local Open Scope string_scope.
Local Open Scope list_scope.
Local Open Scope Z_scope.

(** String concatenation computes under [simpl] on a literal prefix. *)
#[local] Arguments String.append !s1 s2 : simpl nomatch.

(** ** Go integers *)

Module GoInt.

Definition min_int64 : Z := - 2 ^ 63.
Definition max_int64 : Z := 2 ^ 63 - 1.

(** Two's complement wrap-around of 64-bit signed arithmetic. *)
Definition wrap (z : Z) : Z := (z + 2 ^ 63) mod 2 ^ 64 - 2 ^ 63.

Definition add (a b : Z) : Z := wrap (a + b).
Definition mul (a b : Z) : Z := wrap (a * b).

Definition in_range (z : Z) : bool := (min_int64 <=? z) && (z <=? max_int64).

End GoInt.

(** ** Go float64 *)

Module Float64.

Definition prec : Z := 53.
Definition emax : Z := 1024.

Abbreviation float64 := spec_float.

Definition zero : float64 := S754_zero false.

Definition add : float64 -> float64 -> float64 := SFadd prec emax.
Definition sub : float64 -> float64 -> float64 := SFsub prec emax.
Definition mul : float64 -> float64 -> float64 := SFmul prec emax.
Definition div : float64 -> float64 -> float64 := SFdiv prec emax.

(** [x == y], [x >= y], [x > y]; all false on NaN. *)
Definition eqb (x y : float64) : bool := SFeqb x y.
Definition geb (x y : float64) : bool := SFleb y x.
Definition gtb (x y : float64) : bool := SFltb y x.

(** [float64(n)] for an integer [n]. *)
Definition of_int (n : Z) : float64 := binary_normalize prec emax n 0 false.

(** The decimal constant [n / 10^k], as the compiler rounds it. *)
Definition decimal (n : Z) (k : nat) : float64 :=
  div (of_int n) (of_int (10 ^ Z.of_nat k)).

(** Integer part, toward zero; [None] for NaN and the infinities. *)
Definition trunc (x : float64) : option Z :=
  match x with
  | S754_zero _ => Some 0
  | S754_finite s m e =>
      let mag := if 0 <=? e then Zpos m * 2 ^ e else Zpos m / 2 ^ (- e) in
      Some (if s then - mag else mag)
  | S754_infinity _ | S754_nan => None
  end.

(** [int(x)]. The Go specification leaves the result open when the
    value does not fit; amd64 (CVTTSD2SQ) yields the least integer. *)
Definition to_int (x : float64) : Z :=
  match trunc x with
  | Some z => if GoInt.in_range z then z else GoInt.min_int64
  | None => GoInt.min_int64
  end.

End Float64.

Import Float64.

(** ** The [fmt] verbs the program uses *)

Module Fmt.

(** [%d] *)
Definition d (z : Z) : string := NilZero.string_of_int (Z.to_int z).

Fixpoint zeros (n : nat) : string :=
  match n with
  | O => ""
  | S n' => String "0" (zeros n')
  end.

(** Nearest integer to [n / d] for [d > 0], ties to even. *)
Definition round_half_even (n d : Z) : Z :=
  let q := n / d in
  match 2 * (n mod d) ?= d with
  | Lt => q
  | Gt => q + 1
  | Eq => if Z.even q then q else q + 1
  end.

(** The digits of [q], a count of [10^-p] units, with [p] decimals. *)
Definition fixed (p : nat) (q : Z) : string :=
  let ds := d q in
  let ds := zeros (S p - String.length ds) +:+ ds in
  let k := (String.length ds - p)%nat in
  match p with
  | O => ds
  | _ => substring 0 k ds +:+ "." +:+ substring k p ds
  end.

Definition sign (s : bool) : string := if s then "-" else "".

(** [%.pf]: the exact binary value rounded to [p] decimals, ties to
    even, as [strconv] does with its exact decimal conversion. *)
Definition f (p : nat) (x : float64) : string :=
  match x with
  | S754_nan => "NaN"
  | S754_infinity s => (if s then "-" else "+") +:+ "Inf"
  | S754_zero s => sign s +:+ fixed p 0
  | S754_finite s m e =>
      let scale := 10 ^ Z.of_nat p in
      let q := if 0 <=? e then Zpos m * 2 ^ e * scale
               else round_half_even (Zpos m * scale) (2 ^ (- e)) in
      sign s +:+ fixed p q
  end.

End Fmt.

(** ** Message formatter ([MessageFormatter] of client.go) *)

(** A dynamically typed value held in a [map[string]interface{}]. *)
Inductive Value :=
| VNil
| VInt64 (n : Z)
| VFloat64 (x : float64)
| VString (s : string).

Abbreviation Row := (gmap string Value).

Inductive Weekday :=
| Sunday | Monday | Tuesday | Wednesday | Thursday | Friday | Saturday.

Module Formatter.

Definition nl : string := String (ascii_of_nat 10) "".

(** [strings.Join] *)
Fixpoint Join (parts : list string) (sep : string) : string :=
  match parts with
  | [] => ""
  | [p] => p
  | p :: rest => p +:+ sep +:+ Join rest sep
  end.

(** Helper functions for data extraction *)
Definition getString (data : Row) (key : string) : string :=
  match data !! key with
  | Some (VString str) => str
  | _ => ""
  end.

Definition getInt64 (data : Row) (key : string) : Z :=
  match data !! key with
  | Some (VInt64 num) => num
  | _ => 0
  end.

Definition getFloat64 (data : Row) (key : string) : float64 :=
  match data !! key with
  | Some (VFloat64 num) => num
  | _ => zero
  end.

(** [v, exists := data[key]; exists && v != nil] *)
Definition present (data : Row) (key : string) : bool :=
  match data !! key with
  | Some VNil | None => false
  | Some _ => true
  end.

Definition getRecoveryEmoji (score : Z) : string :=
  if 75 <=? score then "🟢"
  else if 50 <=? score then "🟡"
  else if 25 <=? score then "🟠"
  else "🔴".

Definition getSleepEmoji (score : Z) : string :=
  if 80 <=? score then "😴"
  else if 60 <=? score then "😊"
  else if 40 <=? score then "😐"
  else "😵".

Definition getTeamMoodEmoji (avgRecovery avgSleep : float64) : string :=
  let avgScore := div (add avgRecovery avgSleep) (of_int 2) in
  if geb avgScore (of_int 75) then "🔥 Team is ON FIRE!"
  else if geb avgScore (of_int 60) then "💪 Team is feeling strong!"
  else if geb avgScore (of_int 45) then "⚡ Team is ready to go!"
  else if geb avgScore (of_int 30) then "☕ Team needs more coffee..."
  else "🆘 Team needs extra care today!".

Definition formatScore (score : float64) : string :=
  if eqb score zero then "N/A" else Fmt.f 0 score +:+ "%".

(** [TeamSummary] holds aggregated team statistics *)
Record TeamSummary := {
  avgRecovery : string;
  avgSleep : string;
  totalSleep : string;
  emoji : string;
  recoveryNum : float64;
  sleepNum : float64
}.

Definition msPerHour : float64 := of_int (1000 * 60 * 60).

(** The three accumulators of the first loop of [calculateTeamSummary]. *)
Record Totals := {
  recoveryScores : list float64;
  sleepScores : list float64;
  totalSleepHours : float64
}.

Definition tally (acc : Totals) (userData : Row) : Totals :=
  let rs :=
    match userData !! "recovery_score" with
    | Some (VInt64 score) => recoveryScores acc ++ [of_int score]
    | _ => recoveryScores acc
    end in
  let ss :=
    match userData !! "sleep_score" with
    | Some (VInt64 score) => sleepScores acc ++ [of_int score]
    | _ => sleepScores acc
    end in
  let hours :=
    match userData !! "duration_ms" with
    | Some (VInt64 duration) => add (totalSleepHours acc) (div (of_int duration) msPerHour)
    | _ => totalSleepHours acc
    end in
  {| recoveryScores := rs; sleepScores := ss; totalSleepHours := hours |}.

(** [avg := 0.0; if len(scores) > 0 { sum over scores; avg = sum / float64(len(scores)) }] *)
Definition average (scores : list float64) : float64 :=
  match scores with
  | [] => zero
  | _ =>
      let sum := fold_left (fun sum score => add sum score) scores zero in
      div sum (of_int (Z.of_nat (length scores)))
  end.

Definition calculateTeamSummary (teamData : list Row) : TeamSummary :=
  let acc := fold_left tally teamData
               {| recoveryScores := []; sleepScores := []; totalSleepHours := zero |} in
  let avgRecovery := average (recoveryScores acc) in
  let avgSleep := average (sleepScores acc) in
  let emoji := getTeamMoodEmoji avgRecovery avgSleep in
  {| avgRecovery := formatScore avgRecovery;
     avgSleep := formatScore avgSleep;
     totalSleep := Fmt.f 1 (totalSleepHours acc) +:+ "h total";
     emoji := emoji;
     recoveryNum := avgRecovery;
     sleepNum := avgSleep |}.

(** [formatUserData] creates a formatted string for a single user's data *)
Definition formatUserData (userData : Row) : string :=
  let username := getString userData "username" in
  let realName := getString userData "real_name" in
  let displayName := if String.eqb realName "" then username else realName in
  let recoveryPart :=
    if present userData "recovery_score" then
      let score := getInt64 userData "recovery_score" in
      let hrv := getInt64 userData "hrv" in
      let rhr := getInt64 userData "rhr" in
      let recoveryText := "Recovery: " +:+ getRecoveryEmoji score +:+ " " +:+ Fmt.d score +:+ "%" in
      [if (0 <? hrv) && (0 <? rhr)
       then recoveryText +:+ " (HRV: " +:+ Fmt.f 1 (of_int hrv) +:+ "ms, RHR: " +:+ Fmt.d rhr +:+ "bpm)"
       else recoveryText]
    else [] in
  let sleepPart :=
    if present userData "sleep_score" then
      let score := getInt64 userData "sleep_score" in
      let durationMS := getInt64 userData "duration_ms" in
      let efficiency := getFloat64 userData "efficiency" in
      let sleepHours := div (of_int durationMS) msPerHour in
      let sleepText := "Sleep: " +:+ getSleepEmoji score +:+ " " +:+ Fmt.d score +:+ "% ("
                         +:+ Fmt.f 1 sleepHours +:+ "h" in
      let sleepText := if gtb efficiency zero
                       then sleepText +:+ ", " +:+ Fmt.f 0 efficiency +:+ "% eff"
                       else sleepText in
      [sleepText +:+ ")"]
    else [] in
  let parts := recoveryPart ++ sleepPart in
  let parts := match parts with
               | [] => ["No recent data 📊"]
               | _ => parts
               end in
  let dataText := Join parts " • " in
  "• **" +:+ displayName +:+ ":** " +:+ dataText.

(** [weekday] is [time.Now().Weekday()]. *)
Definition generateMotivationalFooter (weekday : Weekday) (summary : TeamSummary) : string :=
  let dayMessage :=
    match weekday with
    | Monday => "Let's crush this Monday! 💪"
    | Tuesday => "Tuesday momentum building! 🚀"
    | Wednesday => "Hump day hustle! 🐪"
    | Thursday => "Thursday thunder! ⚡"
    | Friday => "Friday finisher! 🎉"
    | Saturday => "Saturday vibes! 🌟"
    | Sunday => "Sunday reset! 🧘"
    end in
  let performanceMsg :=
    if geb (recoveryNum summary) (of_int 70)
    then "The team is well-recovered and ready for anything!"
    else if geb (recoveryNum summary) (of_int 50)
    then "Good recovery levels - steady as she goes!"
    else if gtb (recoveryNum summary) zero
    then "Take it easy today and focus on recovery!"
    else "" in
  "🌟 " +:+ dayMessage +:+ " " +:+ performanceMsg +:+ nl +:+ nl
    +:+ "_💡 Pro tip: Use `/whoop-status` to check individual stats or `/morning-report` for a fresh update!_".

Definition noDataMessage : string :=
  "🌅 *Good Morning Team!* 🌅" +:+ nl +:+ nl
    +:+ "No WHOOP data available yet. Connect your WHOOP accounts with `/connect-whoop` to see your daily stats! 🚀".

Definition standupHeader : string :=
  "🌅 *Good Morning Team! Here's how everyone's feeling today:* 🌅" +:+ nl +:+ nl.

(** [FormatMorningStandup] creates a comprehensive morning standup message *)
Definition FormatMorningStandup (weekday : Weekday) (teamData : list Row) : string :=
  match teamData with
  | [] => noDataMessage
  | _ =>
      let teamSummary := calculateTeamSummary teamData in
      let overview :=
        "📊 *Team Overview:* " +:+ emoji teamSummary +:+ nl
          +:+ "• Average Recovery: " +:+ avgRecovery teamSummary +:+ nl
          +:+ "• Average Sleep Score: " +:+ avgSleep teamSummary +:+ nl
          +:+ "• Team Sleep Hours: " +:+ totalSleep teamSummary +:+ nl +:+ nl in
      let individual :=
        fold_left (fun message userData => message +:+ formatUserData userData +:+ nl)
          teamData ("👥 *Individual Stats:*" +:+ nl) in
      let footer := generateMotivationalFooter weekday teamSummary in
      standupHeader +:+ overview +:+ individual +:+ nl +:+ footer
  end.

End Formatter.

Import Formatter.

(** ** Times and errors *)

(** A [time.Time], in nanoseconds since the zero time; a [time.Duration]
    is a 64-bit count of nanoseconds. *)
Abbreviation Time := Z.

Module time.

Definition Second : Z := 1000000000.
Definition Hour : Z := 3600 * Second.

(** [t.Sub(u)]: the difference, kept within the range of a Duration. *)
Definition Sub (t u : Time) : Z :=
  Z.max GoInt.min_int64 (Z.min GoInt.max_int64 (t - u)).

(** [t.Add(d)] *)
Definition Add (t : Time) (d : Z) : Time := t + d.

(** [t.Truncate(d)]: [t] rounded down to a multiple of [d] since the zero time. *)
Definition Truncate (t : Time) (d : Z) : Time :=
  if d <=? 0 then t else t - t mod d.

End time.

(** The message of a Go [error] value; [%w] wrapping prepends to it. *)
Abbreviation error := string.

(** A Go result pair [(T, error)]. *)
Inductive Result (A : Type) :=
| Ok (a : A)
| Fail (err : error).
Arguments Ok {A} a.
Arguments Fail {A} err.

(** ** Records of the [models] package *)

Module models.

Record WHOOPConnection := {
  ID : Z;
  UserID : string;
  WHOOPUserID : string;
  AccessToken : string;
  RefreshToken : string;
  ExpiresAt : Time;
  ConnectedAt : Time;
  Active : bool
}.

Record WHOOPRecovery := {
  rec_ID : Z;
  rec_UserID : string;
  rec_WHOOPUserID : string;
  rec_Date : Time;
  rec_Score : Z;
  rec_HRV : float64;
  rec_RHR : Z;
  rec_CreatedAt : Time
}.

Record WHOOPSleep := {
  slp_ID : Z;
  slp_UserID : string;
  slp_WHOOPUserID : string;
  slp_Date : Time;
  slp_DurationMS : Z;
  slp_Efficiency : float64;
  slp_Score : Z;
  slp_StagesDeepMS : Z;
  slp_StagesREMS : Z;
  slp_StagesLightMS : Z;
  slp_StagesWakeMS : Z;
  slp_CreatedAt : Time
}.

End models.

Import models.

(** ** Responses of the WHOOP API (client.go) *)

Record TokenResponse := {
  tr_AccessToken : string;
  tr_TokenType : string;
  tr_ExpiresIn : Z;
  tr_RefreshToken : string;
  tr_Scope : string;
  tr_UserID : string
}.

Record UserProfile := {
  up_UserID : Z;
  up_Email : string;
  up_FirstName : string;
  up_LastName : string
}.

Record RecoveryData := {
  rd_UserID : Z;
  rd_CreatedAt : Time;
  rd_RecoveryScore : float64;
  rd_HRVRmssd : float64;
  rd_RestingHR : float64
}.

Record SleepData := {
  sd_UserID : Z;
  sd_End : Time;
  sd_TotalAwakeTimeMS : Z;
  sd_TotalLightSleepMS : Z;
  sd_TotalSlowWaveSleepMS : Z;
  sd_TotalRemSleepMS : Z;
  sd_SleepEfficiencyPercentage : float64;
  sd_SleepScore : Z
}.

(** ** The [whoop_connections], [whoop_recovery] and [whoop_sleep] tables *)

Module database.

(** A table is its rows in rowid order, with the AUTOINCREMENT counter. *)
Record Database := {
  whoop_connections : list WHOOPConnection;
  whoop_connections_seq : Z;
  whoop_recovery : list WHOOPRecovery;
  whoop_recovery_seq : Z;
  whoop_sleep : list WHOOPSleep;
  whoop_sleep_seq : Z
}.

Definition empty : Database :=
  {| whoop_connections := []; whoop_connections_seq := 0;
     whoop_recovery := []; whoop_recovery_seq := 0;
     whoop_sleep := []; whoop_sleep_seq := 0 |}.

Definition with_id (id : Z) (c : WHOOPConnection) : WHOOPConnection :=
  {| ID := id; UserID := UserID c; WHOOPUserID := WHOOPUserID c;
     AccessToken := AccessToken c; RefreshToken := RefreshToken c;
     ExpiresAt := ExpiresAt c; ConnectedAt := ConnectedAt c; Active := Active c |}.

Definition with_active (a : bool) (c : WHOOPConnection) : WHOOPConnection :=
  {| ID := ID c; UserID := UserID c; WHOOPUserID := WHOOPUserID c;
     AccessToken := AccessToken c; RefreshToken := RefreshToken c;
     ExpiresAt := ExpiresAt c; ConnectedAt := ConnectedAt c; Active := a |}.

Definition set_connections (rows : list WHOOPConnection) (seq : Z) (d : Database) : Database :=
  {| whoop_connections := rows; whoop_connections_seq := seq;
     whoop_recovery := whoop_recovery d; whoop_recovery_seq := whoop_recovery_seq d;
     whoop_sleep := whoop_sleep d; whoop_sleep_seq := whoop_sleep_seq d |}.

(** [INSERT OR REPLACE INTO whoop_connections (user_id, ...)] under
    [UNIQUE(user_id)]: the rows in conflict on [user_id] are deleted and
    the new row gets the next rowid; the [ID] of [conn] is not a column
    of the statement. *)
Definition UpsertWHOOPConnection (conn : WHOOPConnection) (d : Database) : Database :=
  let id := whoop_connections_seq d + 1 in
  let kept := List.filter (fun r => negb (String.eqb (UserID r) (UserID conn))) (whoop_connections d) in
  set_connections (kept ++ [with_id id conn]) id d.

(** [SELECT ... WHERE user_id = ? AND active = 1], first row. *)
Definition GetWHOOPConnection (userID : string) (d : Database) : option WHOOPConnection :=
  List.find (fun r => String.eqb (UserID r) userID && Active r) (whoop_connections d).

(** [SELECT ... WHERE active = 1] *)
Definition GetAllActiveWHOOPConnections (d : Database) : list WHOOPConnection :=
  List.filter Active (whoop_connections d).

(** [UPDATE whoop_connections SET active = 0 WHERE user_id = ?] *)
Definition DeactivateWHOOPConnection (userID : string) (d : Database) : Database :=
  set_connections
    (map (fun r => if String.eqb (UserID r) userID then with_active false r else r)
       (whoop_connections d))
    (whoop_connections_seq d) d.

(** [INSERT OR REPLACE INTO whoop_recovery] under [UNIQUE(user_id, date)] *)
Definition UpsertWHOOPRecovery (r : WHOOPRecovery) (d : Database) : Database :=
  let id := whoop_recovery_seq d + 1 in
  let kept := List.filter (fun x => negb (String.eqb (rec_UserID x) (rec_UserID r) && (rec_Date x =? rec_Date r)))
                (whoop_recovery d) in
  {| whoop_connections := whoop_connections d; whoop_connections_seq := whoop_connections_seq d;
     whoop_recovery := kept ++ [{| rec_ID := id; rec_UserID := rec_UserID r;
                                   rec_WHOOPUserID := rec_WHOOPUserID r; rec_Date := rec_Date r;
                                   rec_Score := rec_Score r; rec_HRV := rec_HRV r;
                                   rec_RHR := rec_RHR r; rec_CreatedAt := rec_CreatedAt r |}];
     whoop_recovery_seq := id;
     whoop_sleep := whoop_sleep d; whoop_sleep_seq := whoop_sleep_seq d |}.

(** [INSERT OR REPLACE INTO whoop_sleep] under [UNIQUE(user_id, date)] *)
Definition UpsertWHOOPSleep (s : WHOOPSleep) (d : Database) : Database :=
  let id := whoop_sleep_seq d + 1 in
  let kept := List.filter (fun x => negb (String.eqb (slp_UserID x) (slp_UserID s) && (slp_Date x =? slp_Date s)))
                (whoop_sleep d) in
  {| whoop_connections := whoop_connections d; whoop_connections_seq := whoop_connections_seq d;
     whoop_recovery := whoop_recovery d; whoop_recovery_seq := whoop_recovery_seq d;
     whoop_sleep := kept ++ [{| slp_ID := id; slp_UserID := slp_UserID s;
                                slp_WHOOPUserID := slp_WHOOPUserID s; slp_Date := slp_Date s;
                                slp_DurationMS := slp_DurationMS s; slp_Efficiency := slp_Efficiency s;
                                slp_Score := slp_Score s; slp_StagesDeepMS := slp_StagesDeepMS s;
                                slp_StagesREMS := slp_StagesREMS s; slp_StagesLightMS := slp_StagesLightMS s;
                                slp_StagesWakeMS := slp_StagesWakeMS s; slp_CreatedAt := slp_CreatedAt s |}];
     whoop_sleep_seq := id |}.

End database.

Import database.

(** ** The world outside the process *)

(** A statement sent to SQLite by a method of [Database]. *)
Inductive Statement :=
| StUpsertWHOOPConnection (conn : WHOOPConnection)
| StGetWHOOPConnection (userID : string)
| StGetAllActiveWHOOPConnections
| StDeactivateWHOOPConnection (userID : string)
| StUpsertWHOOPRecovery (r : WHOOPRecovery)
| StUpsertWHOOPSleep (s : WHOOPSleep).

(** What the process does that others can observe: the HTTP requests of
    [Client] and the statements of [Database], in the order issued. *)
Inductive Event :=
| ExchangeCodeForToken (code : string)
| RefreshAccessToken (refreshToken : string)
| GetUserProfile (accessToken : string)
| GetRecovery (accessToken : string) (start finish : Time)
| GetSleep (accessToken : string) (start finish : Time)
| Sql (st : Statement).

(** The collaborators the code calls but does not contain: the clock,
    the random source, the WHOOP servers behind [Client], and the SQLite
    driver, which either carries a statement out or reports an error.
    Each may answer differently on every call, so each threads a state.
    [AddDate years months days t] is the calendar arithmetic of
    [t.AddDate] in the location of [t]. *)
Class Outside (E : Type) := {
  clock : E -> Time * E;
  entropy : nat -> E -> list Byte.byte * E;
  AddDate : Z -> Z -> Z -> Time -> Time;
  whoopToken : string -> E -> Result TokenResponse * E;
  whoopRefresh : string -> E -> Result TokenResponse * E;
  whoopProfile : string -> E -> Result UserProfile * E;
  whoopRecovery : string -> Time -> Time -> E -> Result (list RecoveryData) * E;
  whoopSleep : string -> Time -> Time -> E -> Result (list SleepData) * E;
  sqlite : Statement -> E -> option error * E
}.

(** ** Pure parts of the client and of the service *)

Module hex.

Definition digit (n : N) : ascii :=
  match String.get (N.to_nat n) "0123456789abcdef" with
  | Some c => c
  | None => "0"%char
  end.

(** [hex.EncodeToString] *)
Fixpoint EncodeToString (src : list Byte.byte) : string :=
  match src with
  | [] => ""
  | b :: rest =>
      let n := Byte.to_N b in
      String (digit (n / 16)%N) (String (digit (n mod 16)%N) (EncodeToString rest))
  end.

End hex.

Module url.

Definition upperhex (n : N) : ascii :=
  match String.get (N.to_nat n) "0123456789ABCDEF" with
  | Some c => c
  | None => "0"%char
  end.

Definition between (lo hi c : ascii) : bool :=
  ((N_of_ascii lo <=? N_of_ascii c) && (N_of_ascii c <=? N_of_ascii hi))%N.

(** Bytes left as they are in a query component. *)
Definition unreserved (c : ascii) : bool :=
  between "a" "z" c || between "A" "Z" c || between "0" "9" c
  || Ascii.eqb c "-" || Ascii.eqb c "_" || Ascii.eqb c "." || Ascii.eqb c "~".

(** [url.QueryEscape] *)
Fixpoint QueryEscape (s : string) : string :=
  match s with
  | EmptyString => ""
  | String c rest =>
      let n := N_of_ascii c in
      (if Ascii.eqb c " " then "+"
       else if unreserved c then String c ""
       else String "%" (String (upperhex (n / 16)%N) (String (upperhex (n mod 16)%N) "")))
      +:+ QueryEscape rest
  end.

(** [url.Values.Encode] on single-valued keys given in sorted order. *)
Fixpoint Encode (params : list (string * string)) : string :=
  match params with
  | [] => ""
  | [(k, v)] => QueryEscape k +:+ "=" +:+ QueryEscape v
  | (k, v) :: rest => QueryEscape k +:+ "=" +:+ QueryEscape v +:+ "&" +:+ Encode rest
  end.

End url.

(** [Client] of client.go: its static configuration. *)
Record Client := {
  clientID : string;
  clientSecret : string;
  redirectURL : string
}.

Definition AuthURL : string := "https://api.prod.whoop.com/oauth/oauth2/auth".

(** [Client.GetAuthURL] *)
Definition Client_GetAuthURL (c : Client) (state : string) : string :=
  AuthURL +:+ "?" +:+
  url.Encode [("client_id", clientID c);
              ("redirect_uri", redirectURL c);
              ("response_type", "code");
              ("scope", "read:recovery read:sleep read:profile read:workout");
              ("state", state)].

(** [make([]byte, 16)] filled by [rand.Read]: always 16 bytes. *)
Definition fill16 (bytes : list Byte.byte) : list Byte.byte :=
  firstn 16 (bytes ++ repeat Byte.x00 16).

(** The state string of [Service.GetAuthURL]:
    [fmt.Sprintf("%s:%s", userID, s.GenerateState())]. *)
Definition authState (userID : string) (random : list Byte.byte) : string :=
  userID +:+ ":" +:+ hex.EncodeToString (fill16 random).

(** The loop of [HandleOAuthCallback],
    [for i, char := range state { if char == ':' { userID = state[:i]; break } }]:
    the offset of the first colon. A colon is one byte in UTF-8 and never
    part of a longer sequence, so the runes of [range] meet it exactly
    where the bytes do. *)
Fixpoint firstColon (state : string) (i : nat) : option nat :=
  match state with
  | EmptyString => None
  | String char rest => if Ascii.eqb char ":" then Some i else firstColon rest (S i)
  end.

Definition stateUserID (state : string) : string :=
  match firstColon state 0 with
  | Some i => substring 0 i state
  | None => ""
  end.

(** [totalSleepMS] of [syncSleepData]: the three sleep stages, awake
    time left out. *)
Definition totalSleepMS (sleep : SleepData) : Z :=
  GoInt.add (GoInt.add (sd_TotalLightSleepMS sleep) (sd_TotalSlowWaveSleepMS sleep))
    (sd_TotalRemSleepMS sleep).

(** The sleep score stored by [syncSleepData], with the line it logs
    when it had to estimate the score. Every float64 operation is
    rounded on its own, as the amd64 compiler emits them (no fused
    multiply-add). *)
Definition sleepScore (sleep : SleepData) : Z * option string :=
  if (sd_SleepScore sleep =? 0) && gtb (sd_SleepEfficiencyPercentage sleep) zero then
    let efficiencyFactor := div (sd_SleepEfficiencyPercentage sleep) (of_int 100) in
    let durationHours := div (of_int (totalSleepMS sleep)) (of_int (1000 * 60 * 60)) in
    let score :=
      if geb durationHours (decimal 75 1) && geb efficiencyFactor (decimal 85 2) then
        to_int (add (of_int 75) (mul (sub efficiencyFactor (decimal 85 2)) (of_int 100)))
      else if geb durationHours (decimal 65 1) && geb efficiencyFactor (decimal 75 2) then
        to_int (add (of_int 60) (mul (sub efficiencyFactor (decimal 75 2)) (of_int 150)))
      else
        to_int (mul efficiencyFactor (of_int 60)) in
    (score,
     Some ("Sleep score was 0, estimated as " +:+ Fmt.d score +:+ " based on "
             +:+ Fmt.f 1 (sd_SleepEfficiencyPercentage sleep) +:+ "% efficiency and "
             +:+ Fmt.f 1 durationHours +:+ "h duration"))
  else (sd_SleepScore sleep, None).

(** ** The service ([Service] of service.go) *)

Section Service.

Context {E : Type} `{Outside E}.

(** Everything a method of [Service] can read or change. *)
Record World := {
  db : Database;
  outside : E;
  trace : list Event;
  logs : list string
}.

Definition M (A : Type) : Type := World -> A * World.

Definition ret {A} (a : A) : M A := fun w => (a, w).

Definition bind {A B} (m : M A) (k : A -> M B) : M B :=
  fun w => let (a, w') := m w in k a w'.

Notation "x <- m ;; k" := (bind m (fun x => k))
  (at level 100, m at next level, right associativity).
Notation "m ;;; k" := (bind m (fun _ => k))
  (at level 100, right associativity).

(** Runs [call] against the outside world and records [ev]. *)
Definition perform {A} (ev : Event) (call : E -> A * E) : M A :=
  fun w =>
    let (a, o) := call (outside w) in
    (a, {| db := db w; outside := o; trace := trace w ++ [ev]; logs := logs w |}).

(** [time.Now()] *)
Definition Now : M Time :=
  fun w =>
    let (t, o) := clock (outside w) in
    (t, {| db := db w; outside := o; trace := trace w; logs := logs w |}).

(** [log.Printf] *)
Definition Printf (line : string) : M unit :=
  fun w => (tt, {| db := db w; outside := outside w; trace := trace w; logs := logs w ++ [line] |}).

Definition update (f : Database -> Database) : M unit :=
  fun w => (tt, {| db := f (db w); outside := outside w; trace := trace w; logs := logs w |}).

Definition query {A} (f : Database -> A) : M A := fun w => (f (db w), w).

(** *** Methods of [Database]: each sends one statement, which the
    driver carries out or fails. *)

Definition exec (st : Statement) (f : Database -> Database) : M (option error) :=
  err <- perform (Sql st) (sqlite st) ;;
  match err with
  | Some e => ret (Some e)
  | None => update f ;;; ret None
  end.

Definition db_UpsertWHOOPConnection (conn : WHOOPConnection) : M (option error) :=
  exec (StUpsertWHOOPConnection conn) (UpsertWHOOPConnection conn).

Definition db_DeactivateWHOOPConnection (userID : string) : M (option error) :=
  exec (StDeactivateWHOOPConnection userID) (DeactivateWHOOPConnection userID).

Definition db_UpsertWHOOPRecovery (r : WHOOPRecovery) : M (option error) :=
  exec (StUpsertWHOOPRecovery r) (UpsertWHOOPRecovery r).

Definition db_UpsertWHOOPSleep (s : WHOOPSleep) : M (option error) :=
  exec (StUpsertWHOOPSleep s) (UpsertWHOOPSleep s).

Definition ErrNoRows : error := "sql: no rows in result set".

Definition db_GetWHOOPConnection (userID : string) : M (Result WHOOPConnection) :=
  err <- perform (Sql (StGetWHOOPConnection userID)) (sqlite (StGetWHOOPConnection userID)) ;;
  match err with
  | Some e => ret (Fail e)
  | None =>
      row <- query (GetWHOOPConnection userID) ;;
      match row with
      | Some conn => ret (Ok conn)
      | None => ret (Fail ErrNoRows)
      end
  end.

Definition db_GetAllActiveWHOOPConnections : M (Result (list WHOOPConnection)) :=
  err <- perform (Sql StGetAllActiveWHOOPConnections) (sqlite StGetAllActiveWHOOPConnections) ;;
  match err with
  | Some e => ret (Fail e)
  | None => rows <- query GetAllActiveWHOOPConnections ;; ret (Ok rows)
  end.

(** *** Methods of [Service] *)

(** [GenerateState] generates a random state string for OAuth *)
Definition GenerateState : M string :=
  fun w =>
    let (bytes, o) := entropy 16 (outside w) in
    (hex.EncodeToString (fill16 bytes),
     {| db := db w; outside := o; trace := trace w; logs := logs w |}).

(** The state that [GetAuthURL] builds and hands to the client. *)
Definition GetAuthURL_state (userID : string) : M string :=
  random <- GenerateState ;;
  ret (userID +:+ ":" +:+ random).

(** [GetAuthURL] returns the WHOOP OAuth authorization URL with state *)
Definition GetAuthURL (c : Client) (userID : string) : M string :=
  state <- GetAuthURL_state userID ;;
  ret (Client_GetAuthURL c state).

(** [HandleOAuthCallback] processes the OAuth callback and stores the connection *)
Definition HandleOAuthCallback (code state : string) : M (Result WHOOPConnection) :=
  if (String.length state <? 10)%nat then ret (Fail "invalid state parameter")
  else
    let userID := stateUserID state in
    if String.eqb userID "" then ret (Fail "invalid state format")
    else
      tokenResp <- perform (ExchangeCodeForToken code) (whoopToken code) ;;
      match tokenResp with
      | Fail err => ret (Fail ("failed to exchange code for token: " +:+ err))
      | Ok tokenResp =>
          profile <- perform (GetUserProfile (tr_AccessToken tokenResp))
                       (whoopProfile (tr_AccessToken tokenResp)) ;;
          match profile with
          | Fail err => ret (Fail ("failed to get user profile: " +:+ err))
          | Ok profile =>
              now1 <- Now ;;
              now2 <- Now ;;
              let connection :=
                {| ID := 0;
                   UserID := userID;
                   WHOOPUserID := Fmt.d (up_UserID profile);
                   AccessToken := tr_AccessToken tokenResp;
                   RefreshToken := tr_RefreshToken tokenResp;
                   ExpiresAt := time.Add now1 (GoInt.mul (tr_ExpiresIn tokenResp) time.Second);
                   ConnectedAt := now2;
                   Active := true |} in
              err <- db_UpsertWHOOPConnection connection ;;
              match err with
              | Some err => ret (Fail ("failed to store WHOOP connection: " +:+ err))
              | None =>
                  Printf ("Successfully connected WHOOP account for user " +:+ userID
                            +:+ " (WHOOP ID: " +:+ Fmt.d (up_UserID profile) +:+ ")") ;;;
                  ret (Ok connection)
              end
          end
      end.

(** [RefreshTokenIfNeeded] checks if token needs refresh and refreshes it.
    The Go method updates [connection] in place and returns the same
    pointer; the callers in this file use the returned value only. *)
Definition RefreshTokenIfNeeded (connection : WHOOPConnection) : M (Result WHOOPConnection) :=
  now <- Now ;;
  if time.Hour <? time.Sub (ExpiresAt connection) now then ret (Ok connection)
  else
    Printf ("Refreshing WHOOP token for user " +:+ UserID connection) ;;;
    tokenResp <- perform (RefreshAccessToken (RefreshToken connection))
                   (whoopRefresh (RefreshToken connection)) ;;
    match tokenResp with
    | Fail err =>
        db_DeactivateWHOOPConnection (UserID connection) ;;;
        ret (Fail ("failed to refresh token for user " +:+ UserID connection +:+ ": " +:+ err))
    | Ok tokenResp =>
        now' <- Now ;;
        let connection :=
          {| ID := ID connection;
             UserID := UserID connection;
             WHOOPUserID := WHOOPUserID connection;
             AccessToken := tr_AccessToken tokenResp;
             RefreshToken := tr_RefreshToken tokenResp;
             ExpiresAt := time.Add now' (GoInt.mul (tr_ExpiresIn tokenResp) time.Second);
             ConnectedAt := ConnectedAt connection;
             Active := Active connection |} in
        err <- db_UpsertWHOOPConnection connection ;;
        match err with
        | Some err => ret (Fail ("failed to update WHOOP connection: " +:+ err))
        | None => ret (Ok connection)
        end
    end.

Definition day : Z := 24 * time.Hour.

(** The loop of [syncRecoveryData] over the fetched records. *)
Fixpoint storeRecovery (connection : WHOOPConnection) (records : list RecoveryData) : M unit :=
  match records with
  | [] => ret tt
  | recovery :: rest =>
      let recoveryDate := time.Truncate (rd_CreatedAt recovery) day in
      now <- Now ;;
      let recoveryModel :=
        {| rec_ID := 0;
           rec_UserID := UserID connection;
           rec_WHOOPUserID := Fmt.d (rd_UserID recovery);
           rec_Date := recoveryDate;
           rec_Score := to_int (rd_RecoveryScore recovery);
           rec_HRV := rd_HRVRmssd recovery;
           rec_RHR := to_int (rd_RestingHR recovery);
           rec_CreatedAt := now |} in
      err <- db_UpsertWHOOPRecovery recoveryModel ;;
      match err with
      | Some err => Printf ("Failed to store recovery data for user " +:+ UserID connection
                              +:+ ": " +:+ err)
      | None => ret tt
      end ;;;
      storeRecovery connection rest
  end.

(** [syncRecoveryData] fetches and stores recovery data *)
Definition syncRecoveryData (connection : WHOOPConnection) (start finish : Time) : M (option error) :=
  recoveryResp <- perform (GetRecovery (AccessToken connection) start finish)
                    (whoopRecovery (AccessToken connection) start finish) ;;
  match recoveryResp with
  | Fail err => ret (Some ("failed to get recovery data: " +:+ err))
  | Ok records => storeRecovery connection records ;;; ret None
  end.

(** The row [syncSleepData] builds for one fetched record. *)
Definition sleepModel (connection : WHOOPConnection) (sleep : SleepData) (now : Time) : WHOOPSleep :=
  {| slp_ID := 0;
     slp_UserID := UserID connection;
     slp_WHOOPUserID := Fmt.d (sd_UserID sleep);
     slp_Date := time.Truncate (sd_End sleep) day;
     slp_DurationMS := totalSleepMS sleep;
     slp_Efficiency := sd_SleepEfficiencyPercentage sleep;
     slp_Score := fst (sleepScore sleep);
     slp_StagesDeepMS := sd_TotalSlowWaveSleepMS sleep;
     slp_StagesREMS := sd_TotalRemSleepMS sleep;
     slp_StagesLightMS := sd_TotalLightSleepMS sleep;
     slp_StagesWakeMS := sd_TotalAwakeTimeMS sleep;
     slp_CreatedAt := now |}.

(** The loop of [syncSleepData] over the fetched records. *)
Fixpoint storeSleep (connection : WHOOPConnection) (records : list SleepData) : M unit :=
  match records with
  | [] => ret tt
  | sleep :: rest =>
      match snd (sleepScore sleep) with
      | Some line => Printf line
      | None => ret tt
      end ;;;
      now <- Now ;;
      err <- db_UpsertWHOOPSleep (sleepModel connection sleep now) ;;
      match err with
      | Some err => Printf ("Failed to store sleep data for user " +:+ UserID connection
                              +:+ ": " +:+ err)
      | None => ret tt
      end ;;;
      storeSleep connection rest
  end.

(** [syncSleepData] fetches and stores sleep data *)
Definition syncSleepData (connection : WHOOPConnection) (start finish : Time) : M (option error) :=
  sleepResp <- perform (GetSleep (AccessToken connection) start finish)
                 (whoopSleep (AccessToken connection) start finish) ;;
  match sleepResp with
  | Fail err => ret (Some ("failed to get sleep data: " +:+ err))
  | Ok records => storeSleep connection records ;;; ret None
  end.

(** [SyncUserData] fetches and stores the latest WHOOP data for a user *)
Definition SyncUserData (userID : string) : M (option error) :=
  connection <- db_GetWHOOPConnection userID ;;
  match connection with
  | Fail err => ret (Some ("no WHOOP connection found for user " +:+ userID +:+ ": " +:+ err))
  | Ok connection =>
      connection <- RefreshTokenIfNeeded connection ;;
      match connection with
      | Fail err => ret (Some ("failed to refresh token: " +:+ err))
      | Ok connection =>
          finish <- Now ;;
          let start := AddDate 0 0 (-2) finish in
          err <- syncRecoveryData connection start finish ;;
          match err with
          | Some err => Printf ("Failed to sync recovery data for user " +:+ userID +:+ ": " +:+ err)
          | None => ret tt
          end ;;;
          err <- syncSleepData connection start finish ;;
          match err with
          | Some err => Printf ("Failed to sync sleep data for user " +:+ userID +:+ ": " +:+ err)
          | None => ret tt
          end ;;;
          ret None
      end
  end.

(** The loop of [SyncAllUsersData] over the listed connections. *)
Fixpoint syncEach (connections : list WHOOPConnection) : M unit :=
  match connections with
  | [] => ret tt
  | connection :: rest =>
      err <- SyncUserData (UserID connection) ;;
      match err with
      | Some err => Printf ("Failed to sync data for user " +:+ UserID connection +:+ ": " +:+ err)
      | None => ret tt
      end ;;;
      syncEach rest
  end.

(** [SyncAllUsersData] syncs WHOOP data for all connected users *)
Definition SyncAllUsersData : M (option error) :=
  connections <- db_GetAllActiveWHOOPConnections ;;
  match connections with
  | Fail err => ret (Some ("failed to get WHOOP connections: " +:+ err))
  | Ok connections =>
      Printf ("Syncing WHOOP data for " +:+ Fmt.d (Z.of_nat (length connections)) +:+ " users") ;;;
      syncEach connections ;;;
      Printf "Completed WHOOP data sync" ;;;
      ret None
  end.

(** [GetConnectionStatus] returns the connection status for a user *)
Definition GetConnectionStatus (userID : string) : M (Result WHOOPConnection) :=
  db_GetWHOOPConnection userID.

(** [DisconnectUser] deactivates a user's WHOOP connection *)
Definition DisconnectUser (userID : string) : M (option error) :=
  db_DeactivateWHOOPConnection userID.

(** *** Histories: the calls the host makes, one after the other *)

Inductive Call :=
| CallGetAuthURL (c : Client) (userID : string)
| CallHandleOAuthCallback (code state : string)
| CallRefreshTokenIfNeeded (connection : WHOOPConnection)
| CallSyncUserData (userID : string)
| CallSyncAllUsersData
| CallDisconnectUser (userID : string).

Definition call (c : Call) : M unit :=
  match c with
  | CallGetAuthURL cl userID => GetAuthURL cl userID ;;; ret tt
  | CallHandleOAuthCallback code state => HandleOAuthCallback code state ;;; ret tt
  | CallRefreshTokenIfNeeded connection => RefreshTokenIfNeeded connection ;;; ret tt
  | CallSyncUserData userID => SyncUserData userID ;;; ret tt
  | CallSyncAllUsersData => SyncAllUsersData ;;; ret tt
  | CallDisconnectUser userID => DisconnectUser userID ;;; ret tt
  end.

Fixpoint calls (cs : list Call) : M unit :=
  match cs with
  | [] => ret tt
  | c :: rest => call c ;;; calls rest
  end.

(** A fresh process: empty tables, nothing observed yet. *)
Definition start (o : E) : World :=
  {| db := database.empty; outside := o; trace := []; logs := [] |}.

End Service.

Arguments World E : clear implicits.
Arguments M E A : clear implicits.

(** ** A scripted outside world, to run the service on given inputs *)

Record Script := {
  now : Time;
  tokenReply : Result TokenResponse;
  refreshReply : Result TokenResponse;
  profileReply : Result UserProfile;
  recoveryReply : Result (list RecoveryData);
  sleepReply : Result (list SleepData);
  faults : Statement -> option error;
  randomBytes : list Byte.byte
}.

Definition tick (s : Script) : Script :=
  {| now := now s + time.Second;
     tokenReply := tokenReply s; refreshReply := refreshReply s;
     profileReply := profileReply s; recoveryReply := recoveryReply s;
     sleepReply := sleepReply s; faults := faults s; randomBytes := randomBytes s |}.

(** The clock advances by one second per reading; every server answers
    with its scripted reply; days are 24 hours long (UTC). *)
#[export] Instance Script_Outside : Outside Script := {|
  clock s := (now s, tick s);
  entropy n s := (firstn n (randomBytes s), s);
  AddDate _ _ days t := t + days * (24 * time.Hour);
  whoopToken _ s := (tokenReply s, s);
  whoopRefresh _ s := (refreshReply s, s);
  whoopProfile _ s := (profileReply s, s);
  whoopRecovery _ _ _ s := (recoveryReply s, s);
  whoopSleep _ _ _ s := (sleepReply s, s);
  sqlite st s := (faults s st, s)
|}.

(** ** The specification's formulas *)

Module Spec.

(** The value a row carries under [key]: an integer, as every row of
    [GetTeamWHOOPDataForStandup] holds its scores and its duration. *)
Definition carried (key : string) (row : Row) : option Z :=
  match row !! key with
  | Some (VInt64 n) => Some n
  | _ => None
  end.

(** The values of the rows that carry [key], in row order. *)
Fixpoint values (key : string) (rows : list Row) : list Z :=
  match rows with
  | [] => []
  | row :: rest =>
      match carried key row with
      | Some n => n :: values key rest
      | None => values key rest
      end
  end.

(** Sum over count, and 0 when there is nothing to average. *)
Definition mean (scores : list Z) : float64 :=
  match scores with
  | [] => zero
  | _ => div (fold_left add (map of_int scores) zero) (of_int (Z.of_nat (length scores)))
  end.

(** Sum of [duration_ms / 3.6e6]. *)
Definition hours (durations : list Z) : float64 :=
  fold_left (fun total ms => add total (div (of_int ms) (of_int 3600000))) durations zero.

(** The three-branch estimate of a sleep score, on the efficiency as a
    fraction and the duration in hours. *)
Definition estimate (efficiency durationHours : float64) : float64 :=
  if geb durationHours (decimal 75 1) && geb efficiency (decimal 85 2)
  then add (of_int 75) (mul (sub efficiency (decimal 85 2)) (of_int 100))
  else if geb durationHours (decimal 65 1) && geb efficiency (decimal 75 2)
  then add (of_int 60) (mul (sub efficiency (decimal 75 2)) (of_int 150))
  else mul efficiency (of_int 60).

(** [s] holds no colon. *)
Fixpoint colonFree (s : string) : bool :=
  match s with
  | EmptyString => true
  | String c rest => negb (Ascii.eqb c ":") && colonFree rest
  end.

(** [s] is made of lower-case hexadecimal digits. *)
Fixpoint isHex (s : string) : bool :=
  match s with
  | EmptyString => true
  | String c rest =>
      (url.between "0" "9" c || url.between "a" "f" c) && isHex rest
  end.

(** The events of a trace that [f] selects, in order. *)
Fixpoint pick {A} (f : Event -> option A) (tr : list Event) : list A :=
  match tr with
  | [] => []
  | ev :: rest =>
      match f ev with
      | Some a => a :: pick f rest
      | None => pick f rest
      end
  end.

(** A sync attempt for a user shows as the lookup of that user's
    connection, the first thing [SyncUserData] does and the only place
    in the service's sync path that sends it. *)
Definition attempt (ev : Event) : option string :=
  match ev with
  | Sql (StGetWHOOPConnection userID) => Some userID
  | _ => None
  end.

(** A call of the provider's refresh endpoint, with the token sent. *)
Definition refresh (ev : Event) : option string :=
  match ev with
  | RefreshAccessToken refreshToken => Some refreshToken
  | _ => None
  end.

(** The connections of [userID] that are active. *)
Definition activeConnections (userID : string) (d : Database) : list WHOOPConnection :=
  List.filter (fun r => String.eqb (UserID r) userID && Active r) (whoop_connections d).

(** No two rows of [whoop_connections] have the same [user_id]. *)
Definition uniqueUsers (d : Database) : Prop :=
  NoDup (map UserID (whoop_connections d)).

(** [sub] occurs in [s]. *)
Definition occurs (sub s : string) : Prop :=
  exists before after, s = before +:+ sub +:+ after.

End Spec.

(** ** Judgements on methods *)

Section Judgements.

Context {E : Type}.

(** [m] keeps the invariant [J] of the tables. *)
Definition preserves (J : Database -> Prop) {A} (m : M E A) : Prop :=
  forall w, J (db w) -> J (db (snd (m w))).

(** [m] adds to the trace no event that [f] selects. *)
Definition silent {B} (f : Event -> option B) {A} (m : M E A) : Prop :=
  forall w, Spec.pick f (trace (snd (m w))) = Spec.pick f (trace w).

(** [m] adds to the trace exactly the selected events [l]. *)
Definition adds {B} (f : Event -> option B) (l : list B) {A} (m : M E A) : Prop :=
  forall w, Spec.pick f (trace (snd (m w))) = Spec.pick f (trace w) ++ l.

(** The lookup of [u] finds no active connection. *)
Definition inactive (u : string) (d : Database) : Prop := GetWHOOPConnection u d = None.

(** The calls that can bring the connection of [u] back: completing
    an OAuth flow for [u], and a refresh started from a connection of
    [u] read before the deactivation. *)
Definition reconnects (u : string) (c : Call) : Prop :=
  match c with
  | CallHandleOAuthCallback _ state => stateUserID state = u
  | CallRefreshTokenIfNeeded connection => UserID connection = u
  | _ => False
  end.

End Judgements.

(** ** Inputs of the examples *)

(** The rows [[{recovery:80, sleep:90}, {recovery:60}]]. *)
Definition exampleRows : list Row :=
  [ <["recovery_score" := VInt64 80]> (<["sleep_score" := VInt64 90]> ∅);
    <["recovery_score" := VInt64 60]> ∅ ].

(** The summary of a team without any metric. *)
Definition emptySummary : TeamSummary :=
  {| avgRecovery := "N/A";
     avgSleep := "N/A";
     totalSleep := "0.0h total";
     emoji := "🆘 Team needs extra care today!";
     recoveryNum := zero;
     sleepNum := zero |}.

(** Three connected users, every recovery score 0. *)
Definition zeroRows : list Row :=
  [ <["recovery_score" := VInt64 0]> ∅;
    <["recovery_score" := VInt64 0]> (<["sleep_score" := VInt64 71]> ∅);
    <["recovery_score" := VInt64 0]> ∅ ].

(** A night of [hours] hours of sleep at [pct] percent efficiency whose
    score the provider reports as 0. *)
Definition unscoredNight (pct : float64) (hours : Z) : SleepData :=
  {| sd_UserID := 4242;
     sd_End := 0;
     sd_TotalAwakeTimeMS := 1800000;
     sd_TotalLightSleepMS := hours * 1800000;
     sd_TotalSlowWaveSleepMS := hours * 900000;
     sd_TotalRemSleepMS := hours * 900000;
     sd_SleepEfficiencyPercentage := pct;
     sd_SleepScore := 0 |}.

(** A connection of U123 that expires at hour 1000. *)
Definition someConnection : WHOOPConnection :=
  {| ID := 1; UserID := "U123"; WHOOPUserID := "4242";
     AccessToken := "access-1"; RefreshToken := "refresh-1";
     ExpiresAt := 1000 * time.Hour; ConnectedAt := 0; Active := true |}.

Definition grant : TokenResponse :=
  {| tr_AccessToken := "access-2"; tr_TokenType := "bearer"; tr_ExpiresIn := 3600;
     tr_RefreshToken := "refresh-2"; tr_Scope := "read:recovery read:sleep";
     tr_UserID := "" |}.

Definition profile : UserProfile :=
  {| up_UserID := 4242; up_Email := "ada@example.com";
     up_FirstName := "Ada"; up_LastName := "L" |}.

(** Half an hour before [someConnection] expires; every server and the
    store answer well. *)
Definition healthy : Script :=
  {| now := 1000 * time.Hour - 1800 * time.Second;
     tokenReply := Ok grant;
     refreshReply := Ok grant;
     profileReply := Ok profile;
     recoveryReply := Ok [];
     sleepReply := Ok [];
     faults := fun _ => None;
     randomBytes := [Byte.x3a; Byte.x00; Byte.xff; Byte.x7b; Byte.x10; Byte.xa5; Byte.x0c; Byte.xd2;
                     Byte.x91; Byte.x3a; Byte.x44; Byte.xee; Byte.x08; Byte.x5f; Byte.xb7; Byte.x63] |}.

(** What the provider answers to a refresh token it no longer accepts. *)
Definition rejection : error := "token refresh failed with status 400: invalid_grant".

(** A connection of U456 that expires in about a thousand hours. *)
Definition farFromExpiry : WHOOPConnection :=
  {| ID := 2; UserID := "U456"; WHOOPUserID := "77";
     AccessToken := "access-9"; RefreshToken := "refresh-9";
     ExpiresAt := 2000 * time.Hour; ConnectedAt := 0; Active := true |}.

(** The provider rejects the refresh token. *)
Definition revoked : Script :=
  {| now := now healthy;
     tokenReply := Ok grant;
     refreshReply := Fail rejection;
     profileReply := Ok profile;
     recoveryReply := Ok [];
     sleepReply := Ok [];
     faults := fun _ => None;
     randomBytes := [] |}.

(** The refresh token is rejected and SQLite refuses writes. *)
Definition revokedAndLocked : Script :=
  {| now := now healthy;
     tokenReply := Ok grant;
     refreshReply := Fail rejection;
     profileReply := Ok profile;
     recoveryReply := Ok [];
     sleepReply := Ok [];
     faults := fun st =>
                 match st with
                 | StDeactivateWHOOPConnection _ => Some "database is locked"
                 | _ => None
                 end;
     randomBytes := [] |}.

(** SQLite refuses every statement. *)
Definition locked : Script :=
  {| now := now healthy;
     tokenReply := Ok grant;
     refreshReply := Ok grant;
     profileReply := Ok profile;
     recoveryReply := Ok [];
     sleepReply := Ok [];
     faults := fun _ => Some "database is locked";
     randomBytes := [] |}.

(** A process in which U123 and U456 are connected. *)
Definition connected (o : Script) : World Script :=
  {| db := UpsertWHOOPConnection farFromExpiry
             (UpsertWHOOPConnection someConnection database.empty);
     outside := o; trace := []; logs := [] |}.

(** Calls made after the failed refresh, none of which reconnects U123. *)
Definition afterwards : list Call :=
  [CallSyncUserData "U456"; CallSyncAllUsersData; CallDisconnectUser "U456";
   CallSyncUserData "U123"].

Definition botClient : Client :=
  {| clientID := "cid"; clientSecret := "secret";
     redirectURL := "https://bot.example/callback" |}.

(** ** Notions used by the proofs about float64 *)

(** Number of binary digits, as a [nat]. *)
Definition width (q : positive) : nat := Pos.to_nat (digits2_pos q).

Definition positive_float (x : float64) : Prop :=
  match x with
  | S754_finite false _ _ | S754_infinity false => True
  | _ => False
  end.

(** ** More of the formatter: [FormatUserStatus] *)

(** [_, exists := data[key]; exists], whatever the value. *)
Definition hasKey (data : Row) (key : string) : bool :=
  match data !! key with
  | Some _ => true
  | None => false
  end.

(** The closing line of [FormatUserStatus]. *)
Definition statusHint : string :=
  "_Use `/connect-whoop` to link your account or `/morning-report` for team stats!_".

(** The notice of [FormatUserStatus] for a map without any metric key. *)
Definition statusNotice : string :=
  "No WHOOP data available. Make sure your WHOOP account is connected!" +:+ nl +:+ nl.

(** [FormatUserStatus] creates a detailed status message for an individual user *)
Definition FormatUserStatus (userData : Row) : string :=
  let username := getString userData "username" in
  let realName := getString userData "real_name" in
  let displayName := if String.eqb realName "" then username else realName in
  let header := "📊 *WHOOP Status for " +:+ displayName +:+ "*" +:+ nl +:+ nl in
  let recovery :=
    if present userData "recovery_score" then
      let score := getInt64 userData "recovery_score" in
      let hrv := getInt64 userData "hrv" in
      let rhr := getInt64 userData "rhr" in
      let recoveryDate := getString userData "recovery_date" in
      "🔋 *Recovery:* " +:+ getRecoveryEmoji score +:+ " " +:+ Fmt.d score +:+ "%" +:+ nl
        +:+ (if 0 <? hrv then "   • HRV: " +:+ Fmt.f 1 (of_int hrv) +:+ "ms" +:+ nl else "")
        +:+ (if 0 <? rhr then "   • Resting HR: " +:+ Fmt.d rhr +:+ " bpm" +:+ nl else "")
        +:+ (if String.eqb recoveryDate "" then "" else "   • Date: " +:+ recoveryDate +:+ nl)
        +:+ nl
    else "" in
  let sleep :=
    if present userData "sleep_score" then
      let score := getInt64 userData "sleep_score" in
      let durationMS := getInt64 userData "duration_ms" in
      let efficiency := getFloat64 userData "efficiency" in
      let sleepDate := getString userData "sleep_date" in
      let sleepHours := div (of_int durationMS) msPerHour in
      "😴 *Sleep:* " +:+ getSleepEmoji score +:+ " " +:+ Fmt.d score +:+ "%" +:+ nl
        +:+ "   • Duration: " +:+ Fmt.f 1 sleepHours +:+ " hours" +:+ nl
        +:+ (if gtb efficiency zero
             then "   • Efficiency: " +:+ Fmt.f 0 efficiency +:+ "%" +:+ nl else "")
        +:+ (if String.eqb sleepDate "" then "" else "   • Date: " +:+ sleepDate +:+ nl)
        +:+ nl
    else "" in
  let strain :=
    if present userData "strain_score" then
      let score := getFloat64 userData "strain_score" in
      let strainDate := getString userData "strain_date" in
      "💪 *Strain:* " +:+ Fmt.f 1 score +:+ nl
        +:+ (if String.eqb strainDate "" then "" else "   • Date: " +:+ strainDate +:+ nl)
        +:+ nl
    else "" in
  let hasData :=
    hasKey userData "recovery_score" || hasKey userData "sleep_score"
    || hasKey userData "strain_score" in
  header +:+ recovery +:+ sleep +:+ strain
    +:+ (if hasData then "" else statusNotice)
    +:+ statusHint.

(** ** The callers: the OAuth callback endpoint and two slash commands *)

(** What an HTTP handler writes: status, content type, body. *)
Record Response := {
  status : Z;
  contentType : string;
  body : string
}.

(** [http.Error]: the message and a newline, as plain text. *)
Definition http_Error (message : string) (code : Z) : Response :=
  {| status := code; contentType := "text/plain; charset=utf-8"; body := message +:+ nl |}.

Definition quote : string := String (ascii_of_nat 34) "".

(** The page [handleCallback] answers with after a successful connection. *)
Definition successHTML : string :=
  nl +:+ "<!DOCTYPE html>" +:+ nl
  +:+ "<html>" +:+ nl
  +:+ "<head>" +:+ nl
  +:+ "    <title>WHOOP Connected!</title>" +:+ nl
  +:+ "    <style>" +:+ nl
  +:+ "        body { font-family: Arial, sans-serif; text-align: center; padding: 50px; }" +:+ nl
  +:+ "        .success { color: #28a745; }" +:+ nl
  +:+ "        .container { max-width: 500px; margin: 0 auto; }" +:+ nl
  +:+ "    </style>" +:+ nl
  +:+ "</head>" +:+ nl
  +:+ "<body>" +:+ nl
  +:+ "    <div class=" +:+ quote +:+ "container" +:+ quote +:+ ">" +:+ nl
  +:+ "        <h1 class=" +:+ quote +:+ "success" +:+ quote +:+ ">🎉 WHOOP Account Connected!</h1>" +:+ nl
  +:+ "        <p>Your WHOOP account has been successfully connected to FamBot.</p>" +:+ nl
  +:+ "        <p>You'll now see your sleep, recovery, and strain data in morning standups!</p>" +:+ nl
  +:+ "        <p><strong>You can close this window and return to Slack.</strong></p>" +:+ nl
  +:+ "        <hr>" +:+ nl
  +:+ "        <p><small>Use <code>/whoop-status</code> in Slack to check your stats or <code>/morning-report</code> for team data.</small></p>" +:+ nl
  +:+ "    </div>" +:+ nl
  +:+ "</body>" +:+ nl
  +:+ "</html>".

(** The texts the two slash commands answer with. *)
Definition notConfigured : string :=
  "WHOOP integration is not configured. Please contact your administrator.".

Definition alreadyConnected : string :=
  "🔗 You're already connected to WHOOP! Use `/whoop-status` to see your stats or `/disconnect-whoop` to disconnect.".

Definition connectInvitation (authURL : string) : string :=
  "🚀 *Connect Your WHOOP Account*" +:+ nl +:+ nl
  +:+ "Click the link below to authorize FamBot to access your WHOOP data:" +:+ nl +:+ nl
  +:+ "<" +:+ authURL +:+ "|🔗 Connect WHOOP Account>" +:+ nl +:+ nl
  +:+ "_This will allow the bot to show your sleep, recovery, and strain data in morning standups!_".

Definition nothingToDisconnect : string :=
  "❌ You're not connected to WHOOP. Nothing to disconnect!".

Definition disconnectFailed : string :=
  "❌ Failed to disconnect your WHOOP account. Please try again later.".

Definition disconnected : string :=
  "✅ Successfully disconnected from WHOOP. Use `/connect-whoop` if you want to reconnect later!".

Section Callers.

Context {E : Type} `{Outside E}.

Notation "x <- m ;; k" := (bind m (fun x => k))
  (at level 100, m at next level, right associativity).
Notation "m ;;; k" := (bind m (fun _ => k))
  (at level 100, right associativity).

(** [OAuthServer.handleCallback], on the [code] and [state] query
    parameters of the request (empty when absent). *)
Definition handleCallback (code state : string) : M E Response :=
  if String.eqb code "" then ret (http_Error "Missing authorization code" 400)
  else if String.eqb state "" then ret (http_Error "Missing state parameter" 400)
  else
    connection <- HandleOAuthCallback code state ;;
    match connection with
    | Fail err =>
        Printf ("OAuth callback error: " +:+ err) ;;;
        ret (http_Error ("Failed to connect WHOOP account: " +:+ err) 500)
    | Ok connection =>
        Printf ("Successfully connected WHOOP account for user " +:+ UserID connection) ;;;
        ret {| status := 200; contentType := "text/html"; body := successHTML |}
    end.

(** [SlackHandler.handleConnectWHOOPCommand]; [service] is [None] when
    [h.whoopService] is nil, and the result is the text the handler
    posts back with [respondToSlashCommand]. *)
Definition handleConnectWHOOPCommand (service : option Client) (userID : string) : M E string :=
  match service with
  | None => ret notConfigured
  | Some c =>
      connection <- GetConnectionStatus userID ;;
      match connection with
      | Ok _ => ret alreadyConnected
      | Fail _ =>
          authURL <- GetAuthURL c userID ;;
          ret (connectInvitation authURL)
      end
  end.

(** [SlackHandler.handleDisconnectWHOOPCommand], likewise. *)
Definition handleDisconnectWHOOPCommand (service : option Client) (userID : string) : M E string :=
  match service with
  | None => ret notConfigured
  | Some _ =>
      connection <- GetConnectionStatus userID ;;
      match connection with
      | Fail _ => ret nothingToDisconnect
      | Ok _ =>
          err <- DisconnectUser userID ;;
          match err with
          | Some _ => ret disconnectFailed
          | None => ret disconnected
          end
      end
  end.

End Callers.

(** ** Further notions of the specification side *)

(** The data requests of a sync, as sent. *)
Definition fetchCall (ev : Event) : option Event :=
  match ev with
  | GetRecovery _ _ _ | GetSleep _ _ _ => Some ev
  | _ => None
  end.

(** No two rows of [whoop_recovery], and no two of [whoop_sleep], are of
    the same user and date. *)
Definition uniqueDays (d : Database) : Prop :=
  NoDup (map (fun r => (rec_UserID r, rec_Date r)) (whoop_recovery d))
  /\ NoDup (map (fun r => (slp_UserID r, slp_Date r)) (whoop_sleep d)).

(** The recovery rows of [userID] for [date]. *)
Definition recoveryOn (userID : string) (date : Time) (d : Database) : list WHOOPRecovery :=
  List.filter (fun r => String.eqb (rec_UserID r) userID && (rec_Date r =? date))
    (whoop_recovery d).

(** A byte that cannot end or split a query parameter. *)
Definition querySafe (c : ascii) : bool :=
  url.unreserved c || Ascii.eqb c "+" || Ascii.eqb c "%".

Fixpoint allChars (p : ascii -> bool) (s : string) : bool :=
  match s with
  | EmptyString => true
  | String c rest => p c && allChars p rest
  end.

(** The mood label of a team whose only metric is one recovery score. *)
Definition moodOfRecoveryAlone (score : Z) : string :=
  if 90 <=? score then "⚡ Team is ready to go!"
  else if 60 <=? score then "☕ Team needs more coffee..."
  else "🆘 Team needs extra care today!".

(** The label [getTeamMoodEmoji] gives to one recovery score and no
    sleep score agrees with [moodOfRecoveryAlone]. *)
Definition moodMatches (score : Z) : bool :=
  String.eqb (getTeamMoodEmoji (Spec.mean [score]) zero) (moodOfRecoveryAlone score).

(** The keys of a map as the status command builds it: those of
    [GetUserLatestData] and the two name keys. In the source the three
    records are pointers to table rows; [FormatUserStatus] reads none
    of these three keys, so any value stands for them here. *)
Definition statusCommandRow (recovery sleep strain : Value) (username realName : string) : Row :=
  <["recovery" := recovery]> (<["sleep" := sleep]> (<["strain" := strain]>
    (<["username" := VString username]> (<["real_name" := VString realName]> ∅)))).

(** The provider refuses the authorization code. *)
Definition refused : Script :=
  {| now := now healthy;
     tokenReply := Fail "token exchange failed with status 400: invalid_grant";
     refreshReply := Ok grant;
     profileReply := Ok profile;
     recoveryReply := Ok [];
     sleepReply := Ok [];
     faults := fun _ => None;
     randomBytes := [] |}.

(** The provider's recovery endpoint is down; sleep is served. *)
Definition recoveryDown : Script :=
  {| now := now healthy;
     tokenReply := Ok grant;
     refreshReply := Ok grant;
     profileReply := Ok profile;
     recoveryReply := Fail "get recovery failed with status 503: unavailable";
     sleepReply := Ok [unscoredNight (of_int 90) 8];
     faults := fun _ => None;
     randomBytes := [] |}.

(** SQLite refuses the upsert of a connection. *)
Definition readOnly : Script :=
  {| now := now healthy;
     tokenReply := Ok grant;
     refreshReply := Ok grant;
     profileReply := Ok profile;
     recoveryReply := Ok [];
     sleepReply := Ok [];
     faults := fun st =>
                 match st with
                 | StUpsertWHOOPConnection _ => Some "attempt to write a readonly database"
                 | _ => None
                 end;
     randomBytes := [] |}.

(** The connection [HandleOAuthCallback] builds for U123 from [grant]
    and [profile] when the clock of [healthy] is read. *)
Definition reconnected : WHOOPConnection :=
  {| ID := 0; UserID := "U123"; WHOOPUserID := "4242";
     AccessToken := "access-2"; RefreshToken := "refresh-2";
     ExpiresAt := time.Add (now healthy) (GoInt.mul 3600 time.Second);
     ConnectedAt := now healthy + time.Second; Active := true |}.

(** A state with the prefix of U123 that the service never issued. *)
Definition forgedState : string := "U123:chosen-by-the-caller".

(** The recovery rows sent to the store: user, date and score. *)
Definition recoveryUpsert (ev : Event) : option (string * Time * Z) :=
  match ev with
  | Sql (StUpsertWHOOPRecovery r) => Some (rec_UserID r, rec_Date r, rec_Score r)
  | _ => None
  end.

(** The sleep rows sent to the store: user, date and score. *)
Definition sleepUpsert (ev : Event) : option (string * Time * Z) :=
  match ev with
  | Sql (StUpsertWHOOPSleep s) => Some (slp_UserID s, slp_Date s, slp_Score s)
  | _ => None
  end.

(** * Properties *)

(** ** float64 conversions *)

Section Float64Facts.

Lemma iter_pos_nat {A} (f : A -> A) (p : positive) (x : A) :
  SpecFloat.iter_pos f p x = Nat.iter (Pos.to_nat p) f x.
Proof.
  revert x. induction p as [p IH | p IH |]; intros x; cbn [SpecFloat.iter_pos].
  - rewrite !IH, Pos2Nat.inj_xI.
    replace (S (2 * Pos.to_nat p))%nat with (S (Pos.to_nat p + Pos.to_nat p))%nat by lia.
    now rewrite Nat.iter_succ_r, Nat.iter_add.
  - rewrite !IH, Pos2Nat.inj_xO.
    replace (2 * Pos.to_nat p)%nat with (Pos.to_nat p + Pos.to_nat p)%nat by lia.
    now rewrite Nat.iter_add.
  - reflexivity.
Qed.

Lemma shr_1_width mrs q :
  shr_m mrs = Zpos q -> (1 < width q)%nat ->
  exists q', shr_m (shr_1 mrs) = Zpos q' /\ (S (width q') = width q)%nat.
Proof.
  unfold width. destruct mrs as [m r s]; cbn [shr_m]; intros ->.
  destruct q as [q | q |]; cbn [shr_1 shr_m digits2_pos]; intros Hw.
  - exists q. split; [reflexivity | now rewrite Pos2Nat.inj_succ].
  - exists q. split; [reflexivity | now rewrite Pos2Nat.inj_succ].
  - cbn in Hw. lia.
Qed.

Lemma shr_iter_width n : forall mrs q,
  shr_m mrs = Zpos q -> (n < width q)%nat ->
  exists q', shr_m (Nat.iter n shr_1 mrs) = Zpos q' /\ (width q' + n = width q)%nat.
Proof.
  induction n as [| n IH]; intros mrs q Hm Hn.
  - exists q. split; [exact Hm | lia].
  - destruct (IH mrs q Hm) as (q1 & Hq1 & Hw1); [lia |].
    destruct (shr_1_width (Nat.iter n shr_1 mrs) q1 Hq1) as (q2 & Hq2 & Hw2); [lia |].
    exists q2. cbn [Nat.iter nat_rect]. split; [exact Hq2 | lia].
Qed.

(** Rounding never loses a positive mantissa once the exponent is at
    least the least exponent of the format. *)
Lemma shr_fexp_pos q e l :
  -1074 <= e ->
  exists mrs q' e', shr_fexp prec emax (Zpos q) e l = (mrs, e')
                    /\ shr_m mrs = Zpos q' /\ e <= e'.
Proof.
  intros He. unfold shr_fexp, shr.
  assert (Hrec : shr_m (shr_record_of_loc (Zpos q) l) = Zpos q)
    by (destruct l as [| []]; reflexivity).
  destruct (fexp prec emax (Zdigits2 (Zpos q) + e) - e) as [| k | k] eqn:Hk.
  - eexists _, q, e. repeat split; [exact Hrec | lia].
  - rewrite iter_pos_nat.
    destruct (shr_iter_width (Pos.to_nat k) _ q Hrec) as (q' & Hq' & _).
    + unfold width. apply Pos2Nat.inj_lt.
      unfold fexp, SpecFloat.emin, prec, emax in Hk. cbn [Zdigits2] in Hk. lia.
    + eexists _, q', _. repeat split; [exact Hq' | lia].
  - eexists _, q, e. repeat split; [exact Hrec | lia].
Qed.

Lemma binary_round_aux_pos q e l :
  -1074 <= e -> positive_float (binary_round_aux prec emax false (Zpos q) e l).
Proof.
  intros He. unfold binary_round_aux.
  destruct (shr_fexp_pos q e l He) as (mrs1 & q1 & e1 & -> & Hq1 & He1).
  rewrite Hq1.
  assert (Hr : exists r, round_nearest_even (Zpos q1) (loc_of_shr_record mrs1) = Zpos r).
  { unfold round_nearest_even.
    destruct (loc_of_shr_record mrs1) as [| []]; try destruct (Z.even (Zpos q1));
      cbn; eauto. }
  destruct Hr as (r & ->).
  destruct (shr_fexp_pos r e1 loc_Exact) as (mrs2 & q2 & e2 & -> & -> & _); [lia |].
  destruct (e2 <=? emax - prec); exact I.
Qed.

Lemma of_int_positive (n : Z) : 0 < n -> positive_float (of_int n).
Proof.
  intros Hn. destruct n as [| p | p]; try lia.
  unfold of_int, binary_normalize, binary_round.
  destruct (shl_align p 0 (fexp prec emax (Zpos (digits2_pos p) + 0))) as [mz ez] eqn:Hal.
  apply binary_round_aux_pos.
  unfold shl_align, fexp, SpecFloat.emin, prec, emax in Hal.
  destruct (Z.max (Zpos (digits2_pos p) + 0 - 53) (3 - 1024 - 53) - 0) eqn:Hd;
    inversion Hal; subst; lia.
Qed.

(** [0 / float64(n) = 0] for a positive count [n]. *)
Lemma div_zero_of_int (n : Z) : 0 < n -> div zero (of_int n) = zero.
Proof.
  intros Hn. pose proof (of_int_positive n Hn) as Hp.
  destruct (of_int n) as [s | [] | | [] m e]; cbn in Hp; try contradiction; reflexivity.
Qed.

End Float64Facts.

(** ** Formatting and conversion, on examples *)

Example fmt_f_examples :
  Fmt.f 0 (of_int 70) = "70" /\ Fmt.f 1 zero = "0.0"
  /\ Fmt.f 1 (decimal 725 2) = "7.2" /\ Fmt.f 1 (decimal 735 2) = "7.3"
  /\ Fmt.f 0 (decimal 5 1) = "0" /\ Fmt.f 0 (decimal 15 1) = "2"
  /\ Fmt.f 1 (decimal 7 2) = "0.1" /\ Fmt.f 1 (decimal (-125) 2) = "-1.2"
  /\ Fmt.f 0 (div (of_int 1) zero) = "+Inf" /\ Fmt.f 0 (div zero zero) = "NaN".
Proof. repeat split; vm_compute; reflexivity. Qed.

Example to_int_examples :
  to_int (decimal 773 1) = 77 /\ to_int (decimal (-773) 1) = -77
  /\ to_int (decimal 9 1) = 0 /\ to_int (div zero zero) = GoInt.min_int64.
Proof. repeat split; vm_compute; reflexivity. Qed.

Example wrap_examples :
  GoInt.wrap GoInt.max_int64 = GoInt.max_int64
  /\ GoInt.add GoInt.max_int64 1 = GoInt.min_int64
  /\ GoInt.mul 3600 time.Second = 3600000000000.
Proof. repeat split; vm_compute; reflexivity. Qed.

(** ** Strings *)

Lemma append_assoc (a b c : string) : (a +:+ b) +:+ c = a +:+ (b +:+ c).
Proof. induction a as [| x a IH]; simpl; [reflexivity | f_equal; exact IH]. Qed.

Lemma length_append (a b : string) :
  String.length (a +:+ b) = (String.length a + String.length b)%nat.
Proof. induction a as [| x a IH]; simpl; [reflexivity | f_equal; exact IH]. Qed.

Lemma substring_prefix (a b : string) : substring 0 (String.length a) (a +:+ b) = a.
Proof.
  induction a as [| x a IH]; simpl.
  - destruct b; reflexivity.
  - f_equal; exact IH.
Qed.

Lemma occurs_after (sub a s : string) : Spec.occurs sub s -> Spec.occurs sub (a +:+ s).
Proof.
  intros (before & after & ->). exists (a +:+ before), after.
  now rewrite append_assoc.
Qed.

Lemma occurs_before (sub s b : string) : Spec.occurs sub s -> Spec.occurs sub (s +:+ b).
Proof.
  intros (before & after & ->). exists before, (after +:+ b).
  now rewrite !append_assoc.
Qed.

(** ** Team summary *)

Section TeamSummaryFacts.

(** The first loop of [calculateTeamSummary] keeps, per metric, the
    values of the rows that carry it, in row order. *)
Lemma tally_rows (rows : list Row) : forall acc,
  fold_left tally rows acc =
  {| recoveryScores := recoveryScores acc ++ map of_int (Spec.values "recovery_score" rows);
     sleepScores := sleepScores acc ++ map of_int (Spec.values "sleep_score" rows);
     totalSleepHours :=
       fold_left (fun total ms => add total (div (of_int ms) (of_int 3600000)))
         (Spec.values "duration_ms" rows) (totalSleepHours acc) |}.
Proof.
  induction rows as [| row rows IH]; intros acc.
  - cbn. rewrite !app_nil_r. destruct acc; reflexivity.
  - cbn [fold_left Spec.values]. rewrite IH. unfold tally, Spec.carried.
    cbn [recoveryScores sleepScores totalSleepHours].
    destruct (row !! "recovery_score") as [[] |];
      destruct (row !! "sleep_score") as [[] |];
      destruct (row !! "duration_ms") as [[] |];
      cbn [map fold_left]; rewrite <- ?app_assoc; reflexivity.
Qed.

Lemma average_mean (scores : list Z) : average (map of_int scores) = Spec.mean scores.
Proof.
  destruct scores as [| n scores]; [reflexivity |].
  unfold average, Spec.mean. cbn [map length]. now rewrite length_map.
Qed.

Lemma summary_recoveryNum (rows : list Row) :
  recoveryNum (calculateTeamSummary rows) = Spec.mean (Spec.values "recovery_score" rows).
Proof.
  unfold calculateTeamSummary. cbn [recoveryNum]. rewrite tally_rows.
  cbn [recoveryScores app]. apply average_mean.
Qed.

Lemma summary_sleepNum (rows : list Row) :
  sleepNum (calculateTeamSummary rows) = Spec.mean (Spec.values "sleep_score" rows).
Proof.
  unfold calculateTeamSummary. cbn [sleepNum]. rewrite tally_rows.
  cbn [sleepScores app]. apply average_mean.
Qed.

Lemma summary_avgRecovery (rows : list Row) :
  avgRecovery (calculateTeamSummary rows) = formatScore (recoveryNum (calculateTeamSummary rows)).
Proof. reflexivity. Qed.

Lemma summary_avgSleep (rows : list Row) :
  avgSleep (calculateTeamSummary rows) = formatScore (sleepNum (calculateTeamSummary rows)).
Proof. reflexivity. Qed.

Lemma summary_totalSleep (rows : list Row) :
  totalSleep (calculateTeamSummary rows)
  = Fmt.f 1 (Spec.hours (Spec.values "duration_ms" rows)) +:+ "h total".
Proof.
  unfold calculateTeamSummary. cbn [totalSleep]. rewrite tally_rows. reflexivity.
Qed.

(** Adding up zeros gives zero. *)
Lemma sum_zeros (scores : list Z) :
  Forall (fun n => n = 0) scores -> fold_left add (map of_int scores) zero = zero.
Proof.
  induction 1 as [| n scores Hn _ IH]; [reflexivity |].
  subst n. cbn [map fold_left]. exact IH.
Qed.

Lemma mean_zeros (scores : list Z) :
  Forall (fun n => n = 0) scores -> Spec.mean scores = zero.
Proof.
  intros Hz. destruct scores as [| n scores]; [reflexivity |].
  unfold Spec.mean. rewrite (sum_zeros _ Hz).
  apply div_zero_of_int. cbn [length]. lia.
Qed.

(** A row without [key] contributes nothing under [key]. *)
Lemma values_delete (key : string) (rows : list Row) :
  Spec.values key (map (delete key) rows) = [].
Proof.
  induction rows as [| row rows IH]; [reflexivity |].
  cbn [map Spec.values]. unfold Spec.carried at 1. now rewrite lookup_delete_eq.
Qed.

End TeamSummaryFacts.

Section FormatterClaims.

(** C5. For every list of team rows, [calculateTeamSummary] averages
    recovery over the rows that carry a recovery score and sleep over
    the rows that carry a sleep score (a row without the metric is in
    neither the sum nor the count), and adds up [duration_ms / 3.6e6]
    over the rows that carry a duration; on
    [[{recovery:80, sleep:90}, {recovery:60}]] the averages are 70 and 90. *)
Theorem team_summary_averages_present_metrics (rows : list Row) :
  let summary := calculateTeamSummary rows in
  recoveryNum summary = Spec.mean (Spec.values "recovery_score" rows)
  /\ avgRecovery summary = formatScore (Spec.mean (Spec.values "recovery_score" rows))
  /\ sleepNum summary = Spec.mean (Spec.values "sleep_score" rows)
  /\ avgSleep summary = formatScore (Spec.mean (Spec.values "sleep_score" rows))
  /\ totalSleep summary = Fmt.f 1 (Spec.hours (Spec.values "duration_ms" rows)) +:+ "h total"
  /\ recoveryNum (calculateTeamSummary exampleRows) = of_int 70
  /\ sleepNum (calculateTeamSummary exampleRows) = of_int 90
  /\ avgRecovery (calculateTeamSummary exampleRows) = "70%"
  /\ avgSleep (calculateTeamSummary exampleRows) = "90%".
Proof.
  cbv zeta. rewrite summary_avgRecovery, summary_avgSleep, summary_totalSleep.
  rewrite summary_recoveryNum, summary_sleepNum.
  repeat split; vm_compute; reflexivity.
Qed.

(** C7. [calculateTeamSummary] of the empty row list has both averages
    0, both rendered "N/A", and "0.0h total"; the division by the count
    is guarded, so whenever no row qualifies for an average that
    average is 0 and not the result of a division by zero. *)
Theorem team_summary_of_no_rows :
  calculateTeamSummary [] = emptySummary
  /\ forall rows : list Row,
       (Spec.values "recovery_score" rows = [] ->
        recoveryNum (calculateTeamSummary rows) = zero
        /\ avgRecovery (calculateTeamSummary rows) = "N/A")
       /\ (Spec.values "sleep_score" rows = [] ->
           sleepNum (calculateTeamSummary rows) = zero
           /\ avgSleep (calculateTeamSummary rows) = "N/A").
Proof.
  split; [reflexivity |].
  intros rows. rewrite summary_avgRecovery, summary_avgSleep.
  rewrite summary_recoveryNum, summary_sleepNum.
  split; intros ->; split; reflexivity.
Qed.

(** On one connected user without any metric. *)
Lemma team_summary_of_no_rows_witness :
  Spec.values "recovery_score" [(∅ : Row)] = []
  /\ recoveryNum (calculateTeamSummary [(∅ : Row)]) = zero
  /\ avgRecovery (calculateTeamSummary [(∅ : Row)]) = "N/A".
Proof.
  split; [reflexivity |].
  exact (proj1 (proj2 team_summary_of_no_rows [(∅ : Row)]) eq_refl).
Defined.

(** C10. [formatScore] renders the value 0 as "N/A" whatever produced
    it; so when every recovery (or sleep) score present in the rows is
    0, the average is 0 and is rendered "N/A", the very text rendered
    when no row carries that metric at all. *)
Theorem zero_average_renders_as_missing :
  (forall x : float64, eqb x zero = true -> formatScore x = "N/A")
  /\ forall rows : list Row,
       (Forall (fun n => n = 0) (Spec.values "recovery_score" rows) ->
        recoveryNum (calculateTeamSummary rows) = zero
        /\ avgRecovery (calculateTeamSummary rows) = "N/A"
        /\ avgRecovery (calculateTeamSummary rows)
           = avgRecovery (calculateTeamSummary (map (delete "recovery_score") rows)))
       /\ (Forall (fun n => n = 0) (Spec.values "sleep_score" rows) ->
           sleepNum (calculateTeamSummary rows) = zero
           /\ avgSleep (calculateTeamSummary rows) = "N/A"
           /\ avgSleep (calculateTeamSummary rows)
              = avgSleep (calculateTeamSummary (map (delete "sleep_score") rows))).
Proof.
  split.
  - intros x Hx. unfold formatScore. now rewrite Hx.
  - intros rows. rewrite !summary_avgRecovery, !summary_avgSleep.
    rewrite !summary_recoveryNum, !summary_sleepNum, !values_delete.
    split; intros Hz; rewrite (mean_zeros _ Hz); repeat split; reflexivity.
Qed.

(** On [zeroRows]. *)
Lemma zero_average_renders_as_missing_witness :
  Forall (fun n => n = 0) (Spec.values "recovery_score" zeroRows)
  /\ avgRecovery (calculateTeamSummary zeroRows) = "N/A"
  /\ avgRecovery (calculateTeamSummary zeroRows)
     = avgRecovery (calculateTeamSummary (map (delete "recovery_score") zeroRows)).
Proof.
  assert (Hz : Forall (fun n => n = 0) (Spec.values "recovery_score" zeroRows))
    by (repeat constructor).
  split; [exact Hz |].
  exact (proj2 (proj1 (proj2 zero_average_renders_as_missing zeroRows) Hz)).
Defined.

Lemma present_false_lookup (row : Row) (key : string) :
  present row key = false -> row !! key = None \/ row !! key = Some VNil.
Proof.
  unfold present. destruct (row !! key) as [[] |]; intros Hp;
    try discriminate; auto.
Qed.

(** The line of a user with neither metric. *)
Lemma formatUserData_no_metrics (row : Row) :
  present row "recovery_score" = false ->
  present row "sleep_score" = false ->
  formatUserData row =
  "• **" +:+ (if String.eqb (getString row "real_name") "" then getString row "username"
              else getString row "real_name") +:+ ":** " +:+ "No recent data 📊".
Proof.
  intros Hr Hs. unfold formatUserData. rewrite Hr, Hs. reflexivity.
Qed.

Lemma standup_starts_with_header (weekday : Weekday) (row : Row) (rows : list Row) :
  exists rest, FormatMorningStandup weekday (row :: rows) = standupHeader +:+ rest.
Proof. eexists. unfold FormatMorningStandup. reflexivity. Qed.

(** C8. On the empty row list [FormatMorningStandup] returns its
    dedicated message, which tells to connect an account; on a single
    row with no metric it renders the standup with that user's
    "No recent data" line; the two texts differ. *)
Theorem standup_empty_differs_from_no_metrics (weekday : Weekday) (row : Row) :
  present row "recovery_score" = false ->
  present row "sleep_score" = false ->
  FormatMorningStandup weekday [] = noDataMessage
  /\ Spec.occurs "No WHOOP data available yet. Connect your WHOOP accounts" noDataMessage
  /\ Spec.occurs "No recent data" (FormatMorningStandup weekday [row])
  /\ Spec.occurs standupHeader (FormatMorningStandup weekday [row])
  /\ FormatMorningStandup weekday [] <> FormatMorningStandup weekday [row].
Proof.
  intros Hr Hs. split; [reflexivity |]. split; [| split; [| split]].
  - exists ("🌅 *Good Morning Team!* 🌅" +:+ nl +:+ nl),
           " with `/connect-whoop` to see your daily stats! 🚀".
    reflexivity.
  - cbv beta iota zeta delta [FormatMorningStandup fold_left].
    rewrite (formatUserData_no_metrics row Hr Hs).
    do 2 apply occurs_after. apply occurs_before.
    apply occurs_after. apply occurs_before.
    do 3 apply occurs_after.
    exists "", " 📊". reflexivity.
  - destruct (standup_starts_with_header weekday row []) as [rest ->].
    exists "", rest. reflexivity.
  - destruct (standup_starts_with_header weekday row []) as [rest ->].
    intros Heq. apply (f_equal (String.get 24)) in Heq.
    cbv in Heq. discriminate Heq.
Qed.

(** On a Monday, for one connected user without any metric. *)
Lemma standup_empty_differs_from_no_metrics_witness :
  let row : Row := <["username" := VString "ada"]> ∅ in
  (present row "recovery_score" = false /\ present row "sleep_score" = false)
  /\ FormatMorningStandup Monday [] = noDataMessage
  /\ Spec.occurs "No WHOOP data available yet. Connect your WHOOP accounts" noDataMessage
  /\ Spec.occurs "No recent data" (FormatMorningStandup Monday [row])
  /\ Spec.occurs standupHeader (FormatMorningStandup Monday [row])
  /\ FormatMorningStandup Monday [] <> FormatMorningStandup Monday [row].
Proof.
  cbv zeta. split; [split; reflexivity |].
  exact (standup_empty_differs_from_no_metrics Monday (<["username" := VString "ada"]> ∅)
           eq_refl eq_refl).
Defined.

(** The standup of one connected user without data, on a Monday. *)
Example standup_no_metrics_run :
  FormatMorningStandup Monday [<["username" := VString "ada"]> ∅]
  = standupHeader
      +:+ "📊 *Team Overview:* 🆘 Team needs extra care today!" +:+ nl
      +:+ "• Average Recovery: N/A" +:+ nl
      +:+ "• Average Sleep Score: N/A" +:+ nl
      +:+ "• Team Sleep Hours: 0.0h total" +:+ nl +:+ nl
      +:+ "👥 *Individual Stats:*" +:+ nl
      +:+ "• **ada:** No recent data 📊" +:+ nl +:+ nl
      +:+ "🌟 Let's crush this Monday! 💪 " +:+ nl +:+ nl
      +:+ "_💡 Pro tip: Use `/whoop-status` to check individual stats or `/morning-report` for a fresh update!_".
Proof. vm_compute. reflexivity. Qed.

End FormatterClaims.

(** ** Sleep score *)

Section SleepScoreClaims.

(** C4, as amended. For every sleep record whose reported score is 0
    and whose efficiency percentage is greater than 0, the score of the
    row sent to the store is the integer part (Go's [int] conversion,
    toward zero) of the three-branch formula, evaluated in float64 on
    efficiency = percentage / 100 and on durationHours = (light +
    slow-wave + REM) / 3.6e6; a reported score of 0 at 90 percent
    efficiency and 8 hours gives 80. *)
Theorem sleep_score_is_truncated_estimate
    (connection : WHOOPConnection) (sleep : SleepData) (now : Time) :
  sd_SleepScore sleep = 0 ->
  gtb (sd_SleepEfficiencyPercentage sleep) zero = true ->
  let total := GoInt.add (GoInt.add (sd_TotalLightSleepMS sleep) (sd_TotalSlowWaveSleepMS sleep))
                 (sd_TotalRemSleepMS sleep) in
  let efficiency := div (sd_SleepEfficiencyPercentage sleep) (of_int 100) in
  let durationHours := div (of_int total) (of_int 3600000) in
  slp_DurationMS (sleepModel connection sleep now) = total
  /\ slp_Score (sleepModel connection sleep now) = to_int (Spec.estimate efficiency durationHours)
  /\ to_int (Spec.estimate (decimal 90 2) (of_int 8)) = 80.
Proof.
  intros Hscore Heff. cbv zeta. split; [reflexivity |]. split; [| vm_compute; reflexivity].
  cbn [sleepModel slp_Score]. unfold sleepScore, Spec.estimate, totalSleepMS.
  rewrite Hscore, Heff. cbn [Z.eqb andb fst].
  change (of_int (1000 * 60 * 60)) with (of_int 3600000).
  destruct (geb _ (decimal 75 1) && geb _ (decimal 85 2)); [reflexivity |].
  destruct (geb _ (decimal 65 1) && geb _ (decimal 75 2)); reflexivity.
Qed.

(** On eight hours of sleep at 90 percent efficiency. *)
Lemma sleep_score_is_truncated_estimate_witness :
  sd_SleepScore (unscoredNight (of_int 90) 8) = 0
  /\ gtb (sd_SleepEfficiencyPercentage (unscoredNight (of_int 90) 8)) zero = true
  /\ slp_DurationMS (sleepModel someConnection (unscoredNight (of_int 90) 8) 0) = 8 * 3600000
  /\ slp_Score (sleepModel someConnection (unscoredNight (of_int 90) 8) 0) = 80.
Proof.
  split; [reflexivity |]. split; [reflexivity |].
  destruct (sleep_score_is_truncated_estimate someConnection (unscoredNight (of_int 90) 8) 0
              eq_refl eq_refl) as (Hd & Hs & _).
  split; [rewrite Hd | rewrite Hs]; vm_compute; reflexivity.
Defined.

(** C4 as stated fails: at 87.3 percent efficiency and 8 hours the
    formula gives 77.3 (in float64 the nearest value below it), and the
    row holds 77. *)
Lemma sleep_score_is_not_the_estimate :
  let sleep := unscoredNight (decimal 873 1) 8 in
  let estimate := Spec.estimate (div (sd_SleepEfficiencyPercentage sleep) (of_int 100))
                    (div (of_int (totalSleepMS sleep)) (of_int 3600000)) in
  sd_SleepScore sleep = 0
  /\ gtb (sd_SleepEfficiencyPercentage sleep) zero = true
  /\ Fmt.f 1 estimate = "77.3"
  /\ slp_Score (sleepModel someConnection sleep 0) = 77
  /\ eqb (of_int (slp_Score (sleepModel someConnection sleep 0))) estimate = false.
Proof. cbv zeta. repeat split; vm_compute; reflexivity. Qed.

End SleepScoreClaims.

(** ** OAuth state *)

Section StateClaims.

Lemma firstColon_append (u rest : string) : forall i,
  Spec.colonFree u = true ->
  firstColon (u +:+ String ":" rest) i = Some (i + String.length u)%nat.
Proof.
  induction u as [| c u IH]; intros i Hu; simpl.
  - f_equal. lia.
  - simpl in Hu. apply andb_prop in Hu as [Hc Hu].
    apply negb_true_iff in Hc. rewrite Hc, (IH (S i) Hu). f_equal. lia.
Qed.

Lemma stateUserID_append (u rest : string) :
  Spec.colonFree u = true -> stateUserID (u +:+ ":" +:+ rest) = u.
Proof.
  intros Hu. unfold stateUserID.
  change (":" +:+ rest) with (String ":" rest).
  rewrite (firstColon_append u rest 0 Hu). cbn [Nat.add].
  apply substring_prefix.
Qed.

Lemma length_fill16 (bytes : list Byte.byte) : length (fill16 bytes) = 16%nat.
Proof.
  unfold fill16. rewrite length_firstn, length_app, repeat_length. lia.
Qed.

Lemma length_EncodeToString (src : list Byte.byte) :
  String.length (hex.EncodeToString src) = (2 * length src)%nat.
Proof.
  induction src as [| b src IH]; [reflexivity |].
  cbn [hex.EncodeToString String.length length]. rewrite IH. lia.
Qed.

Lemma isHex_EncodeToString (src : list Byte.byte) :
  Spec.isHex (hex.EncodeToString src) = true.
Proof.
  induction src as [| b src IH]; [reflexivity |].
  cbn [hex.EncodeToString Spec.isHex]. rewrite IH.
  destruct b; vm_compute; reflexivity.
Qed.

Lemma authState_shape (userID : string) (random : list Byte.byte) :
  exists token,
    authState userID random = userID +:+ ":" +:+ token
    /\ String.length token = 32%nat /\ Spec.isHex token = true.
Proof.
  exists (hex.EncodeToString (fill16 random)). split; [reflexivity |]. split.
  - now rewrite length_EncodeToString, length_fill16.
  - apply isHex_EncodeToString.
Qed.

Lemma authState_long (userID : string) (random : list Byte.byte) :
  (String.length (authState userID random) <? 10)%nat = false.
Proof.
  unfold authState. rewrite length_append.
  change (":" +:+ ?x) with (String ":" x). cbn [String.length].
  rewrite length_EncodeToString, length_fill16. apply Nat.ltb_ge. lia.
Qed.

End StateClaims.

(** ** The connection table *)

Section TableFacts.

Lemma find_none_iff {A} (f : A -> bool) (l : list A) :
  List.find f l = None <-> (forall x, In x l -> f x = false).
Proof.
  split; [apply find_none |].
  induction l as [| a l IH]; intros Hall; [reflexivity |].
  cbn [List.find]. rewrite (Hall a) by (left; reflexivity).
  apply IH. intros x Hx. apply Hall. right. exact Hx.
Qed.

Lemma GetWHOOPConnection_Some (userID : string) (d : Database) (c : WHOOPConnection) :
  GetWHOOPConnection userID d = Some c ->
  UserID c = userID /\ Active c = true /\ In c (whoop_connections d).
Proof.
  unfold GetWHOOPConnection. intros Hf. apply find_some in Hf as [Hin Hc].
  apply andb_prop in Hc as [Hu Ha]. apply String.eqb_eq in Hu. auto.
Qed.

(** The lookup finds nothing once the user is deactivated. *)
Lemma GetWHOOPConnection_Deactivate (userID : string) (d : Database) :
  GetWHOOPConnection userID (DeactivateWHOOPConnection userID d) = None.
Proof.
  unfold GetWHOOPConnection, DeactivateWHOOPConnection. cbn [whoop_connections set_connections].
  apply find_none_iff. intros x Hx. apply in_map_iff in Hx as (r & <- & _).
  destruct (String.eqb (UserID r) userID) eqn:Hu; cbn [with_active UserID Active].
  - now rewrite andb_false_r.
  - now rewrite Hu.
Qed.

Lemma inactive_Deactivate (u userID : string) (d : Database) :
  GetWHOOPConnection u d = None ->
  GetWHOOPConnection u (DeactivateWHOOPConnection userID d) = None.
Proof.
  unfold GetWHOOPConnection, DeactivateWHOOPConnection. cbn [whoop_connections set_connections].
  rewrite !find_none_iff. intros Hnone x Hx. apply in_map_iff in Hx as (r & <- & Hr).
  specialize (Hnone r Hr).
  destruct (String.eqb (UserID r) userID); [| exact Hnone].
  cbn [with_active UserID Active]. now rewrite andb_false_r.
Qed.

Lemma inactive_Upsert (u : string) (c : WHOOPConnection) (d : Database) :
  UserID c <> u ->
  GetWHOOPConnection u d = None ->
  GetWHOOPConnection u (UpsertWHOOPConnection c d) = None.
Proof.
  unfold GetWHOOPConnection, UpsertWHOOPConnection. cbn [whoop_connections set_connections].
  rewrite !find_none_iff. intros Hne Hnone x Hx. apply in_app_or in Hx as [Hx | Hx].
  - apply filter_In in Hx as [Hx _]. exact (Hnone x Hx).
  - destruct Hx as [<- | []]. cbn [with_id UserID Active].
    apply String.eqb_neq in Hne. now rewrite Hne.
Qed.

Lemma uniqueUsers_Deactivate (userID : string) (d : Database) :
  Spec.uniqueUsers d -> Spec.uniqueUsers (DeactivateWHOOPConnection userID d).
Proof.
  unfold Spec.uniqueUsers, DeactivateWHOOPConnection. cbn [whoop_connections set_connections].
  rewrite map_map. intros Hd.
  erewrite map_ext; [exact Hd |].
  intros r. destruct (String.eqb (UserID r) userID); reflexivity.
Qed.

Lemma NoDup_map_filter {A B} (f : A -> B) (p : A -> bool) (l : list A) :
  NoDup (map f l) -> NoDup (map f (List.filter p l)).
Proof.
  induction l as [| a l IH]; cbn [map List.filter]; intros Hd; [constructor |].
  inversion Hd as [| ? ? Hnotin Hd']; subst. rewrite list_elem_of_In in Hnotin.
  destruct (p a); [| exact (IH Hd')].
  cbn [map]. constructor; [| exact (IH Hd')].
  rewrite list_elem_of_In. intros Hin. apply Hnotin. apply in_map_iff in Hin as (x & Hx & Hxin).
  apply filter_In in Hxin as [Hxin _]. apply in_map_iff. eauto.
Qed.

(** [INSERT OR REPLACE] keeps [UNIQUE(user_id)]. *)
Lemma uniqueUsers_Upsert (c : WHOOPConnection) (d : Database) :
  Spec.uniqueUsers d -> Spec.uniqueUsers (UpsertWHOOPConnection c d).
Proof.
  unfold Spec.uniqueUsers, UpsertWHOOPConnection. cbn [whoop_connections set_connections].
  intros Hd. rewrite map_app. cbn [map with_id UserID].
  apply NoDup_app. split; [now apply NoDup_map_filter |]. split.
  - intros x Hx Hx'. rewrite list_elem_of_In in Hx. rewrite list_elem_of_In in Hx'.
    destruct Hx' as [<- | []].
    apply in_map_iff in Hx as (r & Hr & Hrin). apply filter_In in Hrin as [_ Hp].
    apply negb_true_iff, String.eqb_neq in Hp. contradiction.
  - apply NoDup_singleton.
Qed.

Lemma uniqueUsers_empty : Spec.uniqueUsers database.empty.
Proof. constructor. Qed.

(** Under [UNIQUE(user_id)] a user has at most one active connection. *)
Lemma uniqueUsers_activeConnections (userID : string) (d : Database) :
  Spec.uniqueUsers d -> (length (Spec.activeConnections userID d) <= 1)%nat.
Proof.
  unfold Spec.uniqueUsers, Spec.activeConnections.
  induction (whoop_connections d) as [| r rows IH]; cbn [map List.filter]; intros Hd; [cbn; lia |].
  inversion Hd as [| ? ? Hnotin Hd']; subst. rewrite list_elem_of_In in Hnotin.
  destruct (String.eqb (UserID r) userID && Active r) eqn:Hr; [| exact (IH Hd')].
  apply andb_prop in Hr as [Hu _]. apply String.eqb_eq in Hu.
  assert (Hnil : List.filter (fun r0 => String.eqb (UserID r0) userID && Active r0) rows = []).
  { destruct (List.filter _ rows) as [| x xs] eqn:Hf; [reflexivity |]. exfalso.
    assert (Hx : In x (List.filter (fun r0 => String.eqb (UserID r0) userID && Active r0) rows))
      by (rewrite Hf; left; reflexivity).
    apply filter_In in Hx as [Hxin Hx]. apply andb_prop in Hx as [Hxu _].
    apply String.eqb_eq in Hxu. apply Hnotin. apply in_map_iff. exists x. split; congruence. }
  rewrite Hnil. cbn. lia.
Qed.

End TableFacts.

(** ** The service *)

Section ServiceFacts.

Context {E : Type} `{Outside E}.

Lemma pick_app {B} (f : Event -> option B) (tr1 tr2 : list Event) :
  Spec.pick f (tr1 ++ tr2) = Spec.pick f tr1 ++ Spec.pick f tr2.
Proof.
  induction tr1 as [| ev tr1 IH]; [reflexivity |].
  cbn [app Spec.pick]. destruct (f ev); cbn [app]; now rewrite IH.
Qed.

Section Rules.

Variable J : Database -> Prop.
Context {B : Type} (f : Event -> option B).

Lemma preserves_ret {A} (a : A) : preserves J (ret (E := E) a).
Proof. intros w Hw. exact Hw. Qed.

Lemma preserves_bind {A C} (m : M E A) (k : A -> M E C) :
  preserves J m -> (forall a, preserves J (k a)) -> preserves J (bind m k).
Proof.
  intros Hm Hk w Hw. unfold bind. specialize (Hm w Hw).
  destruct (m w) as [a w1]. exact (Hk a w1 Hm).
Qed.

Lemma preserves_perform {A} (ev : Event) (call : E -> A * E) :
  preserves J (perform ev call).
Proof. intros w Hw. unfold perform. destruct (call (outside w)). exact Hw. Qed.

Lemma preserves_Now : preserves J Now.
Proof. intros w Hw. unfold Now. destruct (clock (outside w)). exact Hw. Qed.

Lemma preserves_Printf (line : string) : preserves J (Printf (E := E) line).
Proof. intros w Hw. exact Hw. Qed.

Lemma preserves_query {A} (g : Database -> A) : preserves J (query (E := E) g).
Proof. intros w Hw. exact Hw. Qed.

Lemma preserves_GenerateState : preserves J GenerateState.
Proof. intros w Hw. unfold GenerateState. destruct (entropy 16 (outside w)). exact Hw. Qed.

Lemma preserves_exec (st : Statement) (g : Database -> Database) :
  (forall d, J d -> J (g d)) -> preserves J (exec st g).
Proof.
  intros Hg w Hw. unfold exec, bind, perform, update, ret.
  destruct (sqlite st (outside w)) as [[e |] o]; cbn; auto.
Qed.

Lemma silent_ret {A} (a : A) : silent f (ret (E := E) a).
Proof. intros w. reflexivity. Qed.

Lemma silent_bind {A C} (m : M E A) (k : A -> M E C) :
  silent f m -> (forall a, silent f (k a)) -> silent f (bind m k).
Proof.
  intros Hm Hk w. unfold bind. specialize (Hm w).
  destruct (m w) as [a w1]. rewrite <- Hm. exact (Hk a w1).
Qed.

Lemma silent_perform {A} (ev : Event) (call : E -> A * E) :
  f ev = None -> silent f (perform ev call).
Proof.
  intros Hev w. unfold perform. destruct (call (outside w)). cbn [snd trace].
  rewrite pick_app. cbn [Spec.pick]. rewrite Hev. apply app_nil_r.
Qed.

Lemma silent_Now : silent f Now.
Proof. intros w. unfold Now. destruct (clock (outside w)). reflexivity. Qed.

Lemma silent_Printf (line : string) : silent f (Printf (E := E) line).
Proof. intros w. reflexivity. Qed.

Lemma silent_query {A} (g : Database -> A) : silent f (query (E := E) g).
Proof. intros w. reflexivity. Qed.

Lemma silent_exec (st : Statement) (g : Database -> Database) :
  f (Sql st) = None -> silent f (exec st g).
Proof.
  intros Hst w. unfold exec, bind, perform, update, ret.
  destruct (sqlite st (outside w)) as [[e |] o]; cbn [snd trace];
    rewrite pick_app; cbn [Spec.pick]; rewrite Hst; apply app_nil_r.
Qed.

End Rules.

(** Walks through a method, leaving what its statements must satisfy. *)
Ltac walk :=
  repeat match goal with
    | |- preserves _ (ret _) => apply preserves_ret
    | |- preserves _ (bind _ _) => apply preserves_bind; [| intro]
    | |- preserves _ Now => apply preserves_Now
    | |- preserves _ (Printf _) => apply preserves_Printf
    | |- preserves _ (perform _ _) => apply preserves_perform
    | |- preserves _ (query _) => apply preserves_query
    | |- preserves _ GenerateState => apply preserves_GenerateState
    | |- preserves _ (exec _ _) => apply preserves_exec
    | |- preserves _ (match ?x with _ => _ end) => destruct x
    | |- silent _ (ret _) => apply silent_ret
    | |- silent _ (bind _ _) => apply silent_bind; [| intro]
    | |- silent _ Now => apply silent_Now
    | |- silent _ (Printf _) => apply silent_Printf
    | |- silent _ (perform _ _) => apply silent_perform; try reflexivity
    | |- silent _ (query _) => apply silent_query
    | |- silent _ (exec _ _) => apply silent_exec; try reflexivity
    | |- silent _ (match ?x with _ => _ end) => destruct x
    end.

(** *** Every method keeps [UNIQUE(user_id)] *)

Lemma uniqueUsers_UpsertWHOOPRecovery r d :
  Spec.uniqueUsers d -> Spec.uniqueUsers (UpsertWHOOPRecovery r d).
Proof. intros Hd; exact Hd. Qed.

Lemma uniqueUsers_UpsertWHOOPSleep s d :
  Spec.uniqueUsers d -> Spec.uniqueUsers (UpsertWHOOPSleep s d).
Proof. intros Hd; exact Hd. Qed.

Lemma unique_RefreshTokenIfNeeded connection :
  preserves Spec.uniqueUsers (RefreshTokenIfNeeded connection).
Proof.
  unfold RefreshTokenIfNeeded, db_DeactivateWHOOPConnection, db_UpsertWHOOPConnection.
  walk; intros d; (apply uniqueUsers_Deactivate || apply uniqueUsers_Upsert).
Qed.

Lemma unique_storeRecovery connection records :
  preserves Spec.uniqueUsers (storeRecovery connection records).
Proof.
  induction records as [| r records IH]; cbn [storeRecovery]; unfold db_UpsertWHOOPRecovery;
    walk; try exact IH.
  intros d. apply uniqueUsers_UpsertWHOOPRecovery.
Qed.

Lemma unique_storeSleep connection records :
  preserves Spec.uniqueUsers (storeSleep connection records).
Proof.
  induction records as [| r records IH]; cbn [storeSleep]; unfold db_UpsertWHOOPSleep;
    walk; try exact IH.
  intros d. apply uniqueUsers_UpsertWHOOPSleep.
Qed.

Lemma unique_SyncUserData userID : preserves Spec.uniqueUsers (SyncUserData userID).
Proof.
  unfold SyncUserData, db_GetWHOOPConnection, syncRecoveryData, syncSleepData.
  walk; first [ apply unique_RefreshTokenIfNeeded | apply unique_storeRecovery
              | apply unique_storeSleep ].
Qed.

Lemma unique_syncEach connections : preserves Spec.uniqueUsers (syncEach connections).
Proof.
  induction connections as [| c connections IH]; cbn [syncEach]; walk;
    first [ exact IH | apply unique_SyncUserData ].
Qed.

Lemma unique_call (c : Call) : preserves Spec.uniqueUsers (call c).
Proof.
  destruct c; cbn [call].
  - unfold GetAuthURL, GetAuthURL_state. walk.
  - unfold HandleOAuthCallback, db_UpsertWHOOPConnection. walk.
    intros d. apply uniqueUsers_Upsert.
  - walk. apply unique_RefreshTokenIfNeeded.
  - walk. apply unique_SyncUserData.
  - unfold SyncAllUsersData, db_GetAllActiveWHOOPConnections. walk. apply unique_syncEach.
  - unfold DisconnectUser, db_DeactivateWHOOPConnection. walk.
    intros d. apply uniqueUsers_Deactivate.
Qed.

Lemma unique_calls (history : list Call) : preserves Spec.uniqueUsers (calls history).
Proof.
  induction history as [| c history IH]; cbn [calls]; walk;
    first [ exact IH | apply unique_call ].
Qed.

(** C9, as amended. At any time every internal user id has at most
    one connection with active = true: whatever the host calls
    (auth URL, connect, reconnect, refresh, sync, disconnect), in any
    order and whatever the outside world answers, the rows of
    [whoop_connections] keep distinct user ids. *)
Theorem at_most_one_active_connection (o : E) (history : list Call) (userID : string) :
  let d := db (snd (calls history (start o))) in
  Spec.uniqueUsers d /\ (length (Spec.activeConnections userID d) <= 1)%nat.
Proof.
  cbv zeta.
  assert (Hu : Spec.uniqueUsers (db (snd (calls history (start o)))))
    by (apply unique_calls; exact uniqueUsers_empty).
  split; [exact Hu | now apply uniqueUsers_activeConnections].
Qed.

(** *** Refresh *)

Lemma Hour_ltb_Sub (t u : Time) : (time.Hour <? time.Sub t u) = (time.Hour <? t - u).
Proof.
  unfold time.Sub, time.Hour, time.Second, GoInt.min_int64, GoInt.max_int64.
  destruct (3600 * 1000000000 <? t - u) eqn:Hlt.
  - apply Z.ltb_lt. apply Z.ltb_lt in Hlt. lia.
  - apply Z.ltb_ge. apply Z.ltb_ge in Hlt. lia.
Qed.

(** C3. For every connection and whatever the provider answers,
    [RefreshTokenIfNeeded] calls the refresh endpoint exactly once,
    with the connection's refresh token, when the expiry is at most one
    hour after the reading of the clock, and when the expiry is more
    than one hour away it calls nothing and returns the connection
    unchanged. *)
Theorem refresh_called_once_when_due (connection : WHOOPConnection) (w : World E) :
  let now := fst (clock (outside w)) in
  let r := fst (RefreshTokenIfNeeded connection w) in
  let w' := snd (RefreshTokenIfNeeded connection w) in
  (ExpiresAt connection - now <= time.Hour ->
   Spec.pick Spec.refresh (trace w')
   = Spec.pick Spec.refresh (trace w) ++ [RefreshToken connection])
  /\ (time.Hour < ExpiresAt connection - now ->
      r = Ok connection /\ trace w' = trace w /\ db w' = db w /\ logs w' = logs w).
Proof.
  cbv zeta. unfold RefreshTokenIfNeeded, bind, Now, Printf, perform, ret,
    db_DeactivateWHOOPConnection, db_UpsertWHOOPConnection, exec, bind, perform, update, ret.
  destruct (clock (outside w)) as [now o1]. cbn [fst snd outside db trace logs].
  rewrite Hour_ltb_Sub.
  destruct (time.Hour <? ExpiresAt connection - now) eqn:Hdue.
  - apply Z.ltb_lt in Hdue. split; [lia |]. intros _. cbn. auto.
  - apply Z.ltb_ge in Hdue. split; [intros _ | lia].
    cbn [fst snd outside db trace logs].
    destruct (whoopRefresh (RefreshToken connection) o1) as [[tokenResp | err] o2];
      cbn [fst snd outside db trace logs].
    + destruct (clock o2) as [now' o3]. cbn [fst snd outside db trace logs].
      destruct (sqlite _ o3) as [[e |] o4]; cbn [fst snd trace];
        rewrite !pick_app; cbn; now rewrite app_nil_r.
    + destruct (sqlite _ o2) as [[e |] o3]; cbn [fst snd trace];
        rewrite !pick_app; cbn; now rewrite app_nil_r.
Qed.

(** What a failed refresh does, step by step. *)
Lemma RefreshTokenIfNeeded_failure (connection : WHOOPConnection) (w : World E)
    (now : Time) (o1 o2 o3 : E) (err : error) (fault : option error) :
  clock (outside w) = (now, o1) ->
  ExpiresAt connection - now <= time.Hour ->
  whoopRefresh (RefreshToken connection) o1 = (Fail err, o2) ->
  sqlite (StDeactivateWHOOPConnection (UserID connection)) o2 = (fault, o3) ->
  RefreshTokenIfNeeded connection w =
  (Fail ("failed to refresh token for user " +:+ UserID connection +:+ ": " +:+ err),
   {| db := match fault with
            | None => DeactivateWHOOPConnection (UserID connection) (db w)
            | Some _ => db w
            end;
      outside := o3;
      trace := (trace w ++ [RefreshAccessToken (RefreshToken connection)])
                 ++ [Sql (StDeactivateWHOOPConnection (UserID connection))];
      logs := logs w ++ ["Refreshing WHOOP token for user " +:+ UserID connection] |}).
Proof.
  intros Hclock Hdue Hrefresh Hsql.
  unfold RefreshTokenIfNeeded, bind, Now, Printf, perform, ret,
    db_DeactivateWHOOPConnection, exec, bind, perform, update, ret.
  rewrite Hclock. cbn [fst snd outside db trace logs].
  rewrite Hour_ltb_Sub. apply Z.ltb_ge in Hdue. rewrite Hdue.
  cbn [fst snd outside db trace logs]. rewrite Hrefresh.
  cbn [fst snd outside db trace logs]. rewrite Hsql.
  destruct fault; reflexivity.
Qed.

(** *** Sync *)

(** With no active connection [SyncUserData] stops at the lookup. *)
Lemma SyncUserData_inactive (userID : string) (w : World E) :
  GetWHOOPConnection userID (db w) = None ->
  exists e o,
    SyncUserData userID w =
    (Some ("no WHOOP connection found for user " +:+ userID +:+ ": " +:+ e),
     {| db := db w; outside := o;
        trace := trace w ++ [Sql (StGetWHOOPConnection userID)]; logs := logs w |}).
Proof.
  intros Hnone. unfold SyncUserData, db_GetWHOOPConnection, bind, perform, query, ret.
  destruct (sqlite _ (outside w)) as [[e |] o]; cbn [fst snd outside db trace logs].
  - exists e, o. reflexivity.
  - rewrite Hnone. exists ErrNoRows, o. reflexivity.
Qed.

Lemma preserves_bind_post (J : Database -> Prop) {A C} (Q : A -> Prop)
    (m : M E A) (k : A -> M E C) :
  (forall w, J (db w) -> J (db (snd (m w))) /\ Q (fst (m w))) ->
  (forall a, Q a -> preserves J (k a)) ->
  preserves J (bind m k).
Proof.
  intros Hm Hk w Hw. unfold bind. destruct (Hm w Hw) as [HJ HQ].
  destruct (m w) as [a w1]. exact (Hk a HQ w1 HJ).
Qed.

Lemma inactive_RefreshTokenIfNeeded (u : string) (connection : WHOOPConnection) :
  UserID connection <> u -> preserves (inactive u) (RefreshTokenIfNeeded connection).
Proof.
  intros Hne.
  unfold RefreshTokenIfNeeded, db_DeactivateWHOOPConnection, db_UpsertWHOOPConnection.
  walk; intros d Hd; first [ now apply inactive_Deactivate | now apply inactive_Upsert ].
Qed.

Lemma inactive_storeRecovery (u : string) connection records :
  preserves (inactive u) (storeRecovery connection records).
Proof.
  induction records as [| r records IH]; cbn [storeRecovery]; unfold db_UpsertWHOOPRecovery;
    walk; try exact IH.
  intros d Hd. exact Hd.
Qed.

Lemma inactive_storeSleep (u : string) connection records :
  preserves (inactive u) (storeSleep connection records).
Proof.
  induction records as [| r records IH]; cbn [storeSleep]; unfold db_UpsertWHOOPSleep;
    walk; try exact IH.
  intros d Hd. exact Hd.
Qed.

(** A sync, of whichever user, leaves a deactivated user deactivated. *)
Lemma inactive_SyncUserData (u userID : string) :
  preserves (inactive u) (SyncUserData userID).
Proof.
  unfold SyncUserData.
  apply preserves_bind_post
    with (Q := fun r => match r with Ok c => UserID c <> u | Fail _ => True end).
  - intros w Hw. unfold db_GetWHOOPConnection, bind, perform, query, ret.
    destruct (sqlite _ (outside w)) as [[e |] o]; cbn [fst snd outside db trace logs];
      [auto |].
    destruct (GetWHOOPConnection userID (db w)) as [c |] eqn:Hc; cbn [fst snd db]; [| auto].
    split; [exact Hw |]. pose proof (GetWHOOPConnection_Some _ _ _ Hc) as (Hu & _ & _).
    intros Heq. rewrite Heq in Hu. subst userID. rewrite Hw in Hc. discriminate.
  - intros [c | e] Hc; [| walk].
    unfold syncRecoveryData, syncSleepData. walk;
      first [ now apply inactive_RefreshTokenIfNeeded | apply inactive_storeRecovery
            | apply inactive_storeSleep ].
Qed.

Lemma inactive_syncEach (u : string) connections :
  preserves (inactive u) (syncEach connections).
Proof.
  induction connections as [| c connections IH]; cbn [syncEach]; walk;
    first [ exact IH | apply inactive_SyncUserData ].
Qed.

Lemma inactive_call (u : string) (c : Call) :
  ~ reconnects u c -> preserves (inactive u) (call c).
Proof.
  destruct c; cbn [call reconnects]; intros Hq.
  - unfold GetAuthURL, GetAuthURL_state. walk.
  - unfold HandleOAuthCallback, db_UpsertWHOOPConnection. walk.
    intros d Hd. now apply inactive_Upsert.
  - walk. now apply inactive_RefreshTokenIfNeeded.
  - walk. apply inactive_SyncUserData.
  - unfold SyncAllUsersData, db_GetAllActiveWHOOPConnections. walk. apply inactive_syncEach.
  - unfold DisconnectUser, db_DeactivateWHOOPConnection. walk.
    intros d Hd. now apply inactive_Deactivate.
Qed.

Lemma inactive_calls (u : string) (history : list Call) :
  Forall (fun c => ~ reconnects u c) history -> preserves (inactive u) (calls history).
Proof.
  induction 1 as [| c history Hc _ IH]; cbn [calls]; walk;
    first [ exact IH | now apply inactive_call ].
Qed.

(** C1, as amended. When [RefreshTokenIfNeeded] is called on a
    connection whose expiry is within one hour and the provider's
    refresh call fails, the method sends the deactivating UPDATE right
    after the refresh call and before it returns the error; when the
    store carries that UPDATE out (the method discards its error), no
    connection of the user is active any more, and after any further
    calls that do not reconnect the user every [SyncUserData] for that
    user returns the no-connection error from the lookup alone, with
    no refresh call. *)
Theorem failed_refresh_deactivates
    (connection : WHOOPConnection) (w : World E) (now : Time) (o1 o2 o3 : E)
    (err : error) (later : list Call) :
  clock (outside w) = (now, o1) ->
  ExpiresAt connection - now <= time.Hour ->
  whoopRefresh (RefreshToken connection) o1 = (Fail err, o2) ->
  sqlite (StDeactivateWHOOPConnection (UserID connection)) o2 = (None, o3) ->
  Forall (fun c => ~ reconnects (UserID connection) c) later ->
  let u := UserID connection in
  let w1 := snd (RefreshTokenIfNeeded connection w) in
  let w2 := snd (calls later w1) in
  fst (RefreshTokenIfNeeded connection w)
  = Fail ("failed to refresh token for user " +:+ u +:+ ": " +:+ err)
  /\ trace w1 = trace w ++ [RefreshAccessToken (RefreshToken connection);
                            Sql (StDeactivateWHOOPConnection u)]
  /\ Forall (fun r => UserID r = u -> Active r = false) (whoop_connections (db w1))
  /\ GetWHOOPConnection u (db w1) = None
  /\ (exists e, fst (SyncUserData u w2)
                = Some ("no WHOOP connection found for user " +:+ u +:+ ": " +:+ e))
  /\ trace (snd (SyncUserData u w2)) = trace w2 ++ [Sql (StGetWHOOPConnection u)]
  /\ db (snd (SyncUserData u w2)) = db w2.
Proof.
  intros Hclock Hdue Hrefresh Hsql Hlater. cbv zeta.
  rewrite (RefreshTokenIfNeeded_failure connection w now o1 o2 o3 err None
             Hclock Hdue Hrefresh Hsql).
  cbn [fst snd db trace].
  assert (Hoff : GetWHOOPConnection (UserID connection)
                   (DeactivateWHOOPConnection (UserID connection) (db w)) = None)
    by apply GetWHOOPConnection_Deactivate.
  split; [reflexivity |]. split; [now rewrite <- app_assoc |]. split; [| split; [exact Hoff |]].
  - apply Forall_forall. intros r Hr Hu. rewrite list_elem_of_In in Hr.
    unfold GetWHOOPConnection in Hoff. rewrite find_none_iff in Hoff.
    specialize (Hoff r Hr). apply String.eqb_eq in Hu. rewrite Hu in Hoff. exact Hoff.
  - match goal with |- context [calls later ?w1] => set (w2 := snd (calls later w1)) end.
    assert (Hoff2 : GetWHOOPConnection (UserID connection) (db w2) = None)
      by (apply (inactive_calls _ _ Hlater); exact Hoff).
    destruct (SyncUserData_inactive (UserID connection) w2 Hoff2) as (e & o & ->).
    cbn [fst snd db trace]. split; [exists e; reflexivity | split; reflexivity].
Qed.

(** *** Sync of all users *)

Lemma adds_silent {B} (f : Event -> option B) {A} (m : M E A) :
  silent f m -> adds f [] m.
Proof. intros Hm w. rewrite app_nil_r. apply Hm. Qed.

Lemma adds_bind {B} (f : Event -> option B) (l1 l2 : list B) {A C}
    (m : M E A) (k : A -> M E C) :
  adds f l1 m -> (forall a, adds f l2 (k a)) -> adds f (l1 ++ l2) (bind m k).
Proof.
  intros Hm Hk w. unfold bind. specialize (Hm w).
  destruct (m w) as [a w1]. cbn [snd] in Hm. rewrite (Hk a w1), Hm. now rewrite app_assoc.
Qed.

Lemma silent_attempt_RefreshTokenIfNeeded connection :
  silent Spec.attempt (RefreshTokenIfNeeded connection).
Proof.
  unfold RefreshTokenIfNeeded, db_DeactivateWHOOPConnection, db_UpsertWHOOPConnection. walk.
Qed.

Lemma silent_attempt_storeRecovery connection records :
  silent Spec.attempt (storeRecovery connection records).
Proof.
  induction records as [| r records IH]; cbn [storeRecovery]; unfold db_UpsertWHOOPRecovery;
    walk; exact IH.
Qed.

Lemma silent_attempt_storeSleep connection records :
  silent Spec.attempt (storeSleep connection records).
Proof.
  induction records as [| r records IH]; cbn [storeSleep]; unfold db_UpsertWHOOPSleep;
    walk; exact IH.
Qed.

(** A call of [SyncUserData] is one attempt, for its user. *)
Lemma SyncUserData_attempt (userID : string) : adds Spec.attempt [userID] (SyncUserData userID).
Proof.
  unfold SyncUserData. change [userID] with ([userID] ++ @nil string).
  apply adds_bind.
  - intros w. unfold db_GetWHOOPConnection, bind, perform, query, ret.
    destruct (sqlite _ (outside w)) as [[e |] o]; cbn [fst snd outside db trace logs].
    + now rewrite pick_app.
    + destruct (GetWHOOPConnection userID (db w)); cbn [snd trace]; now rewrite pick_app.
  - intros r. apply adds_silent. unfold syncRecoveryData, syncSleepData. walk;
      first [ apply silent_attempt_RefreshTokenIfNeeded | apply silent_attempt_storeRecovery
            | apply silent_attempt_storeSleep ].
Qed.

Lemma syncEach_attempts (connections : list WHOOPConnection) :
  adds Spec.attempt (map UserID connections) (syncEach connections).
Proof.
  induction connections as [| c connections IH]; cbn [syncEach map].
  - apply adds_silent. walk.
  - change (UserID c :: map UserID connections)
      with ([UserID c] ++ map UserID connections).
    apply adds_bind; [apply SyncUserData_attempt |]. intros err.
    change (map UserID connections) with ([] ++ map UserID connections).
    apply adds_bind; [| intros _; exact IH].
    apply adds_silent. walk.
Qed.

(** C2, as amended. [SyncAllUsersData] returns an error when, and only
    when, listing the active connections fails, and then attempts no
    sync. When the listing succeeds it returns nil and calls
    [SyncUserData] exactly once for each listed connection, in order,
    whatever the individual calls return; rows being unique per user,
    no user is attempted twice; a failed call is logged and the loop
    goes on with the next connection. *)
Theorem SyncAllUsersData_one_attempt_each (w : World E) :
  let listed := GetAllActiveWHOOPConnections (db w) in
  let r := fst (SyncAllUsersData w) in
  let w' := snd (SyncAllUsersData w) in
  match fst (sqlite StGetAllActiveWHOOPConnections (outside w)) with
  | Some e =>
      r = Some ("failed to get WHOOP connections: " +:+ e)
      /\ Spec.pick Spec.attempt (trace w') = Spec.pick Spec.attempt (trace w)
  | None =>
      r = None
      /\ Spec.pick Spec.attempt (trace w')
         = Spec.pick Spec.attempt (trace w) ++ map UserID listed
  end
  /\ (Spec.uniqueUsers (db w) -> NoDup (map UserID listed))
  /\ (forall c rest (w0 : World E),
        syncEach (c :: rest) w0 =
        let (err, w1) := SyncUserData (UserID c) w0 in
        syncEach rest
          match err with
          | Some e => snd (Printf ("Failed to sync data for user " +:+ UserID c +:+ ": " +:+ e) w1)
          | None => w1
          end).
Proof.
  cbv zeta. split; [| split].
  - unfold SyncAllUsersData, db_GetAllActiveWHOOPConnections, bind, perform, query, ret, Printf.
    destruct (sqlite StGetAllActiveWHOOPConnections (outside w)) as [[e |] o];
      cbn [fst snd db trace outside logs].
    + rewrite pick_app. cbn. now rewrite app_nil_r.
    + match goal with
      | |- context [syncEach ?cs ?w1] =>
          pose proof (syncEach_attempts cs w1) as Hloop;
          destruct (syncEach cs w1) as [[] w2]
      end.
      cbn [fst snd trace] in *. split; [reflexivity |].
      rewrite Hloop, pick_app. cbn. now rewrite app_nil_r.
  - unfold Spec.uniqueUsers, GetAllActiveWHOOPConnections. apply NoDup_map_filter.
  - intros c rest w0. cbn [syncEach]. unfold bind.
    destruct (SyncUserData (UserID c) w0) as [[e |] w1]; reflexivity.
Qed.

End ServiceFacts.

(** ** Connecting an account *)

Section ConnectClaims.

Context {E : Type} `{Outside E}.

Lemma find_app_none {A} (f : A -> bool) (l1 l2 : list A) :
  List.find f l1 = None -> List.find f (l1 ++ l2) = List.find f l2.
Proof.
  induction l1 as [| a l1 IH]; cbn [List.find app]; [reflexivity |].
  destruct (f a); [discriminate | exact IH].
Qed.

(** The row just upserted is the one the lookup finds. *)
Lemma GetWHOOPConnection_Upsert (c : WHOOPConnection) (d : Database) :
  Active c = true ->
  GetWHOOPConnection (UserID c) (UpsertWHOOPConnection c d)
  = Some (with_id (whoop_connections_seq d + 1) c).
Proof.
  intros Ha. unfold GetWHOOPConnection, UpsertWHOOPConnection.
  cbn [whoop_connections set_connections]. rewrite find_app_none.
  - cbn [List.find with_id UserID Active]. now rewrite String.eqb_refl, Ha.
  - apply find_none_iff. intros x Hx. apply filter_In in Hx as [_ Hx].
    apply negb_true_iff in Hx. now rewrite Hx.
Qed.

Lemma GetAuthURL_state_eq (userID : string) (w : World E) :
  fst (GetAuthURL_state userID w) = authState userID (fst (entropy 16 (outside w))).
Proof.
  unfold GetAuthURL_state, GenerateState, bind, ret, authState.
  destruct (entropy 16 (outside w)); reflexivity.
Qed.

Lemma GetAuthURL_eq (c : Client) (userID : string) (w : World E) :
  fst (GetAuthURL c userID w) = Client_GetAuthURL c (fst (GetAuthURL_state userID w)).
Proof.
  unfold GetAuthURL, bind, ret. destruct (GetAuthURL_state userID w); reflexivity.
Qed.

(** C6, as amended. For every non-empty internal user id without a
    colon, the state that [GetAuthURL] builds is the user id, a colon,
    and the 32 hexadecimal digits of 16 bytes from the random source;
    the prefix of that state up to its first colon is the user id; and
    [HandleOAuthCallback], given that state and a code the provider
    accepts, stores and returns a connection for that user id (the
    store carrying the upsert out). *)
Theorem state_round_trip (c : Client) (userID : string) (w : World E) :
  userID <> "" ->
  Spec.colonFree userID = true ->
  let state := fst (GetAuthURL_state userID w) in
  fst (GetAuthURL c userID w) = Client_GetAuthURL c state
  /\ state = userID +:+ ":" +:+ hex.EncodeToString (fill16 (fst (entropy 16 (outside w))))
  /\ (exists token,
        state = userID +:+ ":" +:+ token
        /\ String.length token = 32%nat /\ Spec.isHex token = true)
  /\ stateUserID state = userID
  /\ forall (code : string) (w' : World E) tok prof (o1 o2 : E),
       whoopToken code (outside w') = (Ok tok, o1) ->
       whoopProfile (tr_AccessToken tok) o1 = (Ok prof, o2) ->
       (forall conn,
          fst (sqlite (StUpsertWHOOPConnection conn) (snd (clock (snd (clock o2))))) = None) ->
       exists conn row,
         fst (HandleOAuthCallback code state w') = Ok conn
         /\ UserID conn = userID /\ Active conn = true
         /\ GetWHOOPConnection userID (db (snd (HandleOAuthCallback code state w'))) = Some row
         /\ UserID row = userID /\ AccessToken row = tr_AccessToken tok.
Proof.
  intros Hne Hfree. cbv zeta. rewrite GetAuthURL_eq, GetAuthURL_state_eq.
  set (random := fst (entropy 16 (outside w))).
  assert (Hparse : stateUserID (authState userID random) = userID)
    by (unfold authState; now apply stateUserID_append).
  split; [reflexivity |]. split; [reflexivity |].
  split; [apply authState_shape |]. split; [exact Hparse |].
  intros code w' tok prof o1 o2 Htok Hprof Hsql.
  unfold HandleOAuthCallback. rewrite authState_long, Hparse.
  apply String.eqb_neq in Hne. rewrite Hne.
  unfold db_UpsertWHOOPConnection, exec, bind, perform, Now, update, Printf, ret.
  rewrite Htok. cbn [fst snd outside db trace logs]. rewrite Hprof.
  cbn [fst snd outside db trace logs].
  destruct (clock o2) as [now1 o3]. cbn [fst snd outside db trace logs] in *.
  destruct (clock o3) as [now2 o4]. cbn [fst snd outside db trace logs] in *.
  match goal with
  | |- context [sqlite (StUpsertWHOOPConnection ?conn) o4] =>
      pose proof (Hsql conn) as Hup;
      destruct (sqlite (StUpsertWHOOPConnection conn) o4) as [[e |] o5];
      cbn [fst] in Hup; [discriminate |];
      exists conn, (with_id (whoop_connections_seq (db w') + 1) conn)
  end.
  cbn [fst snd db UserID Active].
  repeat split; try reflexivity.
  rewrite <- (GetWHOOPConnection_Upsert _ (db w')) by reflexivity. reflexivity.
Qed.

End ConnectClaims.

(** ** Runs on the scripted world *)

Section Runs.

(** On U123, whose refresh token the provider rejects, the store being up. *)
Lemma failed_refresh_deactivates_witness :
  let connection := someConnection in
  let w := connected revoked in
  let u := UserID connection in
  let w1 := snd (RefreshTokenIfNeeded connection w) in
  let w2 := snd (calls afterwards w1) in
  (clock (outside w) = (now revoked, tick revoked)
   /\ ExpiresAt connection - now revoked <= time.Hour
   /\ whoopRefresh (RefreshToken connection) (tick revoked) = (Fail rejection, tick revoked)
   /\ sqlite (StDeactivateWHOOPConnection u) (tick revoked) = (None, tick revoked)
   /\ Forall (fun c => ~ reconnects u c) afterwards)
  /\ fst (RefreshTokenIfNeeded connection w)
     = Fail ("failed to refresh token for user " +:+ u +:+ ": " +:+ rejection)
  /\ trace w1 = trace w ++ [RefreshAccessToken (RefreshToken connection);
                            Sql (StDeactivateWHOOPConnection u)]
  /\ Forall (fun r => UserID r = u -> Active r = false) (whoop_connections (db w1))
  /\ GetWHOOPConnection u (db w1) = None
  /\ (exists e, fst (SyncUserData u w2)
                = Some ("no WHOOP connection found for user " +:+ u +:+ ": " +:+ e))
  /\ trace (snd (SyncUserData u w2)) = trace w2 ++ [Sql (StGetWHOOPConnection u)]
  /\ db (snd (SyncUserData u w2)) = db w2.
Proof.
  cbv zeta.
  assert (Hdue : ExpiresAt someConnection - now revoked <= time.Hour)
    by (vm_compute; discriminate).
  assert (Hquiet : Forall (fun c => ~ reconnects (UserID someConnection) c) afterwards)
    by (repeat constructor; intros []).
  split.
  - repeat split; [exact Hdue | exact Hquiet].
  - exact (failed_refresh_deactivates someConnection (connected revoked) (now revoked)
             (tick revoked) (tick revoked) (tick revoked) rejection afterwards
             eq_refl Hdue eq_refl eq_refl Hquiet).
Defined.

(** The same run, evaluated. *)
Example failed_refresh_run :
  let w1 := snd (RefreshTokenIfNeeded someConnection (connected revoked)) in
  let w2 := snd (calls afterwards w1) in
  option_map Active (List.find (fun r => String.eqb (UserID r) "U123") (whoop_connections (db w1)))
  = Some false
  /\ fst (SyncUserData "U123" w2)
     = Some "no WHOOP connection found for user U123: sql: no rows in result set"
  /\ Spec.pick Spec.refresh (trace (snd (SyncUserData "U123" w2))) = ["refresh-1"].
Proof. cbv zeta. repeat split; vm_compute; reflexivity. Qed.

(** C1 as stated fails when the store refuses the UPDATE whose error
    the method discards: the refresh has failed, the connection is
    still active, and the next [SyncUserData] calls refresh again and
    reports that failure, not a missing connection. *)
Lemma failed_refresh_with_locked_store_retries :
  let w := connected revokedAndLocked in
  let w1 := snd (RefreshTokenIfNeeded someConnection w) in
  ExpiresAt someConnection - now revokedAndLocked <= time.Hour
  /\ fst (RefreshTokenIfNeeded someConnection w)
     = Fail ("failed to refresh token for user U123: " +:+ rejection)
  /\ trace w1 = [RefreshAccessToken "refresh-1"; Sql (StDeactivateWHOOPConnection "U123")]
  /\ option_map Active (GetWHOOPConnection "U123" (db w1)) = Some true
  /\ fst (SyncUserData "U123" w1)
     = Some ("failed to refresh token: failed to refresh token for user U123: " +:+ rejection)
  /\ Spec.pick Spec.refresh (trace (snd (SyncUserData "U123" w1))) = ["refresh-1"; "refresh-1"].
Proof.
  cbv zeta. split; [vm_compute; discriminate |].
  repeat split; vm_compute; reflexivity.
Qed.

(** On two connected users, the refresh of the first one failing. *)
Lemma SyncAllUsersData_one_attempt_each_witness :
  let w := connected revoked in
  let listed := GetAllActiveWHOOPConnections (db w) in
  Spec.uniqueUsers (db w)
  /\ fst (SyncAllUsersData w) = None
  /\ Spec.pick Spec.attempt (trace (snd (SyncAllUsersData w)))
     = Spec.pick Spec.attempt (trace w) ++ map UserID listed
  /\ NoDup (map UserID listed).
Proof.
  cbv zeta.
  assert (Hu : Spec.uniqueUsers (db (connected revoked))).
  { unfold connected. cbn [db]. do 2 apply uniqueUsers_Upsert. apply uniqueUsers_empty. }
  destruct (SyncAllUsersData_one_attempt_each (connected revoked)) as (Hlist & Hd & _).
  split; [exact Hu |]. split; [exact (proj1 Hlist) |]. split; [exact (proj2 Hlist) |].
  exact (Hd Hu).
Defined.

(** The same run, evaluated: the sync of U123 fails at the refresh, is
    logged, and U456 is synced all the same. *)
Example SyncAllUsersData_run :
  let w' := snd (SyncAllUsersData (connected revoked)) in
  Spec.pick Spec.attempt (trace w') = ["U123"; "U456"]
  /\ Spec.pick (fun ev => match ev with GetSleep token _ _ => Some token | _ => None end)
       (trace w') = ["access-9"]
  /\ logs w' = ["Syncing WHOOP data for 2 users";
                "Refreshing WHOOP token for user U123";
                "Failed to sync data for user U123: failed to refresh token: "
                  +:+ "failed to refresh token for user U123: " +:+ rejection;
                "Completed WHOOP data sync"].
Proof. cbv zeta. repeat split; vm_compute; reflexivity. Qed.

(** C2 as stated fails: when the listing of active connections fails,
    [SyncAllUsersData] returns that error. *)
Lemma SyncAllUsersData_returns_listing_error :
  fst (SyncAllUsersData (connected locked))
  = Some "failed to get WHOOP connections: database is locked"
  /\ Spec.pick Spec.attempt (trace (snd (SyncAllUsersData (connected locked)))) = [].
Proof. split; vm_compute; reflexivity. Qed.

(** On a connection half an hour from expiry and on one far from it. *)
Lemma refresh_called_once_when_due_witness :
  (ExpiresAt someConnection - fst (clock (outside (connected healthy))) <= time.Hour
   /\ Spec.pick Spec.refresh (trace (snd (RefreshTokenIfNeeded someConnection (connected healthy))))
      = Spec.pick Spec.refresh (trace (connected healthy)) ++ [RefreshToken someConnection])
  /\ (time.Hour < ExpiresAt farFromExpiry - fst (clock (outside (connected healthy)))
      /\ fst (RefreshTokenIfNeeded farFromExpiry (connected healthy)) = Ok farFromExpiry
      /\ trace (snd (RefreshTokenIfNeeded farFromExpiry (connected healthy)))
         = trace (connected healthy)).
Proof.
  assert (Hdue : ExpiresAt someConnection - fst (clock (outside (connected healthy)))
                 <= time.Hour) by (vm_compute; discriminate).
  assert (Hfar : time.Hour < ExpiresAt farFromExpiry - fst (clock (outside (connected healthy))))
    by reflexivity.
  split.
  - split; [exact Hdue |].
    exact (proj1 (refresh_called_once_when_due someConnection (connected healthy)) Hdue).
  - split; [exact Hfar |].
    destruct (proj2 (refresh_called_once_when_due farFromExpiry (connected healthy)) Hfar)
      as (Hr & Ht & _).
    split; [exact Hr | exact Ht].
Defined.

(** The same runs, evaluated. *)
Example refresh_runs :
  trace (snd (RefreshTokenIfNeeded farFromExpiry (connected healthy))) = []
  /\ Spec.pick Spec.refresh (trace (snd (RefreshTokenIfNeeded someConnection (connected healthy))))
     = ["refresh-1"]
  /\ Spec.pick Spec.refresh (trace (snd (RefreshTokenIfNeeded someConnection (connected revoked))))
     = ["refresh-1"].
Proof. repeat split; vm_compute; reflexivity. Qed.

(** On the user id U123. *)
Lemma state_round_trip_witness :
  let userID := "U123" in
  let state := fst (GetAuthURL_state userID (start healthy)) in
  let w' := connected healthy in
  (userID <> "" /\ Spec.colonFree userID = true)
  /\ stateUserID state = userID
  /\ exists conn row,
       fst (HandleOAuthCallback "code" state w') = Ok conn
       /\ UserID conn = userID /\ Active conn = true
       /\ GetWHOOPConnection userID (db (snd (HandleOAuthCallback "code" state w'))) = Some row
       /\ UserID row = userID /\ AccessToken row = tr_AccessToken grant.
Proof.
  cbv zeta.
  assert (Hne : "U123" <> "") by discriminate.
  destruct (state_round_trip botClient "U123" (start healthy) Hne eq_refl)
    as (_ & _ & _ & Hparse & Hback).
  split; [split; [exact Hne | reflexivity] |]. split; [exact Hparse |].
  exact (Hback "code" (connected healthy) grant profile healthy healthy
           eq_refl eq_refl (fun _ => eq_refl)).
Defined.

(** The same run, evaluated. *)
Example state_round_trip_run :
  let state := fst (GetAuthURL_state "U123" (start healthy)) in
  state = "U123:3a00ff7b10a50cd2913a44ee085fb763"
  /\ fst (GetAuthURL botClient "U123" (start healthy))
     = "https://api.prod.whoop.com/oauth/oauth2/auth?client_id=cid"
         +:+ "&redirect_uri=https%3A%2F%2Fbot.example%2Fcallback&response_type=code"
         +:+ "&scope=read%3Arecovery+read%3Asleep+read%3Aprofile+read%3Aworkout"
         +:+ "&state=U123%3A3a00ff7b10a50cd2913a44ee085fb763"
  /\ stateUserID state = "U123"
  /\ option_map AccessToken
       (GetWHOOPConnection "U123" (db (snd (HandleOAuthCallback "code" state (connected healthy)))))
     = Some "access-2".
Proof. cbv zeta. repeat split; vm_compute; reflexivity. Qed.

(** C6 as stated fails on the empty user id, which holds no colon:
    the state built for it is the colon and the 32 digits, and
    [HandleOAuthCallback] rejects that state although the provider
    accepts the code. *)
Lemma empty_user_id_does_not_round_trip :
  let state := fst (GetAuthURL_state "" (start healthy)) in
  Spec.colonFree "" = true
  /\ state = ":3a00ff7b10a50cd2913a44ee085fb763"
  /\ whoopToken "code" healthy = (Ok grant, healthy)
  /\ fst (HandleOAuthCallback "code" state (start healthy)) = Fail "invalid state format"
  /\ db (snd (HandleOAuthCallback "code" state (start healthy))) = database.empty.
Proof. cbv zeta. repeat split; vm_compute; reflexivity. Qed.

(** C9 as stated fails: before connecting, and again after
    disconnecting, a user has no active connection at all. *)
Lemma not_always_one_active_connection :
  let connect := CallHandleOAuthCallback "code" (authState "U123" (randomBytes healthy)) in
  length (Spec.activeConnections "U123" (db (start healthy))) = 0%nat
  /\ length (Spec.activeConnections "U123" (db (snd (calls [connect] (start healthy))))) = 1%nat
  /\ length (Spec.activeConnections "U123"
               (db (snd (calls [connect; CallDisconnectUser "U123"] (start healthy))))) = 0%nat.
Proof. cbv zeta. repeat split; vm_compute; reflexivity. Qed.

End Runs.

(** * Further properties of the code *)

(** ** Formatter *)

Section MoreFormatterFacts.

Lemma values_app (key : string) (rows1 rows2 : list Row) :
  Spec.values key (rows1 ++ rows2) = Spec.values key rows1 ++ Spec.values key rows2.
Proof.
  induction rows1 as [| row rows1 IH]; [reflexivity |].
  cbn [app Spec.values]. destruct (Spec.carried key row); cbn [app]; now rewrite IH.
Qed.

Lemma values_skip (key : string) (rows1 rows2 : list Row) (row : Row) :
  Spec.carried key row = None ->
  Spec.values key (rows1 ++ row :: rows2) = Spec.values key (rows1 ++ rows2).
Proof.
  intros Hrow. rewrite !values_app. cbn [Spec.values]. now rewrite Hrow.
Qed.

(** X1. A row that carries none of the three metrics (a connected user
    not yet synced) changes nothing in the team summary, wherever it
    stands in the list. *)
Theorem summary_ignores_rows_without_metrics (rows1 rows2 : list Row) (row : Row) :
  Spec.carried "recovery_score" row = None ->
  Spec.carried "sleep_score" row = None ->
  Spec.carried "duration_ms" row = None ->
  calculateTeamSummary (rows1 ++ row :: rows2) = calculateTeamSummary (rows1 ++ rows2).
Proof.
  intros Hr Hs Hd. unfold calculateTeamSummary. rewrite !tally_rows.
  cbn [recoveryScores sleepScores totalSleepHours].
  now rewrite (values_skip _ _ _ _ Hr), (values_skip _ _ _ _ Hs), (values_skip _ _ _ _ Hd).
Qed.

(** Between the two example rows, a user known by name only. *)
Lemma summary_ignores_rows_without_metrics_witness :
  let row : Row := <["username" := VString "ada"]> ∅ in
  let rows1 := firstn 1 exampleRows in
  let rows2 := skipn 1 exampleRows in
  (Spec.carried "recovery_score" row = None
   /\ Spec.carried "sleep_score" row = None
   /\ Spec.carried "duration_ms" row = None)
  /\ calculateTeamSummary (rows1 ++ row :: rows2) = calculateTeamSummary (rows1 ++ rows2).
Proof.
  cbv zeta. split; [repeat split |].
  exact (summary_ignores_rows_without_metrics (firstn 1 exampleRows) (skipn 1 exampleRows)
           (<["username" := VString "ada"]> ∅) eq_refl eq_refl eq_refl).
Defined.

Lemma append_empty_r (s : string) : s +:+ "" = s.
Proof. induction s as [| c s IH]; simpl; [reflexivity | now f_equal]. Qed.

Lemma occurs_refl (s : string) : Spec.occurs s s.
Proof. exists "", "". change (s = s +:+ ""). now rewrite append_empty_r. Qed.

(** The loop over the users only appends to the message. *)
Lemma lines_extend (rows : list Row) : forall message,
  exists tail,
    fold_left (fun message userData => message +:+ formatUserData userData +:+ nl) rows message
    = message +:+ tail.
Proof.
  induction rows as [| row rows IH]; intros message; cbn [fold_left].
  - exists "". now rewrite append_empty_r.
  - destruct (IH (message +:+ formatUserData row +:+ nl)) as [tail ->].
    exists ((formatUserData row +:+ nl) +:+ tail). now rewrite !append_assoc.
Qed.

Lemma lines_hold_each (rows : list Row) (row : Row) : forall message,
  In row rows ->
  Spec.occurs (formatUserData row +:+ nl)
    (fold_left (fun message userData => message +:+ formatUserData userData +:+ nl) rows message).
Proof.
  induction rows as [| first rows IH]; intros message Hin; [destruct Hin |].
  cbn [fold_left]. destruct Hin as [-> | Hin]; [| now apply IH].
  destruct (lines_extend rows (message +:+ formatUserData row +:+ nl)) as [tail ->].
  apply occurs_before. apply occurs_after. apply occurs_refl.
Qed.

(** X2. Whenever there is at least one row, the standup starts with its
    header, is not the no-data message, and holds the line of every row
    of the team, each on a line of its own. *)
Theorem standup_lists_every_member (weekday : Weekday) (rows : list Row) (row : Row) :
  In row rows ->
  (exists rest, FormatMorningStandup weekday rows = standupHeader +:+ rest)
  /\ FormatMorningStandup weekday rows <> noDataMessage
  /\ Spec.occurs (formatUserData row +:+ nl) (FormatMorningStandup weekday rows).
Proof.
  intros Hin. destruct rows as [| first rows]; [destruct Hin |].
  destruct (standup_starts_with_header weekday first rows) as [rest Hrest].
  split; [exists rest; exact Hrest |]. split.
  - rewrite Hrest. intros Heq. apply (f_equal (String.get 24)) in Heq.
    cbv in Heq. discriminate Heq.
  - cbv beta iota zeta delta [FormatMorningStandup].
    do 2 apply occurs_after. apply occurs_before. now apply lines_hold_each.
Qed.

(** On the two example rows, for the second one. *)
Lemma standup_lists_every_member_witness :
  let row : Row := <["recovery_score" := VInt64 60]> ∅ in
  In row exampleRows
  /\ (exists rest, FormatMorningStandup Friday exampleRows = standupHeader +:+ rest)
  /\ FormatMorningStandup Friday exampleRows <> noDataMessage
  /\ Spec.occurs (formatUserData row +:+ nl) (FormatMorningStandup Friday exampleRows).
Proof.
  cbv zeta.
  assert (Hin : In (<["recovery_score" := VInt64 60]> ∅ : Row) exampleRows)
    by (right; left; reflexivity).
  split; [exact Hin |].
  exact (standup_lists_every_member Friday exampleRows _ Hin).
Defined.

(** X3. On a map without the keys [recovery_score], [sleep_score] and
    [strain_score], [FormatUserStatus] renders no metric section: the
    text is the title, the no-data notice and the hint. The maps of the
    status command are such maps: [GetUserLatestData] files its records
    under [recovery], [sleep] and [strain]. *)
Theorem status_without_metric_keys (userData : Row) :
  userData !! "recovery_score" = None ->
  userData !! "sleep_score" = None ->
  userData !! "strain_score" = None ->
  FormatUserStatus userData
  = "📊 *WHOOP Status for "
      +:+ (if String.eqb (getString userData "real_name") ""
           then getString userData "username" else getString userData "real_name")
      +:+ "*" +:+ nl +:+ nl +:+ statusNotice +:+ statusHint.
Proof.
  intros Hr Hs Ht. unfold FormatUserStatus, present, hasKey. rewrite Hr, Hs, Ht.
  cbn [orb]. rewrite !append_assoc. reflexivity.
Qed.

(** On the map of a user whose three latest records were found. *)
Lemma status_without_metric_keys_witness :
  let userData := statusCommandRow (VInt64 81) (VInt64 77) (VFloat64 (decimal 123 1)) "ada" "Ada L" in
  (userData !! "recovery_score" = None /\ userData !! "sleep_score" = None
   /\ userData !! "strain_score" = None)
  /\ FormatUserStatus userData
     = "📊 *WHOOP Status for "
         +:+ (if String.eqb (getString userData "real_name") ""
              then getString userData "username" else getString userData "real_name")
         +:+ "*" +:+ nl +:+ nl +:+ statusNotice +:+ statusHint.
Proof.
  cbv zeta. split; [repeat split |].
  exact (status_without_metric_keys
           (statusCommandRow (VInt64 81) (VInt64 77) (VFloat64 (decimal 123 1)) "ada" "Ada L")
           eq_refl eq_refl eq_refl).
Defined.

(** The same text, evaluated. *)
Example status_command_text :
  FormatUserStatus (statusCommandRow (VInt64 81) (VInt64 77) (VFloat64 (decimal 123 1)) "ada" "Ada L")
  = "📊 *WHOOP Status for Ada L*" +:+ nl +:+ nl
      +:+ "No WHOOP data available. Make sure your WHOOP account is connected!" +:+ nl +:+ nl
      +:+ statusHint.
Proof. vm_compute. reflexivity. Qed.

(** X4. The notice of [FormatUserStatus] looks at the keys only and the
    sections at the values: a map in which a metric key is there with a
    nil value, and no metric has a value, gets neither a section nor
    the notice. *)
Theorem status_with_nil_metric (userData : Row) :
  present userData "recovery_score" = false ->
  present userData "sleep_score" = false ->
  present userData "strain_score" = false ->
  hasKey userData "recovery_score" || hasKey userData "sleep_score"
    || hasKey userData "strain_score" = true ->
  FormatUserStatus userData
  = "📊 *WHOOP Status for "
      +:+ (if String.eqb (getString userData "real_name") ""
           then getString userData "username" else getString userData "real_name")
      +:+ "*" +:+ nl +:+ nl +:+ statusHint.
Proof.
  intros Hr Hs Ht Hk. unfold FormatUserStatus. rewrite Hr, Hs, Ht, Hk.
  rewrite !append_assoc. reflexivity.
Qed.

(** On a map whose recovery score is nil. *)
Lemma status_with_nil_metric_witness :
  let userData : Row := <["recovery_score" := VNil]> (<["username" := VString "ada"]> ∅) in
  (present userData "recovery_score" = false /\ present userData "sleep_score" = false
   /\ present userData "strain_score" = false
   /\ hasKey userData "recovery_score" || hasKey userData "sleep_score"
        || hasKey userData "strain_score" = true)
  /\ FormatUserStatus userData
     = "📊 *WHOOP Status for "
         +:+ (if String.eqb (getString userData "real_name") ""
              then getString userData "username" else getString userData "real_name")
         +:+ "*" +:+ nl +:+ nl +:+ statusHint.
Proof.
  cbv zeta. split; [repeat split |].
  exact (status_with_nil_metric (<["recovery_score" := VNil]> (<["username" := VString "ada"]> ∅))
           eq_refl eq_refl eq_refl eq_refl).
Defined.

End MoreFormatterFacts.

(** ** Mood label, URL, tables *)

Section MorePureFacts.

Lemma mood_table : forallb moodMatches (map Z.of_nat (seq 0 101)) = true.
Proof. vm_compute. reflexivity. Qed.

(** X5. In the mood label an absent metric counts as an average of 0:
    when one row carries a recovery score between 0 and 100 and no row
    carries a sleep score, the label is drawn from half the recovery
    score, so it is never above "ready to go", which takes a recovery
    of 90 or more. *)
Theorem mood_counts_missing_sleep_as_zero (rows : list Row) (score : Z) :
  Spec.values "recovery_score" rows = [score] ->
  Spec.values "sleep_score" rows = [] ->
  0 <= score <= 100 ->
  emoji (calculateTeamSummary rows) = moodOfRecoveryAlone score.
Proof.
  intros Hr Hs Hrange.
  assert (Hmood : emoji (calculateTeamSummary rows)
                  = getTeamMoodEmoji (Spec.mean (Spec.values "recovery_score" rows))
                      (Spec.mean (Spec.values "sleep_score" rows))).
  { unfold calculateTeamSummary. cbn [emoji]. rewrite tally_rows.
    cbn [recoveryScores sleepScores app]. now rewrite !average_mean. }
  rewrite Hmood, Hr, Hs. change (Spec.mean []) with zero.
  apply String.eqb_eq. change (moodMatches score = true).
  pose proof mood_table as Htable. rewrite forallb_forall in Htable.
  apply Htable. apply in_map_iff. exists (Z.to_nat score). split; [lia |].
  apply in_seq. lia.
Qed.

(** A single user, fully recovered, whose sleep is not synced yet. *)
Lemma mood_counts_missing_sleep_as_zero_witness :
  let rows : list Row := [<["recovery_score" := VInt64 100]> ∅] in
  (Spec.values "recovery_score" rows = [100] /\ Spec.values "sleep_score" rows = []
   /\ 0 <= 100 <= 100)
  /\ emoji (calculateTeamSummary rows) = moodOfRecoveryAlone 100.
Proof.
  cbv zeta.
  assert (Hrange : 0 <= 100 <= 100) by lia.
  split; [split; [reflexivity | split; [reflexivity | exact Hrange]] |].
  exact (mood_counts_missing_sleep_as_zero [<["recovery_score" := VInt64 100]> ∅] 100
           eq_refl eq_refl Hrange).
Defined.

Lemma upperhex_unreserved (c : ascii) :
  url.unreserved (url.upperhex (N_of_ascii c / 16)) = true
  /\ url.unreserved (url.upperhex (N_of_ascii c mod 16)) = true.
Proof. destruct c as [[] [] [] [] [] [] [] []]; split; vm_compute; reflexivity. Qed.

Lemma allChars_append (p : ascii -> bool) (a b : string) :
  allChars p (a +:+ b) = allChars p a && allChars p b.
Proof.
  induction a as [| c a IH]; simpl; [reflexivity |]. now rewrite IH, andb_assoc.
Qed.

Lemma QueryEscape_safe (s : string) : allChars querySafe (url.QueryEscape s) = true.
Proof.
  induction s as [| c s IH]; [reflexivity |].
  cbn [url.QueryEscape]. rewrite allChars_append, IH, andb_true_r.
  destruct (Ascii.eqb c " "); [reflexivity |].
  destruct (url.unreserved c) eqn:Hc.
  - cbn [allChars]. unfold querySafe. now rewrite Hc.
  - destruct (upperhex_unreserved c) as [Hhi Hlo].
    cbn [allChars]. unfold querySafe at 2 3. rewrite Hhi, Hlo. reflexivity.
Qed.

(** X6. Whatever the user id and the configuration hold, the query
    string of the authorization URL is made of letters, digits,
    [-_.~+%] and the [&] and [=] that [Client.GetAuthURL] itself puts
    between its five parameters: no byte of a value can end a
    parameter or start another one. *)
Theorem auth_url_query_is_escaped (c : Client) (state : string) :
  exists v1 v2 v3 v4 v5,
    Client_GetAuthURL c state
    = AuthURL +:+ "?client_id=" +:+ v1 +:+ "&redirect_uri=" +:+ v2
        +:+ "&response_type=" +:+ v3 +:+ "&scope=" +:+ v4 +:+ "&state=" +:+ v5
    /\ v5 = url.QueryEscape state
    /\ allChars querySafe v1 = true /\ allChars querySafe v2 = true
    /\ allChars querySafe v3 = true /\ allChars querySafe v4 = true
    /\ allChars querySafe v5 = true.
Proof.
  exists (url.QueryEscape (clientID c)), (url.QueryEscape (redirectURL c)),
         (url.QueryEscape "code"),
         (url.QueryEscape "read:recovery read:sleep read:profile read:workout"),
         (url.QueryEscape state).
  split.
  - unfold Client_GetAuthURL, url.Encode.
    change (url.QueryEscape "client_id") with "client_id".
    change (url.QueryEscape "redirect_uri") with "redirect_uri".
    change (url.QueryEscape "response_type") with "response_type".
    change (url.QueryEscape "scope") with "scope".
    change (url.QueryEscape "state") with "state".
    reflexivity.
  - split; [reflexivity |]. repeat split; apply QueryEscape_safe.
Qed.

Lemma filter_none {A} (p : A -> bool) (l : list A) :
  (forall x, In x l -> p x = false) -> List.filter p l = [].
Proof.
  induction l as [| a l IH]; intros Hall; [reflexivity |].
  cbn [List.filter]. rewrite (Hall a) by (left; reflexivity).
  apply IH. intros x Hx. apply Hall. right. exact Hx.
Qed.

(** X7. Upserting two recovery records of the same user and date, one
    after the other, leaves exactly one row for that user and date, and
    it holds the values of the second record. *)
Theorem recovery_upsert_replaces_same_day (r1 r2 : WHOOPRecovery) (d : Database) :
  rec_UserID r1 = rec_UserID r2 ->
  rec_Date r1 = rec_Date r2 ->
  exists row,
    recoveryOn (rec_UserID r2) (rec_Date r2) (UpsertWHOOPRecovery r2 (UpsertWHOOPRecovery r1 d))
    = [row]
    /\ rec_Score row = rec_Score r2 /\ rec_HRV row = rec_HRV r2 /\ rec_RHR row = rec_RHR r2
    /\ rec_CreatedAt row = rec_CreatedAt r2.
Proof.
  intros Hu Hd. eexists. split.
  - unfold recoveryOn. unfold UpsertWHOOPRecovery at 1. cbn [whoop_recovery].
    rewrite List.filter_app. cbn [List.filter rec_UserID rec_Date].
    rewrite String.eqb_refl, Z.eqb_refl. cbn [andb].
    rewrite filter_none; [reflexivity |].
    intros x Hx. apply List.filter_In in Hx as [_ Hx]. apply negb_true_iff in Hx. exact Hx.
  - cbn. auto.
Qed.

(** Two syncs of U123 on the same date, the score going from 40 to 65. *)
Lemma recovery_upsert_replaces_same_day_witness :
  let r1 := {| rec_ID := 0; rec_UserID := "U123"; rec_WHOOPUserID := "4242";
               rec_Date := 20000 * day; rec_Score := 40; rec_HRV := of_int 50;
               rec_RHR := 61; rec_CreatedAt := 20000 * day + 7 * time.Hour |} in
  let r2 := {| rec_ID := 0; rec_UserID := "U123"; rec_WHOOPUserID := "4242";
               rec_Date := 20000 * day; rec_Score := 65; rec_HRV := of_int 58;
               rec_RHR := 57; rec_CreatedAt := 20000 * day + 9 * time.Hour |} in
  (rec_UserID r1 = rec_UserID r2 /\ rec_Date r1 = rec_Date r2)
  /\ exists row,
       recoveryOn (rec_UserID r2) (rec_Date r2)
         (UpsertWHOOPRecovery r2 (UpsertWHOOPRecovery r1 database.empty)) = [row]
       /\ rec_Score row = rec_Score r2 /\ rec_HRV row = rec_HRV r2 /\ rec_RHR row = rec_RHR r2
       /\ rec_CreatedAt row = rec_CreatedAt r2.
Proof.
  cbv zeta. split; [split; reflexivity |].
  exact (recovery_upsert_replaces_same_day _ _ database.empty eq_refl eq_refl).
Defined.

(** X8. The state is split at its first colon, so a user id that holds
    a colon is cut there: for the user id [a:b], with [a] free of
    colons, the callback reads the user id [a]. *)
Theorem colon_in_user_id_is_cut (a b : string) (random : list Byte.byte) :
  Spec.colonFree a = true ->
  stateUserID (authState (a +:+ ":" +:+ b) random) = a.
Proof.
  intros Ha. unfold authState. rewrite !append_assoc. now apply stateUserID_append.
Qed.

(** On the user id [T1:U123]. *)
Lemma colon_in_user_id_is_cut_witness :
  Spec.colonFree "T1" = true
  /\ stateUserID (authState ("T1" +:+ ":" +:+ "U123") (randomBytes healthy)) = "T1".
Proof.
  split; [reflexivity |].
  exact (colon_in_user_id_is_cut "T1" "U123" (randomBytes healthy) eq_refl).
Defined.

End MorePureFacts.

(** ** More on the tables *)

Section MoreTableFacts.

Lemma GetWHOOPConnection_Upsert_other (u : string) (c : WHOOPConnection) (d : Database) :
  u <> UserID c ->
  GetWHOOPConnection u (UpsertWHOOPConnection c d) = GetWHOOPConnection u d.
Proof.
  intros Hne. unfold GetWHOOPConnection, UpsertWHOOPConnection.
  cbn [whoop_connections set_connections].
  assert (Hc : String.eqb (UserID c) u = false) by (apply String.eqb_neq; congruence).
  induction (whoop_connections d) as [| r rows IH]; cbn [List.filter app List.find].
  - cbn [with_id UserID Active]. now rewrite Hc.
  - destruct (String.eqb (UserID r) (UserID c)) eqn:Hr; cbn [negb app List.find].
    + apply String.eqb_eq in Hr. rewrite Hr, Hc. cbn [andb]. exact IH.
    + destruct (String.eqb (UserID r) u && Active r); [reflexivity | exact IH].
Qed.

Lemma activeConnections_Upsert (c : WHOOPConnection) (d : Database) :
  Active c = true ->
  Spec.activeConnections (UserID c) (UpsertWHOOPConnection c d)
  = [with_id (whoop_connections_seq d + 1) c].
Proof.
  intros Ha. unfold Spec.activeConnections, UpsertWHOOPConnection.
  cbn [whoop_connections set_connections].
  rewrite List.filter_app. cbn [List.filter with_id UserID Active].
  rewrite String.eqb_refl, Ha. cbn [andb].
  rewrite filter_none; [reflexivity |].
  intros x Hx. apply List.filter_In in Hx as [_ Hx]. apply negb_true_iff in Hx. now rewrite Hx.
Qed.

Lemma rows_of_user_Upsert (c r : WHOOPConnection) (d : Database) :
  In r (whoop_connections (UpsertWHOOPConnection c d)) ->
  UserID r = UserID c ->
  r = with_id (whoop_connections_seq d + 1) c.
Proof.
  unfold UpsertWHOOPConnection. cbn [whoop_connections set_connections].
  intros Hin Hu. apply in_app_or in Hin as [Hin | [<- | []]]; [| reflexivity].
  apply List.filter_In in Hin as [_ Hp]. apply negb_true_iff, String.eqb_neq in Hp.
  contradiction.
Qed.

Lemma GetWHOOPConnection_Deactivate_other (u userID : string) (d : Database) :
  u <> userID ->
  GetWHOOPConnection u (DeactivateWHOOPConnection userID d) = GetWHOOPConnection u d.
Proof.
  intros Hne. unfold GetWHOOPConnection, DeactivateWHOOPConnection.
  cbn [whoop_connections set_connections].
  induction (whoop_connections d) as [| r rows IH]; cbn [map List.find]; [reflexivity |].
  destruct (String.eqb (UserID r) userID) eqn:Hr.
  - apply String.eqb_eq in Hr. cbn [with_active UserID Active].
    assert (Hu : String.eqb (UserID r) u = false) by (apply String.eqb_neq; congruence).
    rewrite Hu. cbn [andb]. exact IH.
  - destruct (String.eqb (UserID r) u && Active r); [reflexivity | exact IH].
Qed.

Lemma Deactivate_keeps_tokens (userID : string) (d : Database) :
  map (fun r => (UserID r, AccessToken r, RefreshToken r))
    (whoop_connections (DeactivateWHOOPConnection userID d))
  = map (fun r => (UserID r, AccessToken r, RefreshToken r)) (whoop_connections d).
Proof.
  unfold DeactivateWHOOPConnection. cbn [whoop_connections set_connections].
  rewrite map_map. apply map_ext. intros r.
  destruct (String.eqb (UserID r) userID); reflexivity.
Qed.

Lemma inactive_not_listed (u : string) (d : Database) :
  GetWHOOPConnection u d = None ->
  ~ In u (map UserID (GetAllActiveWHOOPConnections d)).
Proof.
  unfold GetWHOOPConnection, GetAllActiveWHOOPConnections. rewrite find_none_iff.
  intros Hnone Hin. apply in_map_iff in Hin as (r & Hu & Hr).
  apply List.filter_In in Hr as [Hr Ha]. specialize (Hnone r Hr).
  rewrite Hu, String.eqb_refl, Ha in Hnone. discriminate.
Qed.

Lemma filter_key_once {A B} (f : A -> B) (p : A -> bool) (k : B) (l : list A) :
  (forall x, p x = true -> f x = k) ->
  NoDup (map f l) -> (length (List.filter p l) <= 1)%nat.
Proof.
  intros Hp. induction l as [| a l IH]; cbn [map List.filter]; intros Hd; [cbn; lia |].
  inversion Hd as [| ? ? Hnotin Hd']; subst. rewrite list_elem_of_In in Hnotin.
  destruct (p a) eqn:Ha; [| exact (IH Hd')].
  rewrite filter_none; [cbn; lia |].
  intros x Hx. destruct (p x) eqn:Hpx; [| reflexivity]. exfalso. apply Hnotin.
  apply in_map_iff. exists x. split; [| exact Hx]. now rewrite (Hp x Hpx), (Hp a Ha).
Qed.

Lemma uniqueDays_UpsertWHOOPRecovery (r : WHOOPRecovery) (d : Database) :
  uniqueDays d -> uniqueDays (UpsertWHOOPRecovery r d).
Proof.
  unfold uniqueDays. intros [Hr Hs]. split; [| exact Hs].
  unfold UpsertWHOOPRecovery. cbn [whoop_recovery].
  rewrite map_app. cbn [map rec_UserID rec_Date].
  apply NoDup_app. split; [now apply NoDup_map_filter |]. split.
  - intros x Hx Hx'. rewrite list_elem_of_In in Hx. rewrite list_elem_of_In in Hx'.
    destruct Hx' as [<- | []].
    apply in_map_iff in Hx as (y & Hy & Hyin). apply List.filter_In in Hyin as [_ Hp].
    apply negb_true_iff in Hp. injection Hy as Hu Hd.
    rewrite Hu, Hd, String.eqb_refl, Z.eqb_refl in Hp. discriminate.
  - apply NoDup_singleton.
Qed.

Lemma uniqueDays_UpsertWHOOPSleep (s : WHOOPSleep) (d : Database) :
  uniqueDays d -> uniqueDays (UpsertWHOOPSleep s d).
Proof.
  unfold uniqueDays. intros [Hr Hs]. split; [exact Hr |].
  unfold UpsertWHOOPSleep. cbn [whoop_sleep].
  rewrite map_app. cbn [map slp_UserID slp_Date].
  apply NoDup_app. split; [now apply NoDup_map_filter |]. split.
  - intros x Hx Hx'. rewrite list_elem_of_In in Hx. rewrite list_elem_of_In in Hx'.
    destruct Hx' as [<- | []].
    apply in_map_iff in Hx as (y & Hy & Hyin). apply List.filter_In in Hyin as [_ Hp].
    apply negb_true_iff in Hp. injection Hy as Hu Hd.
    rewrite Hu, Hd, String.eqb_refl, Z.eqb_refl in Hp. discriminate.
  - apply NoDup_singleton.
Qed.

Lemma uniqueDays_recoveryOn (userID : string) (date : Time) (d : Database) :
  uniqueDays d -> (length (recoveryOn userID date d) <= 1)%nat.
Proof.
  intros [Hr _]. unfold recoveryOn.
  apply (filter_key_once (fun r => (rec_UserID r, rec_Date r)) _ (userID, date)); [| exact Hr].
  intros x Hx. apply andb_prop in Hx as [Hu Hd].
  apply String.eqb_eq in Hu. apply Z.eqb_eq in Hd. now rewrite Hu, Hd.
Qed.

End MoreTableFacts.

(** ** More on the service *)

Section MoreServiceFacts.

Context {E : Type} `{Outside E}.

Ltac walk :=
  repeat match goal with
    | |- preserves _ (ret _) => apply preserves_ret
    | |- preserves _ (bind _ _) => apply preserves_bind; [| intro]
    | |- preserves _ Now => apply preserves_Now
    | |- preserves _ (Printf _) => apply preserves_Printf
    | |- preserves _ (perform _ _) => apply preserves_perform
    | |- preserves _ (query _) => apply preserves_query
    | |- preserves _ GenerateState => apply preserves_GenerateState
    | |- preserves _ (exec _ _) => apply preserves_exec
    | |- preserves _ (match ?x with _ => _ end) => destruct x
    | |- silent _ (ret _) => apply silent_ret
    | |- silent _ (bind _ _) => apply silent_bind; [| intro]
    | |- silent _ Now => apply silent_Now
    | |- silent _ (Printf _) => apply silent_Printf
    | |- silent _ (perform _ _) => apply silent_perform; try reflexivity
    | |- silent _ (query _) => apply silent_query
    | |- silent _ (exec _ _) => apply silent_exec; try reflexivity
    | |- silent _ (match ?x with _ => _ end) => destruct x
    end.

Lemma bind_run {A C} (m : M E A) (k : A -> M E C) (w : World E) :
  bind m k w = k (fst (m w)) (snd (m w)).
Proof. unfold bind. destruct (m w); reflexivity. Qed.

(** *** Invariants of the tables under every call *)

Section Invariant.

Variable J : Database -> Prop.
Hypothesis J_connection : forall c d, J d -> J (UpsertWHOOPConnection c d).
Hypothesis J_deactivate : forall u d, J d -> J (DeactivateWHOOPConnection u d).
Hypothesis J_recovery : forall r d, J d -> J (UpsertWHOOPRecovery r d).
Hypothesis J_sleep : forall s d, J d -> J (UpsertWHOOPSleep s d).

Lemma invariant_RefreshTokenIfNeeded connection : preserves J (RefreshTokenIfNeeded connection).
Proof.
  unfold RefreshTokenIfNeeded, db_DeactivateWHOOPConnection, db_UpsertWHOOPConnection.
  walk; auto.
Qed.

Lemma invariant_storeRecovery connection records :
  preserves J (storeRecovery connection records).
Proof.
  induction records as [| r records IH]; cbn [storeRecovery]; unfold db_UpsertWHOOPRecovery;
    walk; auto.
Qed.

Lemma invariant_storeSleep connection records :
  preserves J (storeSleep connection records).
Proof.
  induction records as [| r records IH]; cbn [storeSleep]; unfold db_UpsertWHOOPSleep;
    walk; auto.
Qed.

Lemma invariant_SyncUserData userID : preserves J (SyncUserData userID).
Proof.
  unfold SyncUserData, db_GetWHOOPConnection, syncRecoveryData, syncSleepData.
  walk; first [ apply invariant_RefreshTokenIfNeeded | apply invariant_storeRecovery
              | apply invariant_storeSleep ].
Qed.

Lemma invariant_syncEach connections : preserves J (syncEach connections).
Proof.
  induction connections as [| c connections IH]; cbn [syncEach]; walk;
    first [ exact IH | apply invariant_SyncUserData ].
Qed.

Lemma invariant_call (c : Call) : preserves J (call c).
Proof.
  destruct c; cbn [call].
  - unfold GetAuthURL, GetAuthURL_state. walk.
  - unfold HandleOAuthCallback, db_UpsertWHOOPConnection. walk. auto.
  - walk. apply invariant_RefreshTokenIfNeeded.
  - walk. apply invariant_SyncUserData.
  - unfold SyncAllUsersData, db_GetAllActiveWHOOPConnections. walk. apply invariant_syncEach.
  - unfold DisconnectUser, db_DeactivateWHOOPConnection. walk. auto.
Qed.

Lemma invariant_calls (history : list Call) : preserves J (calls history).
Proof.
  induction history as [| c history IH]; cbn [calls]; walk;
    first [ exact IH | apply invariant_call ].
Qed.

End Invariant.

(** X9. Whatever the host calls, in any order and whatever the
    outside world answers, the synced tables hold at most one recovery
    row and one sleep row per user and date. *)
Theorem one_row_per_user_and_day (o : E) (history : list Call) (userID : string) (date : Time) :
  let d := db (snd (calls history (start o))) in
  uniqueDays d /\ (length (recoveryOn userID date d) <= 1)%nat.
Proof.
  cbv zeta.
  assert (Hd : uniqueDays (db (snd (calls history (start o))))).
  { apply (invariant_calls uniqueDays); try (intros ? d Hd; exact Hd).
    - exact uniqueDays_UpsertWHOOPRecovery.
    - exact uniqueDays_UpsertWHOOPSleep.
    - split; constructor. }
  split; [exact Hd | now apply uniqueDays_recoveryOn].
Qed.

(** *** The OAuth callback *)

Lemma HandleOAuthCallback_outcome (code state : string) (w : World E) :
  match fst (HandleOAuthCallback code state w) with
  | Fail _ => db (snd (HandleOAuthCallback code state w)) = db w
  | Ok conn =>
      UserID conn = stateUserID state /\ Active conn = true
      /\ db (snd (HandleOAuthCallback code state w)) = UpsertWHOOPConnection conn (db w)
  end.
Proof.
  unfold HandleOAuthCallback.
  destruct (String.length state <? 10)%nat; [reflexivity |].
  cbv zeta. destruct (String.eqb (stateUserID state) ""); [reflexivity |].
  unfold db_UpsertWHOOPConnection, exec, bind, perform, Now, update, Printf, ret.
  destruct (whoopToken code (outside w)) as [[tok | e] o1];
    cbn [fst snd outside db trace logs]; [| reflexivity].
  destruct (whoopProfile _ o1) as [[prof | e] o2];
    cbn [fst snd outside db trace logs]; [| reflexivity].
  destruct (clock o2) as [now1 o3]; cbn [fst snd outside db trace logs].
  destruct (clock o3) as [now2 o4]; cbn [fst snd outside db trace logs].
  destruct (sqlite _ o4) as [[e |] o5]; cbn [fst snd db UserID Active];
    [reflexivity | auto].
Qed.

(** X10. A state shorter than 10 bytes, or one whose prefix up to the
    first colon is empty (no colon at all, or a leading colon), is
    rejected before anything is asked of the provider or of the store:
    the callback fails and leaves the process as it was. *)
Theorem invalid_state_sends_nothing (code state : string) (w : World E) :
  (String.length state < 10)%nat \/ stateUserID state = "" ->
  snd (HandleOAuthCallback code state w) = w
  /\ (fst (HandleOAuthCallback code state w) = Fail "invalid state parameter"
      \/ fst (HandleOAuthCallback code state w) = Fail "invalid state format").
Proof.
  intros Hbad. unfold HandleOAuthCallback.
  destruct (String.length state <? 10)%nat eqn:Hlen; [split; [reflexivity | now left] |].
  destruct Hbad as [Hshort | Hempty].
  - apply Nat.ltb_ge in Hlen. lia.
  - cbv zeta. rewrite Hempty. split; [reflexivity | now right].
Qed.

(** X11. A callback that fails, at whichever step (state, code
    exchange, profile, store), changes no table: tokens the provider
    has already issued for the code are dropped. *)
Theorem failed_callback_stores_nothing (code state : string) (w : World E) (err : error) :
  fst (HandleOAuthCallback code state w) = Fail err ->
  db (snd (HandleOAuthCallback code state w)) = db w.
Proof.
  intros Hfail. pose proof (HandleOAuthCallback_outcome code state w) as Hout.
  rewrite Hfail in Hout. exact Hout.
Qed.

(** X12. A callback that succeeds for a user replaces whatever rows the
    user had: afterwards the user's only row, and only active
    connection, is the new one under a fresh row id, and the lookup of
    every other user answers as before. *)
Theorem reconnect_replaces_connection (code state : string) (w : World E)
    (conn : WHOOPConnection) :
  fst (HandleOAuthCallback code state w) = Ok conn ->
  let d' := db (snd (HandleOAuthCallback code state w)) in
  let row := with_id (whoop_connections_seq (db w) + 1) conn in
  UserID conn = stateUserID state
  /\ Spec.activeConnections (UserID conn) d' = [row]
  /\ GetWHOOPConnection (UserID conn) d' = Some row
  /\ (forall r, In r (whoop_connections d') -> UserID r = UserID conn -> r = row)
  /\ (forall u, u <> UserID conn -> GetWHOOPConnection u d' = GetWHOOPConnection u (db w)).
Proof.
  intros Hok. cbv zeta. pose proof (HandleOAuthCallback_outcome code state w) as Hout.
  rewrite Hok in Hout. destruct Hout as (Hu & Ha & ->).
  split; [exact Hu |]. split; [now apply activeConnections_Upsert |].
  split; [now apply GetWHOOPConnection_Upsert |].
  split; [intros r; apply rows_of_user_Upsert |].
  intros u Hne. now apply GetWHOOPConnection_Upsert_other.
Qed.

(** X13. The callback never checks the random part of the state: two
    states of at least 10 bytes with the same prefix up to the first
    colon are treated alike, whatever follows the colon. *)
Theorem callback_ignores_random_part (code state1 state2 : string) (w : World E) :
  (10 <= String.length state1)%nat ->
  (10 <= String.length state2)%nat ->
  stateUserID state1 = stateUserID state2 ->
  HandleOAuthCallback code state1 w = HandleOAuthCallback code state2 w.
Proof.
  intros H1 H2 Heq. unfold HandleOAuthCallback.
  apply Nat.ltb_ge in H1. apply Nat.ltb_ge in H2. rewrite H1, H2. cbv zeta.
  rewrite Heq. reflexivity.
Qed.

(** *** Refresh *)

(** X14. When a refresh is due and the provider grants it, either the
    store takes the new row, and then the user's only active row holds
    the new access token, the new refresh token and an expiry counted
    from a second reading of the clock, with the old connection time;
    or the store refuses it, and then the tables are as before (the
    old tokens stay stored) and the error is the update failure. *)
Theorem refresh_rotates_stored_tokens
    (connection : WHOOPConnection) (w : World E) (now : Time) (o1 o2 : E)
    (tokenResp : TokenResponse) :
  Active connection = true ->
  clock (outside w) = (now, o1) ->
  ExpiresAt connection - now <= time.Hour ->
  whoopRefresh (RefreshToken connection) o1 = (Ok tokenResp, o2) ->
  match fst (RefreshTokenIfNeeded connection w) with
  | Ok refreshed =>
      AccessToken refreshed = tr_AccessToken tokenResp
      /\ RefreshToken refreshed = tr_RefreshToken tokenResp
      /\ ExpiresAt refreshed
         = time.Add (fst (clock o2)) (GoInt.mul (tr_ExpiresIn tokenResp) time.Second)
      /\ UserID refreshed = UserID connection
      /\ ConnectedAt refreshed = ConnectedAt connection
      /\ Spec.activeConnections (UserID connection)
           (db (snd (RefreshTokenIfNeeded connection w)))
         = [with_id (whoop_connections_seq (db w) + 1) refreshed]
  | Fail err =>
      db (snd (RefreshTokenIfNeeded connection w)) = db w
      /\ exists e, err = "failed to update WHOOP connection: " +:+ e
  end.
Proof.
  intros Ha Hclock Hdue Hrefresh.
  unfold RefreshTokenIfNeeded, bind, Now, Printf, perform, ret,
    db_UpsertWHOOPConnection, exec, bind, perform, update, ret.
  rewrite Hclock. cbn [fst snd outside db trace logs].
  rewrite Hour_ltb_Sub. apply Z.ltb_ge in Hdue. rewrite Hdue.
  cbn [fst snd outside db trace logs]. rewrite Hrefresh.
  cbn [fst snd outside db trace logs].
  destruct (clock o2) as [now' o3]. cbn [fst snd outside db trace logs].
  destruct (sqlite _ o3) as [[e |] o4]; cbn [fst snd db].
  - split; [reflexivity | exists e; reflexivity].
  - cbn [AccessToken RefreshToken ExpiresAt UserID ConnectedAt].
    repeat (split; [reflexivity |]).
    match goal with
    | |- context [UpsertWHOOPConnection ?c _] =>
        exact (activeConnections_Upsert c (db w) Ha)
    end.
Qed.

(** *** Sync of one user *)

Lemma db_GetWHOOPConnection_run (userID : string) (w : World E) :
  let w1 := snd (db_GetWHOOPConnection userID w) in
  db w1 = db w /\ logs w1 = logs w
  /\ trace w1 = trace w ++ [Sql (StGetWHOOPConnection userID)]
  /\ fst (db_GetWHOOPConnection userID w)
     = match fst (sqlite (StGetWHOOPConnection userID) (outside w)) with
       | Some e => Fail e
       | None =>
           match GetWHOOPConnection userID (db w) with
           | Some conn => Ok conn
           | None => Fail ErrNoRows
           end
       end.
Proof.
  cbv zeta. unfold db_GetWHOOPConnection, bind, perform, query, ret.
  destruct (sqlite _ (outside w)) as [[e |] o]; cbn [fst snd outside db trace logs].
  - auto.
  - destruct (GetWHOOPConnection userID (db w)); cbn [fst snd db trace logs]; auto.
Qed.

Lemma silent_fetch_RefreshTokenIfNeeded connection :
  silent fetchCall (RefreshTokenIfNeeded connection).
Proof.
  unfold RefreshTokenIfNeeded, db_DeactivateWHOOPConnection, db_UpsertWHOOPConnection. walk.
Qed.

Lemma silent_fetch_storeRecovery connection records :
  silent fetchCall (storeRecovery connection records).
Proof.
  induction records as [| r records IH]; cbn [storeRecovery]; unfold db_UpsertWHOOPRecovery;
    walk; exact IH.
Qed.

Lemma silent_fetch_storeSleep connection records :
  silent fetchCall (storeSleep connection records).
Proof.
  induction records as [| r records IH]; cbn [storeSleep]; unfold db_UpsertWHOOPSleep;
    walk; exact IH.
Qed.

Lemma adds_perform {B A} (f : Event -> option B) (ev : Event) (b : B) (call : E -> A * E) :
  f ev = Some b -> adds f [b] (perform ev call).
Proof.
  intros Hev w. unfold perform. destruct (call (outside w)). cbn [snd trace].
  rewrite pick_app. cbn [Spec.pick]. now rewrite Hev.
Qed.

Lemma syncRecoveryData_fetch connection start finish :
  adds fetchCall [GetRecovery (AccessToken connection) start finish]
    (syncRecoveryData connection start finish).
Proof.
  unfold syncRecoveryData.
  change [GetRecovery (AccessToken connection) start finish]
    with ([GetRecovery (AccessToken connection) start finish] ++ []).
  apply adds_bind; [now apply adds_perform |].
  intros r. apply adds_silent. destruct r; walk. apply silent_fetch_storeRecovery.
Qed.

Lemma syncSleepData_fetch connection start finish :
  adds fetchCall [GetSleep (AccessToken connection) start finish]
    (syncSleepData connection start finish).
Proof.
  unfold syncSleepData.
  change [GetSleep (AccessToken connection) start finish]
    with ([GetSleep (AccessToken connection) start finish] ++ []).
  apply adds_bind; [now apply adds_perform |].
  intros r. apply adds_silent. destruct r; walk. apply silent_fetch_storeSleep.
Qed.

(** The rows of [whoop_connections] are out of reach of the data sync. *)
Lemma connections_syncRecoveryData (J : list WHOOPConnection -> Prop) connection start finish :
  preserves (fun d => J (whoop_connections d)) (syncRecoveryData connection start finish).
Proof.
  unfold syncRecoveryData. walk.
  apply (invariant_storeRecovery (fun d => J (whoop_connections d))); intros ? d Hd; exact Hd.
Qed.

Lemma connections_syncSleepData (J : list WHOOPConnection -> Prop) connection start finish :
  preserves (fun d => J (whoop_connections d)) (syncSleepData connection start finish).
Proof.
  unfold syncSleepData. walk.
  apply (invariant_storeSleep (fun d => J (whoop_connections d))); intros ? d Hd; exact Hd.
Qed.

(** What [RefreshTokenIfNeeded] leaves behind for the sync, started
    from the row the lookup has just returned. *)
Lemma RefreshTokenIfNeeded_run (connection : WHOOPConnection) (w : World E) :
  GetWHOOPConnection (UserID connection) (db w) = Some connection ->
  let w' := snd (RefreshTokenIfNeeded connection w) in
  whoop_recovery (db w') = whoop_recovery (db w)
  /\ whoop_sleep (db w') = whoop_sleep (db w)
  /\ match fst (RefreshTokenIfNeeded connection w) with
     | Ok refreshed =>
         option_map AccessToken (GetWHOOPConnection (UserID connection) (db w'))
         = Some (AccessToken refreshed)
     | Fail _ => True
     end.
Proof.
  intros Hrow. cbv zeta. pose proof (GetWHOOPConnection_Some _ _ _ Hrow) as (_ & Ha & _).
  unfold RefreshTokenIfNeeded, bind, Now, Printf, perform, ret,
    db_DeactivateWHOOPConnection, db_UpsertWHOOPConnection, exec, bind, perform, update, ret.
  destruct (clock (outside w)) as [now o1]. cbn [fst snd outside db trace logs].
  destruct (time.Hour <? time.Sub (ExpiresAt connection) now).
  - cbn [fst snd db]. rewrite Hrow. auto.
  - cbn [fst snd outside db trace logs].
    destruct (whoopRefresh (RefreshToken connection) o1) as [[tokenResp | err] o2];
      cbn [fst snd outside db trace logs].
    + destruct (clock o2) as [now' o3]. cbn [fst snd outside db trace logs].
      destruct (sqlite _ o3) as [[e |] o4]; cbn [fst snd db]; [auto |].
      split; [reflexivity |]. split; [reflexivity |].
      match goal with
      | |- context [UpsertWHOOPConnection ?c _] =>
          pose proof (GetWHOOPConnection_Upsert c (db w) Ha) as Hnew
      end.
      cbn [UserID] in Hnew. rewrite Hnew. reflexivity.
    + destruct (sqlite _ o2) as [[e |] o3]; cbn [fst snd db]; auto.
Qed.

(** X15. [SyncUserData] reports an error only from the lookup of the
    connection or from the refresh of its token, and then it has asked
    the provider for no data and has left the synced tables alone. *)
Theorem sync_error_means_nothing_fetched (userID : string) (w : World E) (err : error) :
  fst (SyncUserData userID w) = Some err ->
  let w' := snd (SyncUserData userID w) in
  Spec.pick fetchCall (trace w') = Spec.pick fetchCall (trace w)
  /\ whoop_recovery (db w') = whoop_recovery (db w)
  /\ whoop_sleep (db w') = whoop_sleep (db w)
  /\ ((exists e, err = "no WHOOP connection found for user " +:+ userID +:+ ": " +:+ e)
      \/ (exists e, err = "failed to refresh token: " +:+ e)).
Proof.
  cbv zeta. unfold SyncUserData. rewrite bind_run. cbv beta.
  destruct (db_GetWHOOPConnection_run userID w) as (Hdb & _ & Htrace & Hres).
  destruct (db_GetWHOOPConnection userID w) as [[c | e] w1]; cbn [fst snd] in *.
  - assert (Hrow : GetWHOOPConnection userID (db w) = Some c).
    { destruct (fst (sqlite _ (outside w))); [discriminate |].
      destruct (GetWHOOPConnection userID (db w)); [congruence | discriminate]. }
    pose proof (GetWHOOPConnection_Some _ _ _ Hrow) as (Hu & _ & _).
    rewrite <- Hu, <- Hdb in Hrow.
    rewrite bind_run. cbv beta.
    pose proof (RefreshTokenIfNeeded_run c w1 Hrow) as (Hrec & Hslp & _).
    pose proof (silent_fetch_RefreshTokenIfNeeded c w1) as Hquiet.
    destruct (RefreshTokenIfNeeded c w1) as [[c' | e] w2]; cbn [fst snd] in *.
    + intros Hsome. exfalso. revert Hsome.
      repeat (rewrite bind_run; cbv beta). discriminate.
    + unfold ret. cbn [fst snd]. intros [= <-].
      rewrite Hquiet, Htrace, pick_app. cbn [Spec.pick fetchCall app]. rewrite app_nil_r.
      rewrite Hrec, Hslp, Hdb. repeat split. right. exists e. reflexivity.
  - unfold ret. cbn [fst snd]. intros [= <-].
    rewrite Htrace, pick_app. cbn [Spec.pick fetchCall app]. rewrite app_nil_r, Hdb.
    repeat split. left. exists e. reflexivity.
Qed.

(** X16. When [SyncUserData] returns nil it has read the clock once
    for the window, has asked the provider exactly once for the
    recovery and once for the sleep of the two days up to that reading,
    whether or not the first request failed, and both requests carried
    the access token that is stored for the user when the sync ends. *)
Theorem sync_fetches_with_stored_token (userID : string) (w : World E) :
  fst (SyncUserData userID w) = None ->
  let w' := snd (SyncUserData userID w) in
  exists token finish,
    Spec.pick fetchCall (trace w')
    = Spec.pick fetchCall (trace w)
        ++ [GetRecovery token (AddDate 0 0 (-2) finish) finish;
            GetSleep token (AddDate 0 0 (-2) finish) finish]
    /\ option_map AccessToken (GetWHOOPConnection userID (db w')) = Some token.
Proof.
  cbv zeta. unfold SyncUserData. rewrite bind_run. cbv beta.
  destruct (db_GetWHOOPConnection_run userID w) as (Hdb & _ & Htrace & Hres).
  destruct (db_GetWHOOPConnection userID w) as [[c | e] w1]; cbn [fst snd] in *;
    [| discriminate].
  assert (Hrow : GetWHOOPConnection userID (db w) = Some c).
  { destruct (fst (sqlite _ (outside w))); [discriminate |].
    destruct (GetWHOOPConnection userID (db w)); [congruence | discriminate]. }
  pose proof (GetWHOOPConnection_Some _ _ _ Hrow) as (Hu & _ & _).
  rewrite <- Hu, <- Hdb in Hrow.
  rewrite bind_run. cbv beta.
  pose proof (RefreshTokenIfNeeded_run c w1 Hrow) as (_ & _ & Hstored).
  pose proof (silent_fetch_RefreshTokenIfNeeded c w1) as Hquiet.
  destruct (RefreshTokenIfNeeded c w1) as [[c' | e] w2]; cbn [fst snd] in *;
    [| discriminate].
  intros _. rewrite Hu in Hstored.
  rewrite bind_run. cbv beta.
  assert (Hnow : trace (snd (Now w2)) = trace w2 /\ db (snd (Now w2)) = db w2)
    by (unfold Now; destruct (clock (outside w2)); auto).
  destruct (Now w2) as [finish w3]. cbn [fst snd] in *. destruct Hnow as [Hnt Hnd].
  exists (AccessToken c'), finish.
  match goal with
  | |- context [bind (syncRecoveryData c' ?s finish) ?k w3] =>
      set (rest := bind (syncRecoveryData c' s finish) k)
  end.
  assert (Hadds : adds fetchCall
                    ([GetRecovery (AccessToken c') (AddDate 0 0 (-2) finish) finish]
                       ++ ([] ++ ([GetSleep (AccessToken c') (AddDate 0 0 (-2) finish) finish]
                                    ++ ([] ++ [])))) rest).
  { unfold rest. apply adds_bind; [apply syncRecoveryData_fetch |]. intros err1.
    apply adds_bind; [apply adds_silent; destruct err1; walk |]. intros _.
    apply adds_bind; [apply syncSleepData_fetch |]. intros err2.
    apply adds_bind; [apply adds_silent; destruct err2; walk |]. intros _.
    apply adds_silent. walk. }
  assert (Hkeep : preserves
                    (fun d => option_map AccessToken (GetWHOOPConnection userID d)
                              = Some (AccessToken c')) rest).
  { unfold rest. walk;
      first [ apply (connections_syncRecoveryData
                       (fun rows => option_map AccessToken
                                      (List.find (fun r => String.eqb (UserID r) userID && Active r)
                                         rows) = Some (AccessToken c')))
            | apply (connections_syncSleepData
                       (fun rows => option_map AccessToken
                                      (List.find (fun r => String.eqb (UserID r) userID && Active r)
                                         rows) = Some (AccessToken c'))) ]. }
  split.
  - rewrite (Hadds w3), Hnt, Hquiet, Htrace, pick_app. cbn [Spec.pick fetchCall app].
    now rewrite app_nil_r.
  - apply Hkeep. rewrite Hnd. exact Hstored.
Qed.

(** *** Disconnecting *)

(** X17. Disconnecting deletes nothing: when the store carries the
    update out, the lookup of the user finds no connection any more,
    yet every row is still there with its access and refresh tokens,
    the synced recovery and sleep rows are untouched, and the lookup of
    every other user answers as before. *)
Theorem disconnect_is_a_soft_delete (userID : string) (w : World E) :
  fst (DisconnectUser userID w) = None ->
  let d := db w in
  let d' := db (snd (DisconnectUser userID w)) in
  GetWHOOPConnection userID d' = None
  /\ map (fun r => (UserID r, AccessToken r, RefreshToken r)) (whoop_connections d')
     = map (fun r => (UserID r, AccessToken r, RefreshToken r)) (whoop_connections d)
  /\ whoop_recovery d' = whoop_recovery d
  /\ whoop_sleep d' = whoop_sleep d
  /\ (forall u, u <> userID -> GetWHOOPConnection u d' = GetWHOOPConnection u d).
Proof.
  cbv zeta. unfold DisconnectUser, db_DeactivateWHOOPConnection, exec, bind, perform, update, ret.
  destruct (sqlite _ (outside w)) as [[e |] o]; cbn [fst snd db]; [discriminate |].
  intros _. split; [apply GetWHOOPConnection_Deactivate |].
  split; [apply Deactivate_keeps_tokens |]. split; [reflexivity |]. split; [reflexivity |].
  intros u Hne. now apply GetWHOOPConnection_Deactivate_other.
Qed.

(** X18. [SyncAllUsersData] makes no sync attempt for a user whose
    lookup finds no active connection, such as a user who has
    disconnected. *)
Theorem inactive_user_is_not_synced (userID : string) (w : World E) :
  GetWHOOPConnection userID (db w) = None ->
  exists attempted,
    Spec.pick Spec.attempt (trace (snd (SyncAllUsersData w)))
    = Spec.pick Spec.attempt (trace w) ++ attempted
    /\ ~ In userID attempted.
Proof.
  intros Hoff.
  unfold SyncAllUsersData, db_GetAllActiveWHOOPConnections, bind, perform, query, ret, Printf.
  destruct (sqlite StGetAllActiveWHOOPConnections (outside w)) as [[e |] o];
    cbn [fst snd db trace outside logs].
  - exists []. split; [| intros []]. rewrite pick_app. cbn. now rewrite !app_nil_r.
  - exists (map UserID (GetAllActiveWHOOPConnections (db w))).
    split; [| now apply inactive_not_listed].
    match goal with
    | |- context [syncEach ?cs ?w1] =>
        pose proof (syncEach_attempts cs w1) as Hloop;
        destruct (syncEach cs w1) as [[] w2]
    end.
    cbn [fst snd trace] in *. rewrite Hloop, pick_app. cbn. now rewrite app_nil_r.
Qed.

(** *** The callers *)

(** X19. The callback endpoint answers 400 exactly when the code or the
    state is missing, and then it has done nothing; otherwise it
    answers 200 or 500. Unless it answers 200 no table has changed;
    when it answers 200 the body is the success page and the user named
    in the state has an active connection. *)
Theorem callback_endpoint_answers (code state : string) (w : World E) :
  let r := fst (handleCallback code state w) in
  let w' := snd (handleCallback code state w) in
  (status r = 400 <-> code = "" \/ state = "")
  /\ (status r = 400 -> w' = w)
  /\ (status r = 200 \/ status r = 400 \/ status r = 500)
  /\ (status r <> 200 -> db w' = db w)
  /\ (status r = 200 ->
      body r = successHTML
      /\ exists row, GetWHOOPConnection (stateUserID state) (db w') = Some row
                     /\ Active row = true).
Proof.
  cbv zeta. unfold handleCallback.
  destruct (String.eqb code "") eqn:Hcode.
  { apply String.eqb_eq in Hcode. unfold ret, http_Error. cbn [fst snd status].
    repeat split; auto; discriminate. }
  destruct (String.eqb state "") eqn:Hstate.
  { apply String.eqb_eq in Hstate. unfold ret, http_Error. cbn [fst snd status].
    repeat split; auto; discriminate. }
  apply String.eqb_neq in Hcode. apply String.eqb_neq in Hstate.
  rewrite bind_run. cbv beta.
  pose proof (HandleOAuthCallback_outcome code state w) as Hout.
  destruct (HandleOAuthCallback code state w) as [[conn | e] w1]; cbn [fst snd] in *.
  - destruct Hout as (Hu & Ha & Hdb).
    unfold bind, Printf, ret. cbn [fst snd status body db].
    split; [split; [discriminate | intros [? | ?]; contradiction] |].
    split; [discriminate |]. split; [now left |]. split; [intros Hne; now contradiction Hne |].
    intros _. split; [reflexivity |].
    exists (with_id (whoop_connections_seq (db w) + 1) conn).
    rewrite Hdb, <- Hu. split; [now apply GetWHOOPConnection_Upsert | exact Ha].
  - unfold bind, Printf, ret, http_Error. cbn [fst snd status body db].
    split; [split; [discriminate | intros [? | ?]; contradiction] |].
    split; [discriminate |]. split; [now right; right |]. split; [intros _; exact Hout |].
    discriminate.
Qed.

Lemma invitation_is_not_the_connected_notice (authURL : string) :
  connectInvitation authURL <> alreadyConnected.
Proof.
  intros Heq. apply (f_equal (String.get 2)) in Heq. cbv in Heq. discriminate.
Qed.

(** X20. The connect command only reads: it sends the one lookup of
    the user and changes no table. It answers that the user is
    connected already exactly when that lookup returns a connection;
    when the lookup fails, for whatever reason, it answers with an
    invitation whose link carries the user id, a colon and 32
    hexadecimal digits as state. *)
Theorem connect_command_only_reads (c : Client) (userID : string) (w : World E) :
  let text := fst (handleConnectWHOOPCommand (Some c) userID w) in
  let w' := snd (handleConnectWHOOPCommand (Some c) userID w) in
  db w' = db w
  /\ trace w' = trace w ++ [Sql (StGetWHOOPConnection userID)]
  /\ (text = alreadyConnected <-> exists conn, fst (GetConnectionStatus userID w) = Ok conn)
  /\ ((forall conn, fst (GetConnectionStatus userID w) <> Ok conn) ->
      exists token,
        text = connectInvitation (Client_GetAuthURL c (userID +:+ ":" +:+ token))
        /\ String.length token = 32%nat /\ Spec.isHex token = true).
Proof.
  cbv zeta. unfold handleConnectWHOOPCommand, GetConnectionStatus.
  rewrite bind_run. cbv beta.
  destruct (db_GetWHOOPConnection_run userID w) as (Hdb & _ & Htrace & _).
  destruct (db_GetWHOOPConnection userID w) as [[conn | e] w1]; cbn [fst snd] in *.
  - unfold ret. cbn [fst snd]. split; [exact Hdb |]. split; [exact Htrace |].
    split; [split; [intros _; now exists conn | reflexivity] |].
    intros Hnot. now contradiction (Hnot conn).
  - unfold GetAuthURL, GetAuthURL_state, GenerateState, bind, ret.
    destruct (entropy 16 (outside w1)) as [bytes o]. cbn [fst snd db trace].
    split; [exact Hdb |]. split; [exact Htrace |]. split.
    + split; [intros Heq; now apply invitation_is_not_the_connected_notice in Heq |].
      intros [conn Hconn]. discriminate.
    + intros _. exists (hex.EncodeToString (fill16 bytes)). split; [reflexivity |].
      split; [now rewrite length_EncodeToString, length_fill16 | apply isHex_EncodeToString].
Qed.

(** X21. The disconnect command answers with the success text only
    when the lookup had found a connection and the user has none
    afterwards; with either of its two other texts it has changed no
    table. *)
Theorem disconnect_command_outcomes (c : Client) (userID : string) (w : World E) :
  let text := fst (handleDisconnectWHOOPCommand (Some c) userID w) in
  let w' := snd (handleDisconnectWHOOPCommand (Some c) userID w) in
  (text = disconnected
   /\ GetWHOOPConnection userID (db w') = None
   /\ exists conn, GetWHOOPConnection userID (db w) = Some conn)
  \/ ((text = nothingToDisconnect \/ text = disconnectFailed) /\ db w' = db w).
Proof.
  cbv zeta. unfold handleDisconnectWHOOPCommand, GetConnectionStatus.
  rewrite bind_run. cbv beta.
  destruct (db_GetWHOOPConnection_run userID w) as (Hdb & _ & _ & Hres).
  destruct (db_GetWHOOPConnection userID w) as [[conn | e] w1]; cbn [fst snd] in *.
  - assert (Hrow : GetWHOOPConnection userID (db w) = Some conn).
    { destruct (fst (sqlite _ (outside w))); [discriminate |].
      destruct (GetWHOOPConnection userID (db w)); [congruence | discriminate]. }
    unfold DisconnectUser, db_DeactivateWHOOPConnection, exec, bind, perform, update, ret.
    destruct (sqlite _ (outside w1)) as [[e |] o]; cbn [fst snd db].
    + right. split; [now right | exact Hdb].
    + left. split; [reflexivity |]. split; [apply GetWHOOPConnection_Deactivate |].
      now exists conn.
  - right. unfold ret. cbn [fst snd]. split; [now left | exact Hdb].
Qed.

End MoreServiceFacts.

(** ** More runs on the scripted world *)

Section MoreRuns.

(** On a long state without any colon. *)
Lemma invalid_state_sends_nothing_witness :
  let state := "U123-3a00ff7b10a50cd2" in
  ((String.length state < 10)%nat \/ stateUserID state = "")
  /\ snd (HandleOAuthCallback "code" state (connected healthy)) = connected healthy
  /\ (fst (HandleOAuthCallback "code" state (connected healthy)) = Fail "invalid state parameter"
      \/ fst (HandleOAuthCallback "code" state (connected healthy))
         = Fail "invalid state format").
Proof.
  cbv zeta.
  assert (Hbad : (String.length "U123-3a00ff7b10a50cd2" < 10)%nat
                 \/ stateUserID "U123-3a00ff7b10a50cd2" = "") by (right; reflexivity).
  split; [exact Hbad |].
  exact (invalid_state_sends_nothing "code" "U123-3a00ff7b10a50cd2" (connected healthy) Hbad).
Defined.

(** The provider accepts the code and serves the profile, then SQLite
    refuses the upsert. *)
Lemma failed_callback_stores_nothing_witness :
  let state := authState "U123" (randomBytes healthy) in
  fst (HandleOAuthCallback "code" state (connected readOnly))
  = Fail "failed to store WHOOP connection: attempt to write a readonly database"
  /\ db (snd (HandleOAuthCallback "code" state (connected readOnly))) = db (connected readOnly).
Proof.
  cbv zeta.
  assert (Hfail : fst (HandleOAuthCallback "code" (authState "U123" (randomBytes healthy))
                         (connected readOnly))
                  = Fail "failed to store WHOOP connection: attempt to write a readonly database")
    by (vm_compute; reflexivity).
  split; [exact Hfail |].
  exact (failed_callback_stores_nothing "code" (authState "U123" (randomBytes healthy))
           (connected readOnly) _ Hfail).
Defined.

(** U123, already connected, completes the flow again. *)
Lemma reconnect_replaces_connection_witness :
  let state := authState "U123" (randomBytes healthy) in
  let w := connected healthy in
  let d' := db (snd (HandleOAuthCallback "code" state w)) in
  let row := with_id (whoop_connections_seq (db w) + 1) reconnected in
  fst (HandleOAuthCallback "code" state w) = Ok reconnected
  /\ UserID reconnected = stateUserID state
  /\ Spec.activeConnections (UserID reconnected) d' = [row]
  /\ GetWHOOPConnection (UserID reconnected) d' = Some row
  /\ (forall r, In r (whoop_connections d') -> UserID r = UserID reconnected -> r = row)
  /\ (forall u, u <> UserID reconnected ->
                GetWHOOPConnection u d' = GetWHOOPConnection u (db w)).
Proof.
  cbv zeta.
  assert (Hok : fst (HandleOAuthCallback "code" (authState "U123" (randomBytes healthy))
                       (connected healthy)) = Ok reconnected)
    by (vm_compute; reflexivity).
  split; [exact Hok |].
  exact (reconnect_replaces_connection "code" (authState "U123" (randomBytes healthy))
           (connected healthy) reconnected Hok).
Defined.

(** The same run, evaluated: the row of U123 went from id 1 to id 3
    and holds the new tokens; U456 is as before. *)
Example reconnect_run :
  let d' := db (snd (HandleOAuthCallback "code" (authState "U123" (randomBytes healthy))
                       (connected healthy))) in
  map (fun r => (ID r, UserID r, AccessToken r, Active r)) (whoop_connections d')
  = [(2, "U456", "access-9", true); (3, "U123", "access-2", true)].
Proof. cbv zeta. vm_compute. reflexivity. Qed.

(** The state the service issued for U123 and one made up by the caller. *)
Lemma callback_ignores_random_part_witness :
  let state1 := authState "U123" (randomBytes healthy) in
  let state2 := forgedState in
  ((10 <= String.length state1)%nat /\ (10 <= String.length state2)%nat
   /\ stateUserID state1 = stateUserID state2)
  /\ HandleOAuthCallback "code" state1 (connected healthy)
     = HandleOAuthCallback "code" state2 (connected healthy).
Proof.
  cbv zeta.
  assert (H1 : (10 <= String.length (authState "U123" (randomBytes healthy)))%nat)
    by (vm_compute; lia).
  assert (H2 : (10 <= String.length forgedState)%nat) by (vm_compute; lia).
  assert (Heq : stateUserID (authState "U123" (randomBytes healthy)) = stateUserID forgedState)
    by (vm_compute; reflexivity).
  split; [split; [exact H1 | split; [exact H2 | exact Heq]] |].
  exact (callback_ignores_random_part "code" (authState "U123" (randomBytes healthy))
           forgedState (connected healthy) H1 H2 Heq).
Defined.

(** The same run, evaluated: the made-up state connects U123. *)
Example forged_state_run :
  option_map AccessToken
    (GetWHOOPConnection "U123"
       (db (snd (HandleOAuthCallback "code" forgedState (start healthy)))))
  = Some "access-2".
Proof. vm_compute. reflexivity. Qed.

(** On U123, half an hour from expiry, the provider granting the refresh. *)
Lemma refresh_rotates_stored_tokens_witness :
  let connection := someConnection in
  let w := connected healthy in
  (Active connection = true
   /\ clock (outside w) = (now healthy, tick healthy)
   /\ ExpiresAt connection - now healthy <= time.Hour
   /\ whoopRefresh (RefreshToken connection) (tick healthy) = (Ok grant, tick healthy))
  /\ match fst (RefreshTokenIfNeeded connection w) with
     | Ok refreshed =>
         AccessToken refreshed = tr_AccessToken grant
         /\ RefreshToken refreshed = tr_RefreshToken grant
         /\ ExpiresAt refreshed
            = time.Add (fst (clock (tick healthy))) (GoInt.mul (tr_ExpiresIn grant) time.Second)
         /\ UserID refreshed = UserID connection
         /\ ConnectedAt refreshed = ConnectedAt connection
         /\ Spec.activeConnections (UserID connection)
              (db (snd (RefreshTokenIfNeeded connection w)))
            = [with_id (whoop_connections_seq (db w) + 1) refreshed]
     | Fail err =>
         db (snd (RefreshTokenIfNeeded connection w)) = db w
         /\ exists e, err = "failed to update WHOOP connection: " +:+ e
     end.
Proof.
  cbv zeta.
  assert (Hdue : ExpiresAt someConnection - now healthy <= time.Hour)
    by (vm_compute; discriminate).
  split; [repeat split; exact Hdue |].
  exact (refresh_rotates_stored_tokens someConnection (connected healthy) (now healthy)
           (tick healthy) (tick healthy) grant eq_refl eq_refl Hdue eq_refl).
Defined.

(** The same refresh, evaluated, with the store up and with the store
    refusing the upsert. *)
Example refresh_rotation_runs :
  option_map (fun r => (AccessToken r, RefreshToken r))
    (GetWHOOPConnection "U123" (db (snd (RefreshTokenIfNeeded someConnection (connected healthy)))))
  = Some ("access-2", "refresh-2")
  /\ fst (RefreshTokenIfNeeded someConnection (connected readOnly))
     = Fail "failed to update WHOOP connection: attempt to write a readonly database"
  /\ option_map (fun r => (AccessToken r, RefreshToken r))
       (GetWHOOPConnection "U123"
          (db (snd (RefreshTokenIfNeeded someConnection (connected readOnly)))))
     = Some ("access-1", "refresh-1").
Proof. repeat split; vm_compute; reflexivity. Qed.

(** The sync of U123, whose refresh token the provider rejects. *)
Lemma sync_error_means_nothing_fetched_witness :
  let err := "failed to refresh token: failed to refresh token for user U123: " +:+ rejection in
  let w := connected revoked in
  let w' := snd (SyncUserData "U123" w) in
  fst (SyncUserData "U123" w) = Some err
  /\ Spec.pick fetchCall (trace w') = Spec.pick fetchCall (trace w)
  /\ whoop_recovery (db w') = whoop_recovery (db w)
  /\ whoop_sleep (db w') = whoop_sleep (db w)
  /\ ((exists e, err = "no WHOOP connection found for user " +:+ "U123" +:+ ": " +:+ e)
      \/ (exists e, err = "failed to refresh token: " +:+ e)).
Proof.
  cbv zeta.
  assert (Herr : fst (SyncUserData "U123" (connected revoked))
                 = Some ("failed to refresh token: failed to refresh token for user U123: "
                           +:+ rejection))
    by (vm_compute; reflexivity).
  split; [exact Herr |].
  exact (sync_error_means_nothing_fetched "U123" (connected revoked) _ Herr).
Defined.

(** The sync of U123 while the recovery endpoint is down. *)
Lemma sync_fetches_with_stored_token_witness :
  let w := connected recoveryDown in
  let w' := snd (SyncUserData "U123" w) in
  fst (SyncUserData "U123" w) = None
  /\ exists token finish,
       Spec.pick fetchCall (trace w')
       = Spec.pick fetchCall (trace w)
           ++ [GetRecovery token (AddDate 0 0 (-2) finish) finish;
               GetSleep token (AddDate 0 0 (-2) finish) finish]
       /\ option_map AccessToken (GetWHOOPConnection "U123" (db w')) = Some token.
Proof.
  cbv zeta.
  assert (Hnil : fst (SyncUserData "U123" (connected recoveryDown)) = None)
    by (vm_compute; reflexivity).
  split; [exact Hnil |].
  exact (sync_fetches_with_stored_token "U123" (connected recoveryDown) Hnil).
Defined.

(** The same run, evaluated: the refreshed token is used for both
    requests, the failure of the first one is logged, and the night
    served by the sleep endpoint is stored. *)
Example sync_with_recovery_down_run :
  let w' := snd (SyncUserData "U123" (connected recoveryDown)) in
  Spec.pick fetchCall (trace w')
  = [GetRecovery "access-2" (now healthy + 2 * time.Second - 2 * day)
       (now healthy + 2 * time.Second);
     GetSleep "access-2" (now healthy + 2 * time.Second - 2 * day)
       (now healthy + 2 * time.Second)]
  /\ logs w'
     = ["Refreshing WHOOP token for user U123";
        "Failed to sync recovery data for user U123: failed to get recovery data: "
          +:+ "get recovery failed with status 503: unavailable";
        "Sleep score was 0, estimated as 80 based on 90.0% efficiency and 8.0h duration"]
  /\ map (fun r => (slp_UserID r, slp_Score r)) (whoop_sleep (db w')) = [("U123", 80)]
  /\ whoop_recovery (db w') = [].
Proof. cbv zeta. repeat split; vm_compute; reflexivity. Qed.

(** U123 disconnects while U456 stays connected. *)
Lemma disconnect_is_a_soft_delete_witness :
  let w := connected healthy in
  let d := db w in
  let d' := db (snd (DisconnectUser "U123" w)) in
  fst (DisconnectUser "U123" w) = None
  /\ GetWHOOPConnection "U123" d' = None
  /\ map (fun r => (UserID r, AccessToken r, RefreshToken r)) (whoop_connections d')
     = map (fun r => (UserID r, AccessToken r, RefreshToken r)) (whoop_connections d)
  /\ whoop_recovery d' = whoop_recovery d
  /\ whoop_sleep d' = whoop_sleep d
  /\ (forall u, u <> "U123" -> GetWHOOPConnection u d' = GetWHOOPConnection u d).
Proof.
  cbv zeta.
  assert (Hnil : fst (DisconnectUser "U123" (connected healthy)) = None) by reflexivity.
  split; [exact Hnil |].
  exact (disconnect_is_a_soft_delete "U123" (connected healthy) Hnil).
Defined.

(** The same run, evaluated: the tokens of U123 are still stored. *)
Example disconnect_run :
  map (fun r => (UserID r, RefreshToken r, Active r))
    (whoop_connections (db (snd (DisconnectUser "U123" (connected healthy)))))
  = [("U123", "refresh-1", false); ("U456", "refresh-9", true)].
Proof. vm_compute. reflexivity. Qed.

(** After U123 has disconnected, the sync of all users. *)
Lemma inactive_user_is_not_synced_witness :
  let w := snd (DisconnectUser "U123" (connected healthy)) in
  GetWHOOPConnection "U123" (db w) = None
  /\ exists attempted,
       Spec.pick Spec.attempt (trace (snd (SyncAllUsersData w)))
       = Spec.pick Spec.attempt (trace w) ++ attempted
       /\ ~ In "U123" attempted.
Proof.
  cbv zeta.
  assert (Hoff : GetWHOOPConnection "U123"
                   (db (snd (DisconnectUser "U123" (connected healthy)))) = None)
    by (vm_compute; reflexivity).
  split; [exact Hoff |].
  exact (inactive_user_is_not_synced "U123" (snd (DisconnectUser "U123" (connected healthy)))
           Hoff).
Defined.

(** The same run, evaluated. *)
Example sync_after_disconnect_run :
  Spec.pick Spec.attempt
    (trace (snd (SyncAllUsersData (snd (DisconnectUser "U123" (connected healthy))))))
  = ["U456"].
Proof. vm_compute. reflexivity. Qed.

(** The callback endpoint and the two commands, on given requests. *)
Example caller_runs :
  let state := authState "U123" (randomBytes healthy) in
  status (fst (handleCallback "" state (start healthy))) = 400
  /\ status (fst (handleCallback "code" state (start healthy))) = 200
  /\ fst (handleCallback "code" state (start refused))
     = http_Error ("Failed to connect WHOOP account: failed to exchange code for token: "
                     +:+ "token exchange failed with status 400: invalid_grant") 500
  /\ fst (handleConnectWHOOPCommand (Some botClient) "U123" (connected healthy))
     = alreadyConnected
  /\ fst (handleConnectWHOOPCommand (Some botClient) "U123" (connected locked))
     = connectInvitation (Client_GetAuthURL botClient "U123:00000000000000000000000000000000")
  /\ fst (handleDisconnectWHOOPCommand (Some botClient) "U123" (connected healthy))
     = disconnected
  /\ fst (handleDisconnectWHOOPCommand (Some botClient) "U123" (connected locked))
     = nothingToDisconnect.
Proof. cbv zeta. repeat split; vm_compute; reflexivity. Qed.

End MoreRuns.

(** ** The loops over the fetched records *)

Section StoreLoops.

Context {E : Type} `{Outside E}.

Lemma adds_exec {B} (f : Event -> option B) (st : Statement) (b : B)
    (g : Database -> Database) :
  f (Sql st) = Some b -> adds f [b] (exec (E := E) st g).
Proof.
  intros Hst w. unfold exec, bind, perform, update, ret.
  destruct (sqlite st (outside w)) as [[e |] o]; cbn [snd trace];
    rewrite pick_app; cbn [Spec.pick]; now rewrite Hst.
Qed.

Lemma storeRecovery_upserts (connection : WHOOPConnection) (records : list RecoveryData) :
  adds recoveryUpsert
    (map (fun r => (UserID connection, time.Truncate (rd_CreatedAt r) day,
                    to_int (rd_RecoveryScore r))) records)
    (storeRecovery connection records).
Proof.
  induction records as [| r records IH]; cbn [storeRecovery map].
  - apply adds_silent. apply silent_ret.
  - match goal with
    | |- adds _ (?x :: ?l) _ => change (x :: l) with ([] ++ ([x] ++ ([] ++ l)))
    end.
    apply adds_bind; [apply adds_silent, silent_Now |]. intros now.
    apply adds_bind; [unfold db_UpsertWHOOPRecovery; now apply adds_exec |]. intros err.
    apply adds_bind; [| intros _; exact IH].
    apply adds_silent. destruct err; [apply silent_Printf | apply silent_ret].
Qed.

Lemma storeSleep_upserts (connection : WHOOPConnection) (records : list SleepData) :
  adds sleepUpsert
    (map (fun s => (UserID connection, time.Truncate (sd_End s) day, fst (sleepScore s)))
       records)
    (storeSleep connection records).
Proof.
  induction records as [| s records IH]; cbn [storeSleep map].
  - apply adds_silent. apply silent_ret.
  - match goal with
    | |- adds _ (?x :: ?l) _ => change (x :: l) with ([] ++ ([] ++ ([x] ++ ([] ++ l))))
    end.
    apply adds_bind.
    { apply adds_silent. destruct (snd (sleepScore s)); [apply silent_Printf | apply silent_ret]. }
    intros _.
    apply adds_bind; [apply adds_silent, silent_Now |]. intros now.
    apply adds_bind; [unfold db_UpsertWHOOPSleep; now apply adds_exec |]. intros err.
    apply adds_bind; [| intros _; exact IH].
    apply adds_silent. destruct err; [apply silent_Printf | apply silent_ret].
Qed.

(** X22. The loops of the data sync send one upsert for every fetched
    record, in the order fetched, under the connection's user id, the
    record's time truncated to a multiple of 24 hours, and the score
    (for sleep, the reported or the estimated one), whatever the store
    answers to each: a failed upsert is logged and the loop goes on. *)
Theorem every_fetched_record_is_upserted
    (connection : WHOOPConnection) (recovered : list RecoveryData) (slept : list SleepData)
    (w : World E) :
  Spec.pick recoveryUpsert (trace (snd (storeRecovery connection recovered w)))
  = Spec.pick recoveryUpsert (trace w)
      ++ map (fun r => (UserID connection, time.Truncate (rd_CreatedAt r) day,
                        to_int (rd_RecoveryScore r))) recovered
  /\ Spec.pick sleepUpsert (trace (snd (storeSleep connection slept w)))
     = Spec.pick sleepUpsert (trace w)
         ++ map (fun s => (UserID connection, time.Truncate (sd_End s) day,
                           fst (sleepScore s))) slept.
Proof. split; [apply storeRecovery_upserts | apply storeSleep_upserts]. Qed.

End StoreLoops.

(** A night whose upsert SQLite refuses: the upsert is sent, its
    failure is logged, and nothing is stored. *)
Example upsert_failure_is_logged :
  let w' := snd (storeSleep someConnection [unscoredNight (of_int 90) 8] (connected locked)) in
  Spec.pick sleepUpsert (trace w') = [("U123", 0, 80)]
  /\ whoop_sleep (db w') = []
  /\ logs w'
     = ["Sleep score was 0, estimated as 80 based on 90.0% efficiency and 8.0h duration";
        "Failed to store sleep data for user U123: database is locked"].
Proof. cbv zeta. repeat split; vm_compute; reflexivity. Qed.
